(** * Bosch Indego mower integration: the hub of [custom_components/indego]

    A shallow embedding of [custom_components/indego/__init__.py]: the icon
    functions, the entity table, [async_setup] and the [IndegoHub] with its
    three refresh loops and its shutdown handler, followed by the properties
    of the specification that were checked against it. *)

From Stdlib Require Import ZArith QArith Lia Ascii String DecimalString.
From stdpp Require Import base decidable option list gmap strings fin_maps.

Local Open Scope string_scope.
Local Open Scope Z_scope.

(** ** Python values and exceptions *)

Module Py.

(** The classes of exception the module and the libraries under it raise.
    All of them derive from [Exception]; the bases are those of CPython
    and of [aiohttp.client_exceptions]. *)
Inductive exn : Type :=
| Exception_
| TypeError
| ValueError
| ArithmeticError
| OverflowError
| LookupError
| KeyError
| NameError
| UnboundLocalError
| AttributeError
| asyncio_TimeoutError
| ClientError
| ClientResponseError
| TooManyRedirects
| ClientConnectionError
| ServerConnectionError
| ServerTimeoutError
| vol_Invalid
| UserException (name : string).

#[export] Instance exn_eq_dec : EqDecision exn.
Proof. solve_decision. Defined.

(** Direct base classes.  [TooManyRedirects] is declared in aiohttp as
    [class TooManyRedirects(ClientResponseError)], and [ServerTimeoutError]
    as [class ServerTimeoutError(ServerConnectionError, asyncio.TimeoutError)]. *)
Definition bases (c : exn) : list exn :=
  match c with
  | Exception_ => []
  | TypeError | ValueError | ArithmeticError | LookupError | NameError
  | AttributeError | asyncio_TimeoutError | ClientError | vol_Invalid
  | UserException _ => [Exception_]
  | OverflowError => [ArithmeticError]
  | KeyError => [LookupError]
  | UnboundLocalError => [NameError]
  | ClientResponseError => [ClientError]
  | TooManyRedirects => [ClientResponseError]
  | ClientConnectionError => [ClientError]
  | ServerConnectionError => [ClientConnectionError]
  | ServerTimeoutError => [ServerConnectionError; asyncio_TimeoutError]
  end.

Fixpoint issubclass_upto (fuel : nat) (c d : exn) : bool :=
  bool_decide (c = d) ||
  match fuel with
  | O => false
  | S fuel' => existsb (fun b => issubclass_upto fuel' b d) (bases c)
  end.

(** No chain of bases is longer than five classes. *)
Definition issubclass (c d : exn) : bool := issubclass_upto 5 c d.

(** [except (C1, C2, ...)] matches an exception whose class derives from
    one of the listed classes. *)
Definition isinstance (e : exn) (classes : list exn) : bool :=
  existsb (issubclass e) classes.

(** Outcome of a call: a value, or a raised exception, or the
    [CancelledError] that a cancelled task sees at its await (since
    Python 3.8 that class derives from [BaseException] only, so that no
    [except Exception] clause handles it). *)
Inductive result (A : Type) : Type :=
| Ok (a : A)
| Raise (e : exn)
| Cancelled.
Arguments Ok {A} a.
Arguments Raise {A} e.
Arguments Cancelled {A}.

(** The values an entity state or an attribute holds. A [datetime] is kept
    as its POSIX time stamp, a finite [float] as a rational; the floats
    that are no numbers, [nan] and the two infinities, stand apart. *)
Inductive value : Type :=
| PNone
| PBool (b : bool)
| PInt (z : Z)
| PFloat (q : Q)
| PNaN
| PInf (negative : bool)
| PStr (s : string)
| PDatetime (t : Z).

(** Truth value testing, [bool(v)]. *)
Definition truthy (v : value) : bool :=
  match v with
  | PNone => false
  | PBool b => b
  | PInt z => negb (z =? 0)
  | PFloat q => negb (Qnum q =? 0)
  | PNaN | PInf _ => true
  | PStr s => negb (bool_decide (s = ""))
  | PDatetime _ => true
  end.

(** [v == s] for a string constant [s]: only an equal string is equal. *)
Definition eq_str (v : value) (s : string) : bool :=
  match v with
  | PStr s' => bool_decide (s' = s)
  | _ => false
  end.

(** *** [int(v)] *)


(** White space that [int] skips at both ends of a string: tab, line feed,
    vertical tab, form feed, carriage return and the blank. The separators
    28 to 31, white space for [str.isspace], are not skipped. *)
Definition is_space (c : ascii) : bool :=
  let n := Z.of_nat (nat_of_ascii c) in
  ((9 <=? n) && (n <=? 13)) || (n =? 32).

Definition digit_of (c : ascii) : option Z :=
  let n := Z.of_nat (nat_of_ascii c) in
  if (48 <=? n) && (n <=? 57) then Some (n - 48) else None.

Fixpoint lstrip (s : list ascii) : list ascii :=
  match s with
  | c :: s' => if is_space c then lstrip s' else s
  | [] => []
  end.

Definition strip (s : list ascii) : list ascii :=
  rev (lstrip (rev (lstrip s))).

(** Digits of a decimal literal: groups of digits separated by single
    underscores. [acc] is the value read so far and [after_digit] tells
    whether the previous character was a digit. *)
Fixpoint digits (s : list ascii) (acc : Z) (after_digit : bool) : option Z :=
  match s with
  | [] => if after_digit then Some acc else None
  | c :: s' =>
      match digit_of c with
      | Some d => digits s' (10 * acc + d) true
      | None =>
          if bool_decide (c = "_"%char) && after_digit
          then digits s' acc false
          else None
      end
  end.

(** The limit of [sys.int_max_str_digits]: a literal with more digits is
    refused. *)
Definition int_max_str_digits : nat := 4300.

Definition count_digits (s : list ascii) : nat :=
  length (filter (fun c => is_Some (digit_of c)) s).

Definition int_of_string (s : string) : option Z :=
  let literal := strip (list_ascii_of_string s) in
  if bool_decide (int_max_str_digits < count_digits literal)%nat then None else
  match literal with
  | "-"%char :: ds => Z.opp <$> digits ds 0 false
  | "+"%char :: ds => digits ds 0 false
  | ds => digits ds 0 false
  end.

(** [int(v)]: a finite float is truncated towards zero, [nan] and the
    infinities are refused with [ValueError] and [OverflowError], a string
    is read as a decimal literal, [None] and a [datetime] have no integer
    conversion. *)
Definition int (v : value) : result Z :=
  match v with
  | PNone => Raise TypeError
  | PBool b => Ok (if b then 1 else 0)
  | PInt z => Ok z
  | PFloat q => Ok (Z.quot (Qnum q) (Z.pos (Qden q)))
  | PNaN => Raise ValueError
  | PInf _ => Raise OverflowError
  | PStr s =>
      match int_of_string s with
      | Some z => Ok z
      | None => Raise ValueError
      end
  | PDatetime _ => Raise TypeError
  end.

(** [str(z)] for an integer. *)
Definition str_of_int (z : Z) : string :=
  NilZero.string_of_int (Z.to_int z).

End Py.
Export Py.

(** ** Constants of [homeassistant.const] *)

Definition STATE_UNKNOWN : string := "unknown".
Definition STATE_ON : string := "on".
Definition TEMP_CELSIUS : string := "°C".
Definition DEVICE_CLASS_CONNECTIVITY : string := "connectivity".
Definition DEVICE_CLASS_PROBLEM : string := "problem".
Definition DEVICE_CLASS_BATTERY : string := "battery".
Definition DEVICE_CLASS_TIMESTAMP : string := "timestamp".

(** ** Icon functions *)

Definition FUNC_ICON_BATTERY (state : value) : result string :=
  if truthy state && negb (eq_str state STATE_UNKNOWN) then
    match int state with
    | Ok state =>
        if state =? 0 then Ok "mdi:battery-outline"
        else if state =? 100 then Ok "mdi:battery"
        else Ok ("mdi:battery-" +:+ str_of_int (state - state `mod` 10))
    | Raise e => Raise e
    | Cancelled => Cancelled
    end
  else Ok "mdi:battery-50".

Definition FUNC_ICON_MOWER_ALERT (state : value) : result string :=
  if truthy state then
    match int state with
    | Ok n =>
        if (0 <? n) || eq_str state STATE_ON
        then Ok "mdi:alert-outline"
        else Ok "mdi:check-circle-outline"
    | Raise e => Raise e
    | Cancelled => Cancelled
    end
  else Ok "mdi:check-circle-outline".


(** ** Constants of [custom_components/indego/const.py]

    The module is imported by the hub but is not part of the sources at
    hand, so its constants are parameters of the development. *)

Class Const : Type := {
  DOMAIN : string;
  SENSOR_TYPE : string;
  BINARY_SENSOR_TYPE : string;
  ENTITY_ONLINE : string;
  ENTITY_UPDATE_AVAILABLE : string;
  ENTITY_ALERT : string;
  ENTITY_MOWER_STATE : string;
  ENTITY_MOWER_STATE_DETAIL : string;
  ENTITY_BATTERY : string;
  ENTITY_LAWN_MOWED : string;
  ENTITY_LAST_COMPLETED : string;
  ENTITY_NEXT_MOW : string;
  ENTITY_MOWING_MODE : string;
  ENTITY_RUNTIME : string;
  ENTITY_MOWER_ALERT : string;
  CONF_SEND_COMMAND : string;
  CONF_SMARTMOWING : string;
  DEFAULT_NAME_COMMANDS : string;
  SERVICE_NAME_COMMAND : string;
  SERVICE_NAME_SMARTMOW : string;
  INDEGO_COMPONENTS : list string;
}.

(** The entity keys in the order of the table below. *)
Definition entity_keys `{Const} : list string :=
  [ ENTITY_ONLINE; ENTITY_UPDATE_AVAILABLE; ENTITY_ALERT; ENTITY_MOWER_STATE;
    ENTITY_MOWER_STATE_DETAIL; ENTITY_BATTERY; ENTITY_LAWN_MOWED;
    ENTITY_LAST_COMPLETED; ENTITY_NEXT_MOW; ENTITY_MOWING_MODE;
    ENTITY_RUNTIME; ENTITY_MOWER_ALERT ].

(** What the hub relies on: the twelve keys are different strings, the
    two entity types are told apart, and so are the names of the two
    services. *)
Definition const_wf `{Const} : Prop :=
  NoDup entity_keys ∧ SENSOR_TYPE ≠ BINARY_SENSOR_TYPE
  ∧ SERVICE_NAME_COMMAND ≠ SERVICE_NAME_SMARTMOW.

#[export] Instance const_wf_dec `{Const} : Decision const_wf.
Proof. unfold const_wf. apply _. Defined.

(** ** Entities *)

(** An icon is a fixed string or a function of the entity state. *)
Inductive icon : Type :=
| IconStr (s : string)
| IconFunc (f : value → result string).

Inductive entity_init : Type :=
| SensorInit (serial entity_id name : string) (icon_ : icon)
    (device_class unit_of_measurement : option string) (attr : list string)
| BinarySensorInit (serial entity_id name : string) (icon_ : icon)
    (device_class : option string) (attr : list string).

(** Modelled from the spec: [IndegoSensor] and [IndegoBinarySensor] (the
    modules [sensor.py] and [binary_sensor.py] are not part of the sources).
    An entity is "a named, typed state holder (sensor or binary sensor) with
    display metadata (icon, unit, device class) and a mapping of auxiliary
    attributes": what its constructor received, a state and the attribute
    mapping. *)
Record Entity : Type := {
  ent_init : entity_init;
  ent_state : value;
  ent_attributes : gmap string value;
}.

Definition IndegoSensor (serial entity_id name : string) (icon_ : icon)
    (device_class unit_of_measurement : option string) (attr : list string) : Entity :=
  {| ent_init := SensorInit serial entity_id name icon_ device_class
                   unit_of_measurement attr;
     ent_state := PNone; ent_attributes := ∅ |}.

Definition IndegoBinarySensor (serial entity_id name : string) (icon_ : icon)
    (device_class : option string) (attr : list string) : Entity :=
  {| ent_init := BinarySensorInit serial entity_id name icon_ device_class attr;
     ent_state := PNone; ent_attributes := ∅ |}.

(** [entity.state = v] *)
Definition set_state (v : value) (e : Entity) : Entity :=
  {| ent_init := ent_init e; ent_state := v; ent_attributes := ent_attributes e |}.

(** [entity.add_attribute(attr)]: the given items are merged into the
    mapping, a later item and a new value winning. *)
Definition add_attribute (attr : list (string * value)) (e : Entity) : Entity :=
  {| ent_init := ent_init e; ent_state := ent_state e;
     ent_attributes :=
       foldl (fun m kv => <[kv.1 := kv.2]> m) (ent_attributes e) attr |}.

(** ** The entity table *)

(** One value of the [entity_definitions] dictionary. The binary sensors
    have no [CONF_UNIT_OF_MEASUREMENT] item: the outer [None] is an absent
    key, [Some None] is the key bound to Python's [None]. *)
Record entity_definition : Type := {
  CONF_TYPE : string;
  CONF_NAME : string;
  CONF_ICON : icon;
  CONF_DEVICE_CLASS : option string;
  CONF_UNIT_OF_MEASUREMENT : option (option string);
  CONF_ATTR : list string;
}.

Section Table.
Context `{Const}.

Definition entity_definitions : list (string * entity_definition) :=
  [ (ENTITY_ONLINE,
     {| CONF_TYPE := BINARY_SENSOR_TYPE; CONF_NAME := "online";
        CONF_ICON := IconStr "mdi:cloud-check";
        CONF_DEVICE_CLASS := Some DEVICE_CLASS_CONNECTIVITY;
        CONF_UNIT_OF_MEASUREMENT := None;
        CONF_ATTR := [] |});
    (ENTITY_UPDATE_AVAILABLE,
     {| CONF_TYPE := BINARY_SENSOR_TYPE; CONF_NAME := "update available";
        CONF_ICON := IconStr "mdi:chip";
        CONF_DEVICE_CLASS := None;
        CONF_UNIT_OF_MEASUREMENT := None;
        CONF_ATTR := [] |});
    (ENTITY_ALERT,
     {| CONF_TYPE := BINARY_SENSOR_TYPE; CONF_NAME := "alert";
        CONF_ICON := IconFunc FUNC_ICON_MOWER_ALERT;
        CONF_DEVICE_CLASS := Some DEVICE_CLASS_PROBLEM;
        CONF_UNIT_OF_MEASUREMENT := None;
        CONF_ATTR := ["alerts_count"; "alert_details"] |});
    (ENTITY_MOWER_STATE,
     {| CONF_TYPE := SENSOR_TYPE; CONF_NAME := "mower state";
        CONF_ICON := IconStr "mdi:robot";
        CONF_DEVICE_CLASS := None;
        CONF_UNIT_OF_MEASUREMENT := Some None;
        CONF_ATTR := ["last_updated"; "model"; "serial"; "firmware"] |});
    (ENTITY_MOWER_STATE_DETAIL,
     {| CONF_TYPE := SENSOR_TYPE; CONF_NAME := "mower state detail";
        CONF_ICON := IconStr "mdi:robot";
        CONF_DEVICE_CLASS := None;
        CONF_UNIT_OF_MEASUREMENT := Some None;
        CONF_ATTR := ["last_updated"; "state_number"; "state_description";
                      "model_number"] |});
    (ENTITY_BATTERY,
     {| CONF_TYPE := SENSOR_TYPE; CONF_NAME := "battery %";
        CONF_ICON := IconFunc FUNC_ICON_BATTERY;
        CONF_DEVICE_CLASS := Some DEVICE_CLASS_BATTERY;
        CONF_UNIT_OF_MEASUREMENT := Some (Some "%");
        CONF_ATTR := ["last_updated"; "voltage_V"; "discharge_Ah"; "cycles";
                      "battery_temp_" +:+ TEMP_CELSIUS;
                      "ambient_temp_" +:+ TEMP_CELSIUS] |});
    (ENTITY_LAWN_MOWED,
     {| CONF_TYPE := SENSOR_TYPE; CONF_NAME := "lawn mowed";
        CONF_ICON := IconStr "mdi:percent";
        CONF_DEVICE_CLASS := None;
        CONF_UNIT_OF_MEASUREMENT := Some None;
        CONF_ATTR := ["last_updated"; "last_completed_mow"; "next_mow";
                      "last_session_operation_min"; "last_session_cut_min";
                      "last_session_charge_min"] |});
    (ENTITY_LAST_COMPLETED,
     {| CONF_TYPE := SENSOR_TYPE; CONF_NAME := "last completed";
        CONF_ICON := IconStr "mdi:cash-100";
        CONF_DEVICE_CLASS := Some DEVICE_CLASS_TIMESTAMP;
        CONF_UNIT_OF_MEASUREMENT := Some (Some "ISO8601");
        CONF_ATTR := [] |});
    (ENTITY_NEXT_MOW,
     {| CONF_TYPE := SENSOR_TYPE; CONF_NAME := "next mow";
        CONF_ICON := IconStr "mdi:chevron-right";
        CONF_DEVICE_CLASS := Some DEVICE_CLASS_TIMESTAMP;
        CONF_UNIT_OF_MEASUREMENT := Some (Some "ISO8601");
        CONF_ATTR := [] |});
    (ENTITY_MOWING_MODE,
     {| CONF_TYPE := SENSOR_TYPE; CONF_NAME := "mowing mode";
        CONF_ICON := IconStr "mdi:alpha-m-circle-outline";
        CONF_DEVICE_CLASS := None;
        CONF_UNIT_OF_MEASUREMENT := Some None;
        CONF_ATTR := [] |});
    (ENTITY_RUNTIME,
     {| CONF_TYPE := SENSOR_TYPE; CONF_NAME := "runtime total";
        CONF_ICON := IconStr "mdi:information-outline";
        CONF_DEVICE_CLASS := None;
        CONF_UNIT_OF_MEASUREMENT := Some (Some "h");
        CONF_ATTR := ["total_operation_time_h"; "total_mowing_time_h";
                      "total_charging_time_h"] |});
    (ENTITY_MOWER_ALERT,
     {| CONF_TYPE := SENSOR_TYPE; CONF_NAME := "mower alert";
        CONF_ICON := IconFunc FUNC_ICON_MOWER_ALERT;
        CONF_DEVICE_CLASS := None;
        CONF_UNIT_OF_MEASUREMENT := Some None;
        CONF_ATTR := [] |}) ].

(** The body of the loop of [create_entities] for one item of the table:
    the entity to store under [entity_key], if any. *)
Definition create_entity (mower_name serial entity_key : string)
    (entity : entity_definition) : result (option Entity) :=
  if bool_decide (CONF_TYPE entity = SENSOR_TYPE) then
    match CONF_UNIT_OF_MEASUREMENT entity with
    | Some unit_ =>
        Ok (Some (IndegoSensor serial
                    ("indego_" +:+ serial +:+ "_" +:+ entity_key)
                    (mower_name +:+ " " +:+ CONF_NAME entity)
                    (CONF_ICON entity) (CONF_DEVICE_CLASS entity)
                    unit_ (CONF_ATTR entity)))
    | None => Raise KeyError
    end
  else if bool_decide (CONF_TYPE entity = BINARY_SENSOR_TYPE) then
    Ok (Some (IndegoBinarySensor serial
                ("indego_" +:+ serial +:+ "_" +:+ entity_key)
                (mower_name +:+ " " +:+ CONF_NAME entity)
                (CONF_ICON entity) (CONF_DEVICE_CLASS entity)
                (CONF_ATTR entity)))
  else Ok None.

Fixpoint create_entities_loop (mower_name serial : string)
    (items : list (string * entity_definition))
    (entities : gmap string Entity) : result (gmap string Entity) :=
  match items with
  | [] => Ok entities
  | (entity_key, entity) :: items' =>
      match create_entity mower_name serial entity_key entity with
      | Ok (Some e) =>
          create_entities_loop mower_name serial items' (<[entity_key := e]> entities)
      | Ok None => create_entities_loop mower_name serial items' entities
      | Raise e => Raise e
      | Cancelled => Cancelled
      end
  end.

Definition create_entities (mower_name serial : string) : result (gmap string Entity) :=
  create_entities_loop mower_name serial entity_definitions ∅.

End Table.

(** ** The API client

    [pyIndego.IndegoAsyncClient] is an external library. The hub sees it as
    an object whose attributes it reads after each call; here a call is
    answered by the environment, either with the attributes the client has
    afterwards or with an exception. *)

Module pyIndego.

Record RuntimeDetail : Type := { operate : value; cut : value; charge : value }.
Record Runtime : Type := { total : RuntimeDetail; session : RuntimeDetail }.
Record State : Type := { state : Z; mowed : value; runtime : Runtime }.
Record Battery : Type := {
  percent_adjusted : value;
  voltage : value;
  discharge : value;
  cycles : value;
  battery_temp : value;
  ambient_temp : value;
}.
Record OperatingData : Type := { battery : Battery }.
Record GenericData : Type := {
  mowing_mode_description : value;
  model_description : value;
  alm_sn : value;
  alm_firmware_version : value;
  bareToolnumber : value;
}.

Record IndegoAsyncClient : Type := {
  _online : bool;
  state_ : State;
  state_description : value;
  state_description_detail : value;
  operating_data : OperatingData;
  generic_data : GenericData;
  alerts_count : Z;
  alerts_str : string;            (* [str(self.indego.alerts)] *)
  update_available : value;
  last_completed_mow : value;
  next_mow : value;
}.

(** The requests the hub sends. *)
Inductive call : Type :=
| login
| update_state (longpoll : bool) (longpoll_timeout : Z)
| update_operating_data
| update_generic_data
| update_alerts
| update_updates_available
| update_last_completed_mow
| update_next_mow
| put_command (command : string)
| put_mow_mode (command : string)
| close.

#[export] Instance call_eq_dec : EqDecision call.
Proof. solve_decision. Defined.

(** The answer to a request. *)
Inductive response : Type :=
| Returned (client : IndegoAsyncClient)
| Raised (e : exn).

(** How a request ends for the coroutine that awaits it: with an answer of
    the client, or, when the coroutine is cancelled while it waits and the
    client does not end the request with an answer of its own, with the
    [CancelledError]. *)
Inductive wakeup : Type :=
| Answer (r : response)
| CancelledError.

End pyIndego.
Export (hints) pyIndego.
Import pyIndego (IndegoAsyncClient, response, Returned, Raised, wakeup, Answer, CancelledError).

(** An answer of the client is one way in which a request ends. *)
Coercion pyIndego.Answer : response >-> wakeup.

(** ** The host: Home Assistant's event bus, timers, tasks and services *)

Inductive bus_event : Type :=
| EVENT_HOMEASSISTANT_STARTED
| EVENT_HOMEASSISTANT_STOP.

(** The bound methods of the hub that are handed to the host. *)
Inductive callback : Type :=
| cb_login
| cb_initial_update
| cb_async_shutdown
| cb_refresh_5m
| cb_refresh_60m.

#[export] Instance callback_eq_dec : EqDecision callback.
Proof. solve_decision. Defined.

(** What [hass.async_create_task] is called with. *)
Inductive target : Type :=
| coro_async_refresh_state                 (* [self.async_refresh_state()] *)
| coro_async_load_platform (comp domain : string)
| bound_method (cb : callback).            (* a function, not a coroutine *)

(** Where the coroutine of [async_refresh_state] is suspended. *)
Inductive await_point : Type :=
| at_update_state
| at_update_operating_data.

Inductive task_status : Type :=
| Pending (p : await_point)
| Scheduled                                (* other coroutines: not followed *)
| Done
| Failed (e : exn)
| TaskCancelled.

Record task : Type := {
  task_target : target;
  task_status_ : task_status;
  cancel_requested : bool;
}.

Inductive handler : Type :=
| async_send_command
| async_send_smartmowing.

(** [vol.Schema({vol.Required(key): cv.string})] *)
Record Schema : Type := { Required : string }.

Record service : Type := {
  svc_domain : string;
  svc_name : string;
  svc_handler : handler;
  svc_schema : Schema;
}.

Record HomeAssistant : Type := {
  listeners : list (bus_event * callback);
  timers : gmap nat (Z * callback);
  tasks : gmap nat task;
  services : list service;
  next_handle : nat;
}.

Definition hass_empty : HomeAssistant :=
  {| listeners := []; timers := ∅; tasks := ∅; services := []; next_handle := 0 |}.

(** ** The hub *)

Record IndegoHub : Type := {
  mower_name : string;
  username : string;
  password : string;
  _serial : string;
  _polling : bool;
  refresh_state_task : option nat;
  refresh_5m_remover : option nat;
  refresh_60m_remover : option nat;
  _shutdown : bool;
  entities : gmap string Entity;
}.

(** The hub, the client it owns ([self.indego]), the host ([self.hass]) and
    the requests sent to the API so far. *)
Record World : Type := {
  hub : IndegoHub;
  indego : IndegoAsyncClient;
  hass : HomeAssistant;
  api_log : list pyIndego.call;
}.

Definition with_hub (f : IndegoHub → IndegoHub) (w : World) : World :=
  {| hub := f (hub w); indego := indego w; hass := hass w; api_log := api_log w |}.
Definition with_hass (f : HomeAssistant → HomeAssistant) (w : World) : World :=
  {| hub := hub w; indego := indego w; hass := f (hass w); api_log := api_log w |}.
Definition with_indego (c : IndegoAsyncClient) (w : World) : World :=
  {| hub := hub w; indego := c; hass := hass w; api_log := api_log w |}.
Definition with_api_log (l : list pyIndego.call) (w : World) : World :=
  {| hub := hub w; indego := indego w; hass := hass w; api_log := l |}.

Definition set_refresh_state_task (t : option nat) (h : IndegoHub) : IndegoHub :=
  {| mower_name := mower_name h; username := username h; password := password h;
     _serial := _serial h; _polling := _polling h;
     refresh_state_task := t;
     refresh_5m_remover := refresh_5m_remover h;
     refresh_60m_remover := refresh_60m_remover h;
     _shutdown := _shutdown h; entities := entities h |}.
Definition set_refresh_5m_remover (t : option nat) (h : IndegoHub) : IndegoHub :=
  {| mower_name := mower_name h; username := username h; password := password h;
     _serial := _serial h; _polling := _polling h;
     refresh_state_task := refresh_state_task h;
     refresh_5m_remover := t;
     refresh_60m_remover := refresh_60m_remover h;
     _shutdown := _shutdown h; entities := entities h |}.
Definition set_refresh_60m_remover (t : option nat) (h : IndegoHub) : IndegoHub :=
  {| mower_name := mower_name h; username := username h; password := password h;
     _serial := _serial h; _polling := _polling h;
     refresh_state_task := refresh_state_task h;
     refresh_5m_remover := refresh_5m_remover h;
     refresh_60m_remover := t;
     _shutdown := _shutdown h; entities := entities h |}.
Definition set_shutdown (b : bool) (h : IndegoHub) : IndegoHub :=
  {| mower_name := mower_name h; username := username h; password := password h;
     _serial := _serial h; _polling := _polling h;
     refresh_state_task := refresh_state_task h;
     refresh_5m_remover := refresh_5m_remover h;
     refresh_60m_remover := refresh_60m_remover h;
     _shutdown := b; entities := entities h |}.
Definition set_entities (m : gmap string Entity) (h : IndegoHub) : IndegoHub :=
  {| mower_name := mower_name h; username := username h; password := password h;
     _serial := _serial h; _polling := _polling h;
     refresh_state_task := refresh_state_task h;
     refresh_5m_remover := refresh_5m_remover h;
     refresh_60m_remover := refresh_60m_remover h;
     _shutdown := _shutdown h; entities := m |}.

Definition set_listeners (l : list (bus_event * callback)) (h : HomeAssistant) : HomeAssistant :=
  {| listeners := l; timers := timers h; tasks := tasks h;
     services := services h; next_handle := next_handle h |}.
Definition set_timers (t : gmap nat (Z * callback)) (h : HomeAssistant) : HomeAssistant :=
  {| listeners := listeners h; timers := t; tasks := tasks h;
     services := services h; next_handle := next_handle h |}.
Definition set_tasks (t : gmap nat task) (h : HomeAssistant) : HomeAssistant :=
  {| listeners := listeners h; timers := timers h; tasks := t;
     services := services h; next_handle := next_handle h |}.
Definition set_services (s : list service) (h : HomeAssistant) : HomeAssistant :=
  {| listeners := listeners h; timers := timers h; tasks := tasks h;
     services := s; next_handle := next_handle h |}.
Definition set_next_handle (n : nat) (h : HomeAssistant) : HomeAssistant :=
  {| listeners := listeners h; timers := timers h; tasks := tasks h;
     services := services h; next_handle := n |}.

(** ** Coroutines as state transformers that may raise *)

Definition M (A : Type) : Type := World → result A * World.

Definition ret {A} (a : A) : M A := fun w => (Ok a, w).

Definition bind {A B} (m : M A) (k : A → M B) : M B := fun w =>
  match m w with
  | (Ok a, w') => k a w'
  | (Raise e, w') => (Raise e, w')
  | (Cancelled, w') => (Cancelled, w')
  end.

Definition raise {A} (e : exn) : M A := fun w => (Raise e, w).
Definition gets {A} (f : World → A) : M A := fun w => (Ok (f w), w).
Definition modify (f : World → World) : M unit := fun w => (Ok tt, f w).

Declare Scope hub_scope.
Delimit Scope hub_scope with hub.
Notation "'let*' x ':=' m 'in' k" := (bind m (fun x => k))
  (at level 10, x name, m at level 100, k at level 200) : hub_scope.
Notation "m >> k" := (bind m (fun _ => k))
  (at level 100, k at level 200, right associativity) : hub_scope.
Local Open Scope hub_scope.

(** [try: body  except classes_1: h_1  except classes_2: h_2 ...]: the first
    clause whose classes match handles the exception. *)
Fixpoint find_clause {A} (e : exn) (clauses : list (list exn * (exn → M A)))
  : option (M A) :=
  match clauses with
  | [] => None
  | (classes, h) :: rest =>
      if isinstance e classes then Some (h e) else find_clause e rest
  end.

Definition try_except {A} (body : M A) (clauses : list (list exn * (exn → M A))) : M A :=
  fun w =>
    match body w with
    | (Raise e, w') =>
        match find_clause e clauses with
        | Some h => h w'
        | None => (Raise e, w')
        end
    | other => other
    end.

(** *** Host operations *)

Definition fresh_handle : M nat := fun w =>
  let n := next_handle (hass w) in
  (Ok n, with_hass (set_next_handle (S n)) w).

(** [hass.bus.async_listen_once(event, cb)] *)
Definition async_listen_once (ev : bus_event) (cb : callback) : M unit :=
  modify (with_hass (fun h => set_listeners (listeners h ++ [(ev, cb)]) h)).

(** [async_call_later(hass, delay, cb)]: the result is the function that
    removes the timer, kept here as the handle of the timer. *)
Definition async_call_later (delay : Z) (cb : callback) : M nat :=
  let* n := fresh_handle in
  modify (with_hass (fun h => set_timers (<[n := (delay, cb)]> (timers h)) h)) >>
  ret n.

(** Calling the function returned by [async_call_later]. *)
Definition call_remover (n : nat) : M unit :=
  modify (with_hass (fun h => set_timers (delete n (timers h)) h)).

(** [hass.async_create_task(target)]: the event loop makes a task of a
    coroutine and refuses anything else with a [TypeError]. The coroutine of
    [async_refresh_state] sends its long-poll request first, so its task
    waits there. *)
Definition async_create_task (t : target) : M nat :=
  match t with
  | bound_method _ => raise TypeError
  | _ =>
      let* n := fresh_handle in
      let st := match t with
                | coro_async_refresh_state => Pending at_update_state
                | _ => Scheduled
                end in
      modify (with_hass (fun h =>
        set_tasks (<[n := {| task_target := t; task_status_ := st;
                             cancel_requested := false |}]> (tasks h)) h)) >>
      ret n
  end.

(** [hass.services.async_register(domain, name, handler, schema=schema)] *)
Definition async_register (domain name : string) (h : handler) (schema : Schema) : M unit :=
  modify (with_hass (fun hs =>
    set_services (services hs ++
      [{| svc_domain := domain; svc_name := name; svc_handler := h;
          svc_schema := schema |}]) hs)).

(** *** Client operations *)

(** [await self.indego.<call>(...)] ended by [r]: by an answer of the
    client, or by the [CancelledError] of a cancellation that reaches the
    coroutine while it waits. *)
Definition request (c : pyIndego.call) (r : wakeup) : M unit := fun w =>
  let w' := with_api_log (api_log w ++ [c]) w in
  match r with
  | Answer (Returned client) => (Ok tt, with_indego client w')
  | Answer (Raised e) => (Raise e, w')
  | CancelledError => (Cancelled, w')
  end.

(** *** Entity operations *)

(** [self.entities[key].state = v] *)
Definition entity_set_state (key : string) (v : value) : M unit := fun w =>
  match entities (hub w) !! key with
  | Some e => (Ok tt, with_hub (set_entities (<[key := set_state v e]> (entities (hub w)))) w)
  | None => (Raise KeyError, w)
  end.

(** [self.entities[key].add_attribute(attr)] *)
Definition entity_add_attribute (key : string) (attr : list (string * value)) : M unit :=
  fun w =>
    match entities (hub w) !! key with
    | Some e =>
        (Ok tt, with_hub (set_entities (<[key := add_attribute attr e]> (entities (hub w)))) w)
    | None => (Raise KeyError, w)
    end.

(** [random.randint(a, b)] on a raw draw of the generator. *)
Definition randint (a b raw : Z) : Z := a + raw `mod` (b - a + 1).

(** [asyncio.gather] with [return_exceptions=True]: every coroutine runs
    and the outcomes come back in the order of the arguments. The requests
    of the coroutines are answered here in that order too. *)
Fixpoint gather_return_exceptions (coros : list (M unit)) : M (list (result unit)) :=
  match coros with
  | [] => ret []
  | c :: cs => fun w =>
      let (r, w') := c w in
      (let* rs := gather_return_exceptions cs in ret (r :: rs)) w'
  end.

(** [asyncio.gather] without that flag: every coroutine runs; the first exception is
    raised to the caller. *)
Fixpoint gather (coros : list (M unit)) : M unit :=
  match coros with
  | [] => ret tt
  | c :: cs => fun w =>
      let (r, w') := c w in
      let (rs, w'') := gather cs w' in
      (match r with Ok _ => rs | _ => r end, w'')
  end.

Record Config : Type := {
  conf_name : string;         (* [conf[CONF_NAME]] *)
  conf_username : string;     (* [conf[CONF_USERNAME]] *)
  conf_password : string;     (* [conf[CONF_PASSWORD]] *)
  conf_id : string;           (* [conf[CONF_ID]] *)
  conf_polling : bool;        (* [conf[CONF_POLLING]] *)
}.

(** Values of the data of a service call, and [cv.string]: [None], lists
    and dictionaries are refused, anything else is turned into a string. *)
Inductive arg : Type :=
| ANone
| ABool (b : bool)
| AInt (z : Z)
| AStr (s : string)
| AList
| ADict.

Definition cv_string (v : arg) : result string :=
  match v with
  | ANone | AList | ADict => Raise vol_Invalid
  | ABool b => Ok (if b then "True" else "False")
  | AInt z => Ok (str_of_int z)
  | AStr s => Ok s
  end.

(** Validation by [vol.Schema({vol.Required(key): cv.string})]: the key has
    to be there, no other key is allowed, and the value goes through
    [cv.string]. *)
Definition validate (schema : Schema) (data : gmap string arg) : result (gmap string string) :=
  match data !! Required schema with
  | None => Raise vol_Invalid
  | Some v =>
      if bool_decide (size data = 1%nat) then
        match cv_string v with
        | Ok s => Ok {[ Required schema := s ]}
        | Raise e => Raise e
        | Cancelled => Cancelled
        end
      else Raise vol_Invalid
  end.

Section Hub.
Context `{Const}.

Definition SERVICE_SCHEMA_COMMAND : Schema := {| Required := CONF_SEND_COMMAND |}.
Definition SERVICE_SCHEMA_SMARTMOWING : Schema := {| Required := CONF_SMARTMOWING |}.

(** *** Updates of the entities from the client *)

Definition _update_operating_data (r : response) (now : Z) : M unit :=
  request pyIndego.update_operating_data r >>
  let* c := gets indego in
  let b := pyIndego.battery (pyIndego.operating_data c) in
  entity_set_state ENTITY_ONLINE (PBool (pyIndego._online c)) >>
  entity_set_state ENTITY_BATTERY (pyIndego.percent_adjusted b) >>
  entity_add_attribute ENTITY_BATTERY
    [ ("last_updated", PDatetime now);
      ("voltage_V", pyIndego.voltage b);
      ("discharge_Ah", pyIndego.discharge b);
      ("cycles", pyIndego.cycles b);
      ("battery_temp_" +:+ TEMP_CELSIUS, pyIndego.battery_temp b);
      ("ambient_temp_" +:+ TEMP_CELSIUS, pyIndego.ambient_temp b) ].

Definition _update_state (r : response) (now : Z) : M unit :=
  request (pyIndego.update_state true 300) r >>
  let* shutdown := gets (fun w => _shutdown (hub w)) in
  if shutdown then ret tt else
  let* c := gets indego in
  let st := pyIndego.state_ c in
  let rt := pyIndego.runtime st in
  entity_set_state ENTITY_MOWER_STATE (pyIndego.state_description c) >>
  entity_set_state ENTITY_MOWER_STATE_DETAIL (pyIndego.state_description_detail c) >>
  entity_set_state ENTITY_LAWN_MOWED (pyIndego.mowed st) >>
  entity_set_state ENTITY_RUNTIME (pyIndego.operate (pyIndego.total rt)) >>
  entity_add_attribute ENTITY_MOWER_STATE [("last_updated", PDatetime now)] >>
  entity_add_attribute ENTITY_MOWER_STATE_DETAIL
    [ ("last_updated", PDatetime now);
      ("state_number", PInt (pyIndego.state st));
      ("state_description", pyIndego.state_description_detail c) ] >>
  entity_add_attribute ENTITY_LAWN_MOWED
    [ ("last_updated", PDatetime now);
      ("last_session_operation_min", pyIndego.operate (pyIndego.session rt));
      ("last_session_cut_min", pyIndego.cut (pyIndego.session rt));
      ("last_session_charge_min", pyIndego.charge (pyIndego.session rt)) ] >>
  entity_add_attribute ENTITY_RUNTIME
    [ ("total_operation_time_h", pyIndego.operate (pyIndego.total rt));
      ("total_mowing_time_h", pyIndego.cut (pyIndego.total rt));
      ("total_charging_time_h", pyIndego.charge (pyIndego.total rt)) ].

Definition _update_generic_data (r : wakeup) : M unit :=
  request pyIndego.update_generic_data r >>
  let* c := gets indego in
  let g := pyIndego.generic_data c in
  entity_set_state ENTITY_MOWING_MODE (pyIndego.mowing_mode_description g) >>
  entity_add_attribute ENTITY_MOWER_STATE
    [ ("model", pyIndego.model_description g);
      ("serial", pyIndego.alm_sn g);
      ("firmware", pyIndego.alm_firmware_version g) ] >>
  entity_add_attribute ENTITY_MOWER_STATE_DETAIL
    [ ("model_number", pyIndego.bareToolnumber g) ].

Definition _update_alerts (r : wakeup) : M unit :=
  request pyIndego.update_alerts r >>
  let* c := gets indego in
  entity_set_state ENTITY_MOWER_ALERT (PInt (pyIndego.alerts_count c)) >>
  entity_set_state ENTITY_ALERT (PBool (0 <? pyIndego.alerts_count c)) >>
  entity_add_attribute ENTITY_ALERT
    [ ("alerts_count", PInt (pyIndego.alerts_count c));
      ("alert_details", PStr (pyIndego.alerts_str c)) ].

Definition _update_updates_available (r : response) : M unit :=
  request pyIndego.update_updates_available r >>
  let* c := gets indego in
  entity_set_state ENTITY_UPDATE_AVAILABLE (pyIndego.update_available c).

Definition _update_last_completed_mow (r : wakeup) : M unit :=
  request pyIndego.update_last_completed_mow r >>
  let* c := gets indego in
  entity_set_state ENTITY_LAST_COMPLETED (pyIndego.last_completed_mow c) >>
  entity_add_attribute ENTITY_LAWN_MOWED
    [ ("last_completed_mow", pyIndego.last_completed_mow c) ].

Definition _update_next_mow (r : wakeup) : M unit :=
  request pyIndego.update_next_mow r >>
  let* c := gets indego in
  entity_set_state ENTITY_NEXT_MOW (pyIndego.next_mow c) >>
  entity_add_attribute ENTITY_LAWN_MOWED [ ("next_mow", pyIndego.next_mow c) ].

(** *** The state loop *)

(** The test that guards the refresh of the operating data:
    [(500 <= state <= 799) or (state in (257, 266)) or self.indego._online] *)
Definition needs_operating_data (c : IndegoAsyncClient) : bool :=
  let state := pyIndego.state (pyIndego.state_ c) in
  ((500 <=? state) && (state <=? 799))
  || (bool_decide (state = 257) || bool_decide (state = 266))
  || pyIndego._online c.

(** The last statement of [async_refresh_state]: a new task for the same
    coroutine. *)
Definition recall_itself : M unit :=
  let* t := async_create_task coro_async_refresh_state in
  modify (with_hub (set_refresh_state_task (Some t))).

(** One pass of the loop. [r_state] answers the long-poll request and
    [r_operating] the request for the operating data, if it is sent. *)
Definition async_refresh_state (r_state r_operating : response) (now : Z) : M unit :=
  _update_state r_state now >>
  let* shutdown := gets (fun w => _shutdown (hub w)) in
  if shutdown then ret tt else
  let* c := gets indego in
  (if needs_operating_data c then _update_operating_data r_operating now else ret tt) >>
  recall_itself.

(** The same coroutine cut at its second await, as the event loop runs it:
    from the answer to the long-poll request up to the request for the
    operating data ([true]) or to the end ([false]), and from the answer
    to that second request to the end. *)
Definition async_refresh_state_head (r_state : response) (now : Z) : M bool :=
  _update_state r_state now >>
  let* shutdown := gets (fun w => _shutdown (hub w)) in
  if shutdown then ret false else
  let* c := gets indego in
  if needs_operating_data c then ret true else recall_itself >> ret false.

Definition async_refresh_state_tail (r_operating : response) (now : Z) : M unit :=
  _update_operating_data r_operating now >> recall_itself.

(** *** The batch loops *)

(** The loop over the gathered results in [refresh_5m]; [rnd index] is
    the draw of the random generator used at [index]. *)
Fixpoint refresh_5m_results (results : list (result unit)) (rnd : nat → Z)
    (next_refresh : Z) (index : nat) : M Z :=
  match results with
  | [] => ret next_refresh
  | res :: results' =>
      let* next_refresh :=
        match res with
        | Ok _ => ret next_refresh                       (* [None] is falsy *)
        | Raise e =>
            try_except (raise e)
              [ ([ServerTimeoutError; TooManyRedirects],
                 fun _ => ret (60 + randint 0 30 (rnd index)));
                ([Exception_], fun _ => ret next_refresh) ]
        | Cancelled => fun w => (Cancelled, w)
        end in
      refresh_5m_results results' rnd next_refresh (S index)
  end.

Definition refresh_5m (r_generic r_alerts r_last r_next : wakeup)
    (rnd : nat → Z) : M unit :=
  let* results :=
    gather_return_exceptions
      [ _update_generic_data r_generic;
        _update_alerts r_alerts;
        _update_last_completed_mow r_last;
        _update_next_mow r_next ] in
  let* next_refresh := refresh_5m_results results rnd 300 0 in
  let* remover := async_call_later next_refresh cb_refresh_5m in
  modify (with_hub (set_refresh_5m_remover (Some remover))).

Definition refresh_60m (r : response) : M unit :=
  _update_updates_available r >>
  let* remover := async_call_later 3600 cb_refresh_60m in
  modify (with_hub (set_refresh_60m_remover (Some remover))).

(** *** Start and login *)

Definition _initial_update (r_generic r_alerts r_last r_next r_updates : response)
    (rnd : nat → Z) : M unit :=
  let* t := async_create_task coro_async_refresh_state in
  modify (with_hub (set_refresh_state_task (Some t))) >>
  gather [ refresh_5m r_generic r_alerts r_last r_next rnd;
           refresh_60m r_updates ].

Definition async_schedule_updates (retry_login : bool) : M unit :=
  (if retry_login
   then async_listen_once EVENT_HOMEASSISTANT_STARTED cb_login
   else async_listen_once EVENT_HOMEASSISTANT_STARTED cb_initial_update) >>
  async_listen_once EVENT_HOMEASSISTANT_STOP cb_async_shutdown.

(** The [try] statement of [_login] binds [retry_login] in its body and in
    both handlers; an exception that no clause handles leaves the name
    unbound, and the [finally] block then fails on reading it. *)
Definition _login (r_login : response) : M unit := fun w =>
  let (outcome, w') :=
    try_except (request pyIndego.login r_login >> ret false)
      [ ([ClientResponseError], fun _ => ret false);
        ([ServerTimeoutError; TooManyRedirects], fun _ => ret true) ] w in
  match outcome with
  | Ok retry_login =>
      (if retry_login
       then async_call_later 60 cb_login >> ret tt
       else async_create_task (bound_method cb_initial_update) >> ret tt) w'
  | _ => (Raise UnboundLocalError, w')
  end.

(** *** Tasks of the state loop as the event loop runs them *)

Definition set_task_status (tid : nat) (st : task_status) : M unit :=
  modify (with_hass (fun h =>
    set_tasks (alter (fun t => {| task_target := task_target t;
                                  task_status_ := st;
                                  cancel_requested := cancel_requested t |})
                 tid (tasks h)) h)).

Definition status_of (tid : nat) (w : World) : option task_status :=
  task_status_ <$> tasks (hass w) !! tid.

Definition is_pending (st : option task_status) : bool :=
  match st with Some (Pending _) => true | _ => false end.

(** [task.cancel()]: a request that only a task still running receives. *)
Definition task_cancel (tid : nat) : M unit :=
  modify (with_hass (fun h =>
    set_tasks (alter (fun t =>
                 match task_status_ t with
                 | Pending _ | Scheduled =>
                     {| task_target := task_target t;
                        task_status_ := task_status_ t;
                        cancel_requested := true |}
                 | _ => t
                 end) tid (tasks h)) h)).

(** The event loop wakes the task [tid] with the outcome of the request it
    waits for; the coroutine runs to its next await or to its end, and the
    task records how it ended. *)
Definition resume_task (tid : nat) (wk : wakeup) (now : Z) : M unit := fun w =>
  match status_of tid w with
  | Some (Pending p) =>
      match wk with
      | CancelledError => set_task_status tid TaskCancelled w
      | Answer r =>
          match p with
          | at_update_state =>
              match async_refresh_state_head r now w with
              | (Ok true, w') => set_task_status tid (Pending at_update_operating_data) w'
              | (Ok false, w') => set_task_status tid Done w'
              | (Raise e, w') => set_task_status tid (Failed e) w'
              | (Cancelled, w') => set_task_status tid TaskCancelled w'
              end
          | at_update_operating_data =>
              match async_refresh_state_tail r now w with
              | (Ok _, w') => set_task_status tid Done w'
              | (Raise e, w') => set_task_status tid (Failed e) w'
              | (Cancelled, w') => set_task_status tid TaskCancelled w'
              end
          end
      end
  | _ => (Ok tt, w)
  end.

(** [await task]: the caller waits until the task has ended and gets its
    outcome: the exception of a failed task is raised again in the caller,
    and so is the [CancelledError] of a cancelled one. [wk] ends the
    request the task waits for, [r_next] answers the one it may send
    after that. *)
Definition await_task (tid : nat) (wk : wakeup) (r_next : response) (now : Z) : M unit :=
  resume_task tid wk now >>
  let* st := gets (status_of tid) in
  (if is_pending st then resume_task tid (Answer r_next) now else ret tt) >>
  let* st := gets (status_of tid) in
  match st with
  | Some (Failed e) => raise e
  | Some TaskCancelled => fun w => (Cancelled, w)
  | _ => ret tt
  end.

(** *** Shutdown *)

Definition async_shutdown (wk : wakeup) (r_next : response) (now : Z)
    (r_close : response) : M unit :=
  modify (with_hub (set_shutdown true)) >>
  let* t := gets (fun w => refresh_state_task (hub w)) in
  match t with
  | Some tid => task_cancel tid >> await_task tid wk r_next now
  | None => ret tt
  end >>
  let* r5 := gets (fun w => refresh_5m_remover (hub w)) in
  match r5 with Some remover => call_remover remover | None => ret tt end >>
  let* r60 := gets (fun w => refresh_60m_remover (hub w)) in
  match r60 with Some remover => call_remover remover | None => ret tt end >>
  request pyIndego.close r_close.

(** *** Services *)

Definition handle (h : handler) (data : gmap string string)
    (r_put r_update : response) (now : Z) : M unit :=
  match h with
  | async_send_command =>
      let name := default DEFAULT_NAME_COMMANDS (data !! CONF_SEND_COMMAND) in
      request (pyIndego.put_command name) r_put >>
      _update_state r_update now
  | async_send_smartmowing =>
      let name := default DEFAULT_NAME_COMMANDS (data !! CONF_SMARTMOWING) in
      request (pyIndego.put_mow_mode name) r_put >>
      _update_generic_data r_update
  end.

(** The service registered last under a name is the one that is called. *)
Definition find_service (domain name : string) (l : list service) : option service :=
  last (filter (fun s => svc_domain s = domain ∧ svc_name s = name) l).

(** [hass.services.async_call(domain, name, data)]: the data is validated
    by the schema of the service and handed to its handler. *)
Definition async_call (domain name : string) (data : gmap string arg)
    (r_put r_update : response) (now : Z) : M unit :=
  let* svc := gets (fun w => find_service domain name (services (hass w))) in
  match svc with
  | None => raise (UserException "ServiceNotFound")
  | Some s =>
      match validate (svc_schema s) data with
      | Ok data' => handle (svc_handler s) data' r_put r_update now
      | Raise e => raise e
      | Cancelled => fun w => (Cancelled, w)
      end
  end.

(** *** Setup *)

(** [IndegoHub.__init__] *)
Definition IndegoHub__init__ (name username_ password_ serial : string) (polling : bool)
  : result IndegoHub :=
  match create_entities name serial with
  | Ok ents =>
      Ok {| mower_name := name; username := username_; password := password_;
            _serial := serial; _polling := polling;
            refresh_state_task := None;
            refresh_5m_remover := None;
            refresh_60m_remover := None;
            _shutdown := false;
            entities := ents |}
  | Raise e => Raise e
  | Cancelled => Cancelled
  end.

Fixpoint load_platforms (comps : list string) : M unit :=
  match comps with
  | [] => ret tt
  | comp :: comps' =>
      async_create_task (coro_async_load_platform comp DOMAIN) >>
      load_platforms comps'
  end.

(** What the [try] statement of [async_setup] leaves: a value returned
    from the function, or the binding of [retry_login]. *)
Inductive login_outcome : Type :=
| Return (b : bool)
| Continue (retry_login : bool).

(** The body of [async_setup] once the hub is stored in [hass.data]. *)
Definition async_setup_body (r_login : response) : M bool :=
  let* o :=
    try_except (request pyIndego.login r_login >> ret (Continue false))
      [ ([ClientResponseError], fun _ => ret (Return false));
        ([ServerTimeoutError; TooManyRedirects], fun _ => ret (Continue true)) ] in
  match o with
  | Return b => ret b
  | Continue retry_login =>
      async_schedule_updates retry_login >>
      load_platforms INDEGO_COMPONENTS >>
      async_register DOMAIN SERVICE_NAME_COMMAND async_send_command
        SERVICE_SCHEMA_COMMAND >>
      async_register DOMAIN SERVICE_NAME_SMARTMOW async_send_smartmowing
        SERVICE_SCHEMA_SMARTMOWING >>
      ret true
  end.

(** [async_setup(hass, config)], started on the host [hass0] with a client
    whose attributes are [client0] at its creation. *)
Definition async_setup (hass0 : HomeAssistant) (client0 : IndegoAsyncClient)
    (conf : Config) (r_login : response) : result (bool * World) :=
  match IndegoHub__init__ (conf_name conf) (conf_username conf)
          (conf_password conf) (conf_id conf) (conf_polling conf) with
  | Ok component =>
      match async_setup_body r_login
              {| hub := component; indego := client0; hass := hass0; api_log := [] |} with
      | (Ok b, w) => Ok (b, w)
      | (Raise e, _) => Raise e
      | (Cancelled, _) => Cancelled
      end
  | Raise e => Raise e
  | Cancelled => Cancelled
  end.

End Hub.

(** ** A sample installation

    Concrete constants, a configuration and answers of the API, on which the
    definitions above are run. *)

Module Sample.

Definition const : Const := {|
  DOMAIN := "indego";
  SENSOR_TYPE := "sensor";
  BINARY_SENSOR_TYPE := "binary_sensor";
  ENTITY_ONLINE := "online";
  ENTITY_UPDATE_AVAILABLE := "update_available";
  ENTITY_ALERT := "alert";
  ENTITY_MOWER_STATE := "mower_state";
  ENTITY_MOWER_STATE_DETAIL := "mower_state_detail";
  ENTITY_BATTERY := "battery_percentage";
  ENTITY_LAWN_MOWED := "lawn_mowed";
  ENTITY_LAST_COMPLETED := "last_completed";
  ENTITY_NEXT_MOW := "next_mow";
  ENTITY_MOWING_MODE := "mowing_mode";
  ENTITY_RUNTIME := "runtime_total";
  ENTITY_MOWER_ALERT := "mower_alert";
  CONF_SEND_COMMAND := "command";
  CONF_SMARTMOWING := "enable";
  DEFAULT_NAME_COMMANDS := "mower_command";
  SERVICE_NAME_COMMAND := "command";
  SERVICE_NAME_SMARTMOW := "smartmowing";
  INDEGO_COMPONENTS := ["sensor"; "binary_sensor"];
|}.

Definition config : Config := {|
  conf_name := "Indego";
  conf_username := "user@example.org";
  conf_password := "secret";
  conf_id := "123456789";
  conf_polling := false;
|}.

Definition detail (n : Z) : pyIndego.RuntimeDetail :=
  {| pyIndego.operate := PInt n; pyIndego.cut := PInt (n - 1);
     pyIndego.charge := PInt 1 |}.

(** The client with the mower in state [st], online or not, and the
    battery at [pct] percent. *)
Definition client (st : Z) (online : bool) (pct : Z) : IndegoAsyncClient := {|
  pyIndego._online := online;
  pyIndego.state_ :=
    {| pyIndego.state := st; pyIndego.mowed := PInt 40;
       pyIndego.runtime :=
         {| pyIndego.total := detail 1200; pyIndego.session := detail 30 |} |};
  pyIndego.state_description := PStr "Docked";
  pyIndego.state_description_detail := PStr "Sleeping";
  pyIndego.operating_data :=
    {| pyIndego.battery :=
         {| pyIndego.percent_adjusted := PInt pct;
            pyIndego.voltage := PFloat (337 # 10);
            pyIndego.discharge := PFloat (1 # 10);
            pyIndego.cycles := PInt 12;
            pyIndego.battery_temp := PInt 21;
            pyIndego.ambient_temp := PInt 19 |} |};
  pyIndego.generic_data :=
    {| pyIndego.mowing_mode_description := PStr "smart";
       pyIndego.model_description := PStr "Indego 400";
       pyIndego.alm_sn := PStr "123456789";
       pyIndego.alm_firmware_version := PStr "1.0";
       pyIndego.bareToolnumber := PStr "3600HA2300" |};
  pyIndego.alerts_count := 0;
  pyIndego.alerts_str := "[]";
  pyIndego.update_available := PBool false;
  pyIndego.last_completed_mow := PDatetime 1590000000;
  pyIndego.next_mow := PDatetime 1590090000;
|}.

Definition docked : IndegoAsyncClient := client 258 false 80.
Definition mowing : IndegoAsyncClient := client 513 false 60.

(** The hub after a successful [async_setup] on an empty host. *)
Definition setup : result (bool * World) :=
  @async_setup const hass_empty docked config (Returned docked).

Definition world_of (r : result (bool * World)) (d : World) : World :=
  match r with Ok (_, w) => w | _ => d end.

End Sample.

(** ** Predicates of the statements *)

(** The entity that [create_entities] builds for an item of the table. *)
Definition entity_for `{Const} (mower_name serial entity_key : string)
    (entity : entity_definition) : Entity :=
  let entity_id := "indego_" +:+ serial +:+ "_" +:+ entity_key in
  let name := mower_name +:+ " " +:+ CONF_NAME entity in
  if bool_decide (CONF_TYPE entity = SENSOR_TYPE) then
    IndegoSensor serial entity_id name (CONF_ICON entity)
      (CONF_DEVICE_CLASS entity)
      (default None (CONF_UNIT_OF_MEASUREMENT entity)) (CONF_ATTR entity)
  else
    IndegoBinarySensor serial entity_id name (CONF_ICON entity)
      (CONF_DEVICE_CLASS entity) (CONF_ATTR entity).

(** [keeps R m]: on every path, also one that ends with an exception, the
    worlds before and after [m] are related by [R]. *)
Definition keeps {A} (R : relation World) (m : M A) : Prop :=
  ∀ w, R w (m w).2.

(** What the primitive operations change, as conditions on [R]. *)
Definition ignores_api (R : relation World) : Prop :=
  (∀ w l, R w (with_api_log l w)) ∧ (∀ w c, R w (with_indego c w)).
Definition ignores_entity (R : relation World) (k : string) : Prop :=
  ∀ w e, R w (with_hub (set_entities (<[k := e]> (entities (hub w)))) w).
Definition ignores_host (R : relation World) : Prop :=
  ∀ w f, R w (with_hass f w).

(** A coroutine that ends with a value or with an exception. *)
Definition not_cancelled {A} (m : M A) : Prop := ∀ w, (m w).1 ≠ Cancelled.

(** *** Relations between the world before and after *)

(** The host and the control fields of the hub are as before. *)
Definition same_control (w w' : World) : Prop :=
  hass w' = hass w
  ∧ refresh_state_task (hub w') = refresh_state_task (hub w)
  ∧ refresh_5m_remover (hub w') = refresh_5m_remover (hub w)
  ∧ refresh_60m_remover (hub w') = refresh_60m_remover (hub w)
  ∧ _shutdown (hub w') = _shutdown (hub w).

(** The entity stored under [k] is as before. *)
Definition same_entity (k : string) (w w' : World) : Prop :=
  entities (hub w') !! k = entities (hub w) !! k.

(** No request has been sent. *)
Definition same_log (w w' : World) : Prop := api_log w' = api_log w.

(** The attributes of the client are as before. *)
Definition same_indego (w w' : World) : Prop := indego w' = indego w.

(** The requests sent in between all satisfy [P]. *)
Definition log_grows (P : pyIndego.call → Prop) (w w' : World) : Prop :=
  ∃ l, api_log w' = (api_log w ++ l)%list ∧ Forall P l.

(** A state request that is a long-poll request with a timeout of 300
    seconds; the other requests are not concerned. *)
Definition long_poll (c : pyIndego.call) : Prop :=
  match c with
  | pyIndego.update_state longpoll longpoll_timeout =>
      longpoll = true ∧ longpoll_timeout = 300
  | _ => True
  end.

(** A gathered result that is a [ServerTimeoutError] or a
    [TooManyRedirects]. *)
Definition is_timeout (res : result unit) : bool :=
  match res with
  | Raise e => isinstance e [ServerTimeoutError; TooManyRedirects]
  | _ => false
  end.

(** A request that ends with the [CancelledError]. *)
Definition is_cancel (r : wakeup) : bool :=
  match r with
  | CancelledError => true
  | Answer _ => false
  end.

(** The mower is active or online: the condition of the spec for a refresh
    of the operating data. *)
Definition active_or_online (c : IndegoAsyncClient) : Prop :=
  500 ≤ pyIndego.state (pyIndego.state_ c) ≤ 799
  ∨ pyIndego.state (pyIndego.state_ c) = 257
  ∨ pyIndego.state (pyIndego.state_ c) = 266
  ∨ pyIndego._online c = true.

(** The task that [async_refresh_state] leaves behind for its next pass. *)
Definition refresh_state_pass : task :=
  {| task_target := coro_async_refresh_state;
     task_status_ := Pending at_update_state;
     cancel_requested := false |}.

(** How the [try] statement of [async_setup] ends on the three errors. *)
Definition setup_try `{Const} (r_login : response) : M login_outcome :=
  try_except (request pyIndego.login r_login >> ret (Continue false))
    [ ([ClientResponseError], fun _ => ret (Return false));
      ([ServerTimeoutError; TooManyRedirects], fun _ => ret (Continue true)) ].

(** The world after a login request that is answered by an exception. *)
Definition after_login (w : World) : World :=
  with_api_log (api_log w ++ [pyIndego.login]) w.

(** The two services that [async_setup] registers. *)
Definition command_service `{Const} : service :=
  {| svc_domain := DOMAIN; svc_name := SERVICE_NAME_COMMAND;
     svc_handler := async_send_command; svc_schema := SERVICE_SCHEMA_COMMAND |}.
Definition smartmowing_service `{Const} : service :=
  {| svc_domain := DOMAIN; svc_name := SERVICE_NAME_SMARTMOW;
     svc_handler := async_send_smartmowing; svc_schema := SERVICE_SCHEMA_SMARTMOWING |}.

(** The task that [async_setup] makes for a platform. *)
Definition platform_task `{Const} (comp : string) : task :=
  {| task_target := coro_async_load_platform comp DOMAIN;
     task_status_ := Scheduled;
     cancel_requested := false |}.

(** *** The entity table of a running hub *)

(** Every key of the table has its entity. *)
Definition entities_complete `{Const} (w : World) : Prop :=
  ∀ k, k ∈ entity_keys → is_Some (entities (hub w) !! k).

(** The keys under which the hub holds an entity are as before. *)
Definition same_keys (w w' : World) : Prop :=
  dom (entities (hub w')) = dom (entities (hub w)).

(** The state of the entity stored under [k], if there is one. *)
Definition state_of (k : string) (w : World) : option value :=
  ent_state <$> entities (hub w) !! k.

(** [always_ok P m]: from a world that satisfies [P], the coroutine [m] ends
    with a value, in a world that satisfies [P] again. *)
Definition always_ok {A} (P : World → Prop) (m : M A) : Prop :=
  ∀ w, P w → ∃ a w', m w = (Ok a, w') ∧ P w'.

(** ** Runs of the sample installation *)

Module Run.

(** A hub without entities, for the case (which does not arise) that the
    sample setup fails. *)
Definition blank : World :=
  {| hub := {| mower_name := ""; username := ""; password := ""; _serial := "";
               _polling := false; refresh_state_task := None;
               refresh_5m_remover := None; refresh_60m_remover := None;
               _shutdown := false; entities := ∅ |};
     indego := Sample.docked; hass := hass_empty; api_log := [] |}.

(** After [async_setup]. *)
Definition installed : World := Sample.world_of Sample.setup blank.

(** After the host has started and [_initial_update] has run: the task of
    the state loop waits for its long-poll request and both batches have
    set their timers. *)
Definition started : World :=
  (@_initial_update Sample.const (Returned Sample.docked) (Returned Sample.docked)
     (Returned Sample.docked) (Returned Sample.docked) (Returned Sample.docked)
     (fun _ => 0) installed).2.

Definition state_task : nat := default 0%nat (refresh_state_task (hub started)).

(** The long-poll request is answered with the mower mowing, then the
    operating data arrives: a whole pass of the state loop. *)
Definition pass : result unit * World :=
  @async_refresh_state Sample.const (Returned Sample.mowing) (Returned Sample.mowing)
    1590000100 started.

(** The long-poll request ends with a [ServerTimeoutError]: the task of the
    state loop fails. *)
Definition stalled : World :=
  (@resume_task Sample.const state_task (Answer (Raised ServerTimeoutError))
     1590000100 started).2.

(** The long-poll request is answered with the mower mowing: the task now
    waits for the operating data. *)
Definition fetching : World :=
  (@resume_task Sample.const state_task (Answer (Returned Sample.mowing))
     1590000100 started).2.

(** The shutdown with the task in its long poll and a client that answers
    the cancelled request. *)
Definition clean_shutdown : result unit * World :=
  @async_shutdown Sample.const (Answer (Returned Sample.docked))
    (Returned Sample.docked) 1590000200 (Returned Sample.docked) started.

(** The shutdown while the task waits for the operating data. *)
Definition shutdown_while_fetching : result unit * World :=
  @async_shutdown Sample.const (Answer (Returned Sample.mowing))
    (Returned Sample.mowing) 1590000200 (Returned Sample.mowing) fetching.

(** The shutdown with a client that lets the cancellation through. *)
Definition shutdown_cancelled : result unit * World :=
  @async_shutdown Sample.const CancelledError
    (Returned Sample.docked) 1590000200 (Returned Sample.docked) started.

End Run.

(** * Properties *)

(** ** The icon functions *)

Example icon_battery_57 : FUNC_ICON_BATTERY (PInt 57) = Ok "mdi:battery-50".
Proof. reflexivity. Qed.
Example icon_battery_str : FUNC_ICON_BATTERY (PStr " 1_00 ") = Ok "mdi:battery".
Proof. reflexivity. Qed.
Example icon_battery_neg : FUNC_ICON_BATTERY (PInt (-5)) = Ok "mdi:battery--10".
Proof. reflexivity. Qed.
Example icon_alert_on : FUNC_ICON_MOWER_ALERT (PStr "on") = Raise ValueError.
Proof. reflexivity. Qed.

Lemma int_not_cancelled (v : value) : int v ≠ Cancelled.
Proof.
  destruct v as [| [] | | | | | s |]; simpl; try discriminate.
  by destruct (int_of_string s).
Qed.

Lemma eq_str_spec (v : value) (s : string) : eq_str v s = true ↔ v = PStr s.
Proof.
  destruct v; simpl; try (split; intros; discriminate).
  rewrite bool_decide_eq_true. split; congruence.
Qed.

(** A falsy value that has an integer conversion converts to zero. *)
Lemma falsy_int_zero (v : value) (n : Z) : truthy v = false → int v = Ok n → n = 0.
Proof.
  destruct v as [| b | z | q | | | s |]; simpl; intros Hf Hi; try discriminate.
  - destruct b; [discriminate | congruence].
  - apply negb_false_iff, Z.eqb_eq in Hf. congruence.
  - apply negb_false_iff, Z.eqb_eq in Hf. rewrite Hf, Z.quot_0_l in Hi by done. congruence.
  - apply negb_false_iff, bool_decide_eq_true in Hf. subst s. discriminate.
Qed.

(** C9: on a truthy state without an integer conversion, the string
    [STATE_ON] among them, [FUNC_ICON_MOWER_ALERT] raises the exception of
    [int] and returns no icon, although the comparison with [STATE_ON] alone
    would hold; on a falsy state it returns "mdi:check-circle-outline"; on a
    state with an integer conversion it returns "mdi:alert-outline" exactly
    when the integer is positive, and "mdi:check-circle-outline" otherwise. *)
Theorem mower_alert_icon_cases (state : value) :
  (truthy state = true → (∀ n, int state ≠ Ok n) →
     ∃ e, int state = Raise e ∧ FUNC_ICON_MOWER_ALERT state = Raise e)
  ∧ (truthy (PStr STATE_ON) = true
     ∧ eq_str (PStr STATE_ON) STATE_ON = true
     ∧ (∀ n, int (PStr STATE_ON) ≠ Ok n)
     ∧ FUNC_ICON_MOWER_ALERT (PStr STATE_ON) = Raise ValueError)
  ∧ (truthy state = false →
     FUNC_ICON_MOWER_ALERT state = Ok "mdi:check-circle-outline")
  ∧ (∀ n, int state = Ok n →
       FUNC_ICON_MOWER_ALERT state
         = Ok (if 0 <? n then "mdi:alert-outline" else "mdi:check-circle-outline")
       ∧ (FUNC_ICON_MOWER_ALERT state = Ok "mdi:alert-outline" ↔ 0 < n)).
Proof.
  split; [| split; [| split]].
  - intros Ht Hn. unfold FUNC_ICON_MOWER_ALERT. rewrite Ht.
    destruct (int state) as [n | e |] eqn:Hi.
    + by destruct (Hn n).
    + by exists e.
    + by destruct (int_not_cancelled state).
  - repeat split. discriminate.
  - intros Hf. unfold FUNC_ICON_MOWER_ALERT. by rewrite Hf.
  - intros n Hi.
    assert (FUNC_ICON_MOWER_ALERT state
         = Ok (if 0 <? n then "mdi:alert-outline" else "mdi:check-circle-outline")) as E.
    { unfold FUNC_ICON_MOWER_ALERT. rewrite Hi.
      destruct (truthy state) eqn:Ht.
      - destruct (eq_str state STATE_ON) eqn:He.
        + apply eq_str_spec in He. subst state. discriminate.
        + rewrite orb_false_r. by destruct (0 <? n).
      - by rewrite (falsy_int_zero _ _ Ht Hi). }
    split; [exact E |]. rewrite E.
    destruct (0 <? n) eqn:Hn.
    + apply Z.ltb_lt in Hn. done.
    + apply Z.ltb_ge in Hn. split; [discriminate | lia].
Qed.

(** The cases of [FUNC_ICON_BATTERY] on an integer state that the table of
    battery icons needs: full, and the tens below. *)
Lemma battery_icon_full : FUNC_ICON_BATTERY (PInt 100) = Ok "mdi:battery".
Proof. reflexivity. Qed.

Lemma battery_icon_tens (n : Z) :
  1 ≤ n ≤ 99 →
  FUNC_ICON_BATTERY (PInt n) = Ok ("mdi:battery-" +:+ str_of_int (10 * (n / 10))).
Proof.
  intros Hn. unfold FUNC_ICON_BATTERY. simpl.
  destruct (n =? 0) eqn:H0; [lia |]. simpl.
  destruct (n =? 100) eqn:H100; [lia |].
  do 3 f_equal. rewrite (Z.mod_eq n 10) by lia. lia.
Qed.

Lemma battery_icon_below_ten (n : Z) :
  1 ≤ n ≤ 9 → FUNC_ICON_BATTERY (PInt n) = Ok "mdi:battery-0".
Proof.
  intros Hn. rewrite battery_icon_tens by lia.
  by rewrite (Z.div_small n 10) by lia.
Qed.

Lemma battery_icon_falsy (state : value) :
  truthy state = false → FUNC_ICON_BATTERY state = Ok "mdi:battery-50".
Proof. intros Hf. unfold FUNC_ICON_BATTERY. by rewrite Hf. Qed.

Lemma battery_icon_unknown : FUNC_ICON_BATTERY (PStr STATE_UNKNOWN) = Ok "mdi:battery-50".
Proof. reflexivity. Qed.

(** C10: the integer state 0 is falsy, so [FUNC_ICON_BATTERY] answers it
    with "mdi:battery-50" and not with "mdi:battery-outline"; the branch for
    zero is taken for a truthy state that converts to zero, such as the
    string "0". For 100 and for 1 to 99 the icon is "mdi:battery" and
    "mdi:battery-" followed by the tens. *)
Theorem battery_icon_zero :
  FUNC_ICON_BATTERY (PInt 0) = Ok "mdi:battery-50"
  ∧ FUNC_ICON_BATTERY (PInt 0) ≠ Ok "mdi:battery-outline"
  ∧ FUNC_ICON_BATTERY (PStr "0") = Ok "mdi:battery-outline"
  ∧ FUNC_ICON_BATTERY (PInt 100) = Ok "mdi:battery"
  ∧ ∀ n, 1 ≤ n ≤ 99 →
      FUNC_ICON_BATTERY (PInt n) = Ok ("mdi:battery-" +:+ str_of_int (10 * (n / 10))).
Proof.
  split; [reflexivity |]. split; [discriminate |].
  split; [reflexivity |]. split; [reflexivity |].
  apply battery_icon_tens.
Qed.

(** ** The entity table *)

Section TableFacts.
Context `{Const}.

Lemma entity_definitions_keys : entity_definitions.*1 = entity_keys.
Proof. reflexivity. Qed.

(** Every item of the table is typed as a sensor that has a unit, or as a
    binary sensor. *)
Lemma entity_definitions_typed (key : string) (d : entity_definition) :
  (key, d) ∈ entity_definitions →
  (CONF_TYPE d = SENSOR_TYPE ∧ is_Some (CONF_UNIT_OF_MEASUREMENT d))
  ∨ CONF_TYPE d = BINARY_SENSOR_TYPE.
Proof.
  unfold entity_definitions. rewrite !elem_of_cons, elem_of_nil.
  intros Hin. repeat (destruct Hin as [Hin | Hin]; [simplify_eq; simpl; eauto |]).
  done.
Qed.

Lemma create_entity_table (mower_name serial key : string) (d : entity_definition) :
  SENSOR_TYPE ≠ BINARY_SENSOR_TYPE →
  (key, d) ∈ entity_definitions →
  create_entity mower_name serial key d = Ok (Some (entity_for mower_name serial key d)).
Proof.
  intros Hne Hin. unfold create_entity, entity_for.
  destruct (entity_definitions_typed key d Hin) as [[Ht [u Hu]] | Ht].
  - rewrite bool_decide_eq_true_2 by done. by rewrite Hu.
  - rewrite bool_decide_eq_false_2 by congruence.
    by rewrite bool_decide_eq_true_2.
Qed.

(** The loop over a table without repeated keys whose items all yield an
    entity: the result holds the entity of each item, and what was there
    before under the other keys. *)
Lemma create_entities_loop_lookup (mower_name serial : string)
    (f : string → entity_definition → Entity)
    (items : list (string * entity_definition)) :
  NoDup items.*1 →
  (∀ k d, (k, d) ∈ items → create_entity mower_name serial k d = Ok (Some (f k d))) →
  ∀ acc : gmap string Entity,
  ∃ ents, create_entities_loop mower_name serial items acc = Ok ents
    ∧ ∀ k, ents !! k =
           match (list_to_map items : gmap string entity_definition) !! k with
           | Some d => Some (f k d)
           | None => acc !! k
           end.
Proof.
  induction items as [| [k0 d0] items IH]; intros Hnd Hall acc.
  - exists acc. split; [reflexivity |]. intros k. simpl. by rewrite lookup_empty.
  - simpl in Hnd. apply NoDup_cons in Hnd as [Hk0 Hnd].
    simpl. rewrite (Hall k0 d0) by left.
    destruct (IH Hnd (fun k d Hin => Hall k d (list_elem_of_further _ _ _ Hin))
                (<[k0 := f k0 d0]> acc)) as (ents & -> & Hl).
    exists ents. split; [reflexivity |]. intros k. rewrite Hl.
    destruct (decide (k = k0)) as [-> | Hne].
    + rewrite lookup_insert_eq.
      rewrite (not_elem_of_list_to_map_1 items k0 Hk0). by rewrite lookup_insert_eq.
    + rewrite (lookup_insert_ne (list_to_map items)) by done.
      destruct (list_to_map items !! k); [done |]. by rewrite lookup_insert_ne.
Qed.

Lemma entity_definitions_by_type :
  SENSOR_TYPE ≠ BINARY_SENSOR_TYPE →
  length (filter (fun kd => CONF_TYPE kd.2 = BINARY_SENSOR_TYPE) entity_definitions) = 3%nat
  ∧ length (filter (fun kd => CONF_TYPE kd.2 = SENSOR_TYPE) entity_definitions) = 9%nat.
Proof.
  intros Hne. unfold entity_definitions.
  repeat (first [ rewrite filter_cons_True by (simpl; congruence)
                | rewrite filter_cons_False by (simpl; congruence) ]).
  by rewrite !filter_nil.
Qed.

(** C8: [create_entities] returns a mapping whose keys are those of the
    table [entity_definitions], twelve in all, three of them typed as
    binary sensors and nine as sensors; a sensor item yields an
    [IndegoSensor] and a binary sensor item an [IndegoBinarySensor], built
    with the serial, the identifier "indego_<serial>_<key>", the name of
    the mower followed by the name of the item, and the icon, device
    class, unit and attribute list of the item. *)
Theorem create_entities_table (mower_name serial : string) :
  const_wf →
  ∃ ents,
    create_entities mower_name serial = Ok ents
    ∧ dom ents = list_to_set entity_definitions.*1
    ∧ size ents = 12%nat
    ∧ length (filter (fun kd => CONF_TYPE kd.2 = BINARY_SENSOR_TYPE)
                entity_definitions) = 3%nat
    ∧ length (filter (fun kd => CONF_TYPE kd.2 = SENSOR_TYPE)
                entity_definitions) = 9%nat
    ∧ ∀ key d, (key, d) ∈ entity_definitions →
        (CONF_TYPE d = SENSOR_TYPE →
           ∃ unit_, CONF_UNIT_OF_MEASUREMENT d = Some unit_
             ∧ ents !! key =
                 Some (IndegoSensor serial
                         ("indego_" +:+ serial +:+ "_" +:+ key)
                         (mower_name +:+ " " +:+ CONF_NAME d)
                         (CONF_ICON d) (CONF_DEVICE_CLASS d) unit_ (CONF_ATTR d)))
        ∧ (CONF_TYPE d = BINARY_SENSOR_TYPE →
           ents !! key =
             Some (IndegoBinarySensor serial
                     ("indego_" +:+ serial +:+ "_" +:+ key)
                     (mower_name +:+ " " +:+ CONF_NAME d)
                     (CONF_ICON d) (CONF_DEVICE_CLASS d) (CONF_ATTR d))).
Proof.
  intros (Hnd & Hne & _).
  rewrite <- entity_definitions_keys in Hnd.
  destruct (create_entities_loop_lookup mower_name serial
              (entity_for mower_name serial) entity_definitions Hnd
              (fun k d => create_entity_table mower_name serial k d Hne) ∅)
    as (ents & Hrun & Hl).
  assert (dom ents = list_to_set entity_definitions.*1) as Hdom.
  { rewrite <- (dom_list_to_map_L (M := gmap string) entity_definitions).
    apply set_eq. intros k. rewrite !elem_of_dom, Hl.
    destruct (list_to_map entity_definitions !! k) eqn:E.
    - split; eauto.
    - rewrite lookup_empty. split; intros [? ?]; done. }
  exists ents. split; [exact Hrun |]. split; [exact Hdom |].
  split.
  { rewrite <- size_dom, Hdom, size_list_to_set by done. reflexivity. }
  destruct (entity_definitions_by_type Hne) as [Hb Hs].
  split; [exact Hb |]. split; [exact Hs |].
  intros key d Hin.
  pose proof (elem_of_list_to_map_1 (M := gmap string) _ _ _ Hnd Hin) as Hk.
  specialize (Hl key). rewrite Hk in Hl. unfold entity_for in Hl.
  split.
  - intros Ht. destruct (entity_definitions_typed key d Hin) as [[_ [u Hu]] | Hb'];
      [| congruence].
    exists u. split; [done |].
    by rewrite Hl, bool_decide_eq_true_2, Hu.
  - intros Ht. rewrite Hl, bool_decide_eq_false_2; [done | congruence].
Qed.

End TableFacts.

Lemma sample_const_wf : @const_wf Sample.const.
Proof. apply (@bool_decide_unpack _ (@const_wf_dec Sample.const)). vm_compute. exact I. Defined.

Lemma create_entities_table_witness :
  ∃ ents,
    @create_entities Sample.const "Indego" "123456789" = Ok ents
    ∧ dom ents = list_to_set (@entity_definitions Sample.const).*1
    ∧ size ents = 12%nat
    ∧ length (filter (fun kd => CONF_TYPE kd.2 = @BINARY_SENSOR_TYPE Sample.const)
                (@entity_definitions Sample.const)) = 3%nat
    ∧ length (filter (fun kd => CONF_TYPE kd.2 = @SENSOR_TYPE Sample.const)
                (@entity_definitions Sample.const)) = 9%nat
    ∧ ∀ key d, (key, d) ∈ @entity_definitions Sample.const →
        (CONF_TYPE d = @SENSOR_TYPE Sample.const →
           ∃ unit_, CONF_UNIT_OF_MEASUREMENT d = Some unit_
             ∧ ents !! key =
                 Some (IndegoSensor "123456789"
                         ("indego_" +:+ "123456789" +:+ "_" +:+ key)
                         ("Indego" +:+ " " +:+ CONF_NAME d)
                         (CONF_ICON d) (CONF_DEVICE_CLASS d) unit_ (CONF_ATTR d)))
        ∧ (CONF_TYPE d = @BINARY_SENSOR_TYPE Sample.const →
           ents !! key =
             Some (IndegoBinarySensor "123456789"
                     ("indego_" +:+ "123456789" +:+ "_" +:+ key)
                     ("Indego" +:+ " " +:+ CONF_NAME d)
                     (CONF_ICON d) (CONF_DEVICE_CLASS d) (CONF_ATTR d))).
Proof.
  exact (@create_entities_table Sample.const "Indego" "123456789" sample_const_wf).
Defined.

(** ** Reasoning about coroutines *)

(** *** What a coroutine leaves as it is

    [keeps R m]: on every path, also one that ends with an exception, the
    worlds before and after [m] are related by [R]. *)

Section Keeps.
Context (R : relation World) `{!PreOrder R}.

Lemma keeps_ret {A} (a : A) : keeps R (ret a).
Proof. intros w. reflexivity. Qed.

Lemma keeps_raise {A} (e : exn) : keeps R (raise (A := A) e).
Proof. intros w. reflexivity. Qed.

Lemma keeps_cancelled {A} : keeps R (fun w => (Cancelled (A := A), w)).
Proof. intros w. reflexivity. Qed.

Lemma keeps_gets {A} (f : World → A) : keeps R (gets f).
Proof. intros w. reflexivity. Qed.

Lemma keeps_modify (f : World → World) : (∀ w, R w (f w)) → keeps R (modify f).
Proof. intros Hf w. apply Hf. Qed.

Lemma keeps_bind {A B} (m : M A) (k : A → M B) :
  keeps R m → (∀ a, keeps R (k a)) → keeps R (bind m k).
Proof.
  intros Hm Hk w. unfold bind. specialize (Hm w).
  destruct (m w) as [[a | e |] w1]; simpl in *; [| done | done].
  etrans; [exact Hm | apply Hk].
Qed.

Lemma keeps_try_except {A} (body : M A) (clauses : list (list exn * (exn → M A))) :
  keeps R body → Forall (fun c => ∀ e, keeps R (c.2 e)) clauses →
  keeps R (try_except body clauses).
Proof.
  intros Hb Hc w. unfold try_except. specialize (Hb w).
  destruct (body w) as [[a | e |] w1]; simpl in *; [done | | done].
  destruct (find_clause e clauses) as [h |] eqn:Hf; [| done].
  etrans; [exact Hb |].
  clear Hb. induction Hc as [| [cl hd] cs Hhd _ IH]; simpl in Hf; [done |].
  destruct (isinstance e cl); [| by apply IH].
  injection Hf as <-. apply Hhd.
Qed.

Lemma keeps_gather_return_exceptions (coros : list (M unit)) :
  Forall (keeps R) coros → keeps R (gather_return_exceptions coros).
Proof.
  induction 1 as [| c cs Hc _ IH]; intros w; simpl; [reflexivity |].
  specialize (Hc w). destruct (c w) as [r w1]. simpl in Hc.
  etrans; [exact Hc |].
  apply (keeps_bind _ _ IH). intros rs. apply keeps_ret.
Qed.

Lemma keeps_gather (coros : list (M unit)) :
  Forall (keeps R) coros → keeps R (gather coros).
Proof.
  induction 1 as [| c cs Hc _ IH]; intros w; simpl; [reflexivity |].
  specialize (Hc w). destruct (c w) as [r w1]. simpl in Hc.
  specialize (IH w1). destruct (gather cs w1) as [rs w2]. simpl in *.
  etrans; eauto.
Qed.

Lemma keeps_request (c : pyIndego.call) (r : wakeup) :
  ignores_api R → keeps R (request c r).
Proof.
  intros [Hl Hc] w. unfold request. destruct r as [[client | e] |]; simpl.
  - etrans; [apply Hl | apply Hc].
  - apply Hl.
  - apply Hl.
Qed.

Lemma keeps_entity_set_state (k : string) (v : value) :
  ignores_entity R k → keeps R (entity_set_state k v).
Proof.
  intros Hi w. unfold entity_set_state.
  destruct (entities (hub w) !! k); simpl; [apply Hi | reflexivity].
Qed.

Lemma keeps_entity_add_attribute (k : string) (attr : list (string * value)) :
  ignores_entity R k → keeps R (entity_add_attribute k attr).
Proof.
  intros Hi w. unfold entity_add_attribute.
  destruct (entities (hub w) !! k); simpl; [apply Hi | reflexivity].
Qed.

Lemma keeps_fresh_handle : ignores_host R → keeps R fresh_handle.
Proof. intros Hi w. apply Hi. Qed.

Lemma keeps_async_call_later (d : Z) (cb : callback) :
  ignores_host R → keeps R (async_call_later d cb).
Proof.
  intros Hi. unfold async_call_later.
  apply keeps_bind; [by apply keeps_fresh_handle |]. intros n.
  apply keeps_bind; [| intros; apply keeps_ret].
  apply keeps_modify. intros w. apply Hi.
Qed.

Lemma keeps_async_create_task (t : target) :
  ignores_host R → keeps R (async_create_task t).
Proof.
  intros Hi. unfold async_create_task.
  destruct t; try apply keeps_raise;
    (apply keeps_bind; [by apply keeps_fresh_handle |]; intros n;
     apply keeps_bind; [| intros; apply keeps_ret];
     apply keeps_modify; intros w; apply Hi).
Qed.

End Keeps.

(** *** Coroutines that are not cancelled

    A coroutine whose requests are all answered ends with a value or with an
    exception. *)

Lemma not_cancelled_ret {A} (a : A) : not_cancelled (ret a).
Proof. intros w. discriminate. Qed.

Lemma not_cancelled_raise {A} (e : exn) : not_cancelled (raise (A := A) e).
Proof. intros w. discriminate. Qed.

Lemma not_cancelled_gets {A} (f : World → A) : not_cancelled (gets f).
Proof. intros w. discriminate. Qed.

Lemma not_cancelled_modify (f : World → World) : not_cancelled (modify f).
Proof. intros w. discriminate. Qed.

Lemma not_cancelled_bind {A B} (m : M A) (k : A → M B) :
  not_cancelled m → (∀ a, not_cancelled (k a)) → not_cancelled (bind m k).
Proof.
  intros Hm Hk w. unfold bind. specialize (Hm w).
  destruct (m w) as [[a | e |] w1]; simpl in *; [apply Hk | discriminate | done].
Qed.

Lemma not_cancelled_request (c : pyIndego.call) (r : response) :
  not_cancelled (request c r).
Proof. intros w. unfold request. destruct r; discriminate. Qed.

Lemma not_cancelled_entity_set_state (k : string) (v : value) :
  not_cancelled (entity_set_state k v).
Proof. intros w. unfold entity_set_state. destruct (_ !! _); discriminate. Qed.

Lemma not_cancelled_entity_add_attribute (k : string) (attr : list (string * value)) :
  not_cancelled (entity_add_attribute k attr).
Proof. intros w. unfold entity_add_attribute. destruct (_ !! _); discriminate. Qed.

Create HintDb coroutine.
#[export] Hint Resolve not_cancelled_ret not_cancelled_raise not_cancelled_gets
  not_cancelled_modify not_cancelled_request not_cancelled_entity_set_state
  not_cancelled_entity_add_attribute : coroutine.
#[export] Hint Resolve keeps_ret keeps_raise keeps_cancelled keeps_gets
  keeps_request keeps_entity_set_state keeps_entity_add_attribute
  keeps_fresh_handle keeps_async_call_later keeps_async_create_task : coroutine.
#[export] Hint Extern 1 (PreOrder _) => apply _ : coroutine.

(** Goes through the statements of a coroutine. *)
Ltac coroutine :=
  repeat first
    [ progress intros
    | solve [eauto with coroutine]
    | apply keeps_bind
    | apply not_cancelled_bind
    | match goal with
      | |- keeps _ (if ?b then _ else _) => destruct b
      | |- not_cancelled (if ?b then _ else _) => destruct b
      | |- keeps _ (match ?x with _ => _ end) => destruct x
      | |- not_cancelled (match ?x with _ => _ end) => destruct x
      end ].

(** *** Inversion of a sequence that ended well *)

Lemma bind_Ok {A B} (m : M A) (k : A → M B) (w w' : World) (b : B) :
  bind m k w = (Ok b, w') → ∃ a w1, m w = (Ok a, w1) ∧ k a w1 = (Ok b, w').
Proof.
  unfold bind. destruct (m w) as [[a | e |] w1]; intros Hk; try discriminate. eauto.
Qed.

Lemma request_Ok (c : pyIndego.call) (r : response) (w w' : World) :
  request c r w = (Ok tt, w') →
  ∃ client, r = Returned client
    ∧ w' = with_indego client (with_api_log (api_log w ++ [c]) w).
Proof. unfold request. destruct r; intros [= <-]; eauto. Qed.

Lemma entity_set_state_Ok (k : string) (v : value) (w w' : World) :
  entity_set_state k v w = (Ok tt, w') →
  ∃ e, entities (hub w) !! k = Some e
    ∧ w' = with_hub (set_entities (<[k := set_state v e]> (entities (hub w)))) w.
Proof. unfold entity_set_state. destruct (_ !! _); intros [= <-]; eauto. Qed.

Lemma entity_add_attribute_Ok (k : string) (attr : list (string * value)) (w w' : World) :
  entity_add_attribute k attr w = (Ok tt, w') →
  ∃ e, entities (hub w) !! k = Some e
    ∧ w' = with_hub (set_entities (<[k := add_attribute attr e]> (entities (hub w)))) w.
Proof. unfold entity_add_attribute. destruct (_ !! _); intros [= <-]; eauto. Qed.

(** *** The relations used below *)

#[export] Instance same_control_preorder : PreOrder same_control.
Proof.
  split.
  - intros w. by repeat split.
  - intros w1 w2 w3 (? & ? & ? & ? & ?) (? & ? & ? & ? & ?).
    repeat split; congruence.
Qed.

#[export] Instance same_entity_preorder k : PreOrder (same_entity k).
Proof. split; unfold same_entity; [by intros w | intros w1 w2 w3; congruence]. Qed.

#[export] Instance same_log_preorder : PreOrder same_log.
Proof. split; unfold same_log; [by intros w | intros w1 w2 w3; congruence]. Qed.

#[export] Instance same_indego_preorder : PreOrder same_indego.
Proof. split; unfold same_indego; [by intros w | intros w1 w2 w3; congruence]. Qed.

#[export] Instance log_grows_preorder P : PreOrder (log_grows P).
Proof.
  split.
  - intros w. exists []. by rewrite app_nil_r.
  - intros w1 w2 w3 (l1 & E1 & H1) (l2 & E2 & H2). exists (l1 ++ l2)%list.
    split; [by rewrite E2, E1, app_assoc | by apply Forall_app].
Qed.

Lemma same_control_ignores_api : ignores_api same_control.
Proof. by split; intros; repeat split. Qed.
Lemma same_control_ignores_entity k : ignores_entity same_control k.
Proof. by intros w e; repeat split. Qed.

Lemma same_entity_ignores_api k : ignores_api (same_entity k).
Proof. by split; intros. Qed.
Lemma same_entity_ignores_host k : ignores_host (same_entity k).
Proof. by intros w f. Qed.
Lemma same_entity_ignores_entity k k' : k' ≠ k → ignores_entity (same_entity k) k'.
Proof. intros Hne w e. unfold same_entity. simpl. by rewrite lookup_insert_ne. Qed.

Lemma same_log_ignores_entity k : ignores_entity same_log k.
Proof. by intros w e. Qed.
Lemma same_log_ignores_host : ignores_host same_log.
Proof. by intros w f. Qed.

Lemma same_indego_ignores_entity k : ignores_entity same_indego k.
Proof. by intros w e. Qed.
Lemma same_indego_ignores_host : ignores_host same_indego.
Proof. by intros w f. Qed.

Lemma log_grows_ignores_entity P k : ignores_entity (log_grows P) k.
Proof. intros w e. exists []. by rewrite app_nil_r. Qed.
Lemma log_grows_ignores_host P : ignores_host (log_grows P).
Proof. intros w f. exists []. by rewrite app_nil_r. Qed.

Lemma keeps_request_log (P : pyIndego.call → Prop) c r :
  P c → keeps (log_grows P) (request c r).
Proof.
  intros Hc w. exists [c]. split; [| by apply Forall_singleton].
  unfold request. by destruct r as [[] |].
Qed.

#[export] Hint Resolve same_control_ignores_api same_control_ignores_entity
  same_entity_ignores_api same_entity_ignores_host same_entity_ignores_entity
  same_log_ignores_entity same_log_ignores_host
  same_indego_ignores_entity same_indego_ignores_host
  log_grows_ignores_entity log_grows_ignores_host keeps_request_log : coroutine.

Section UpdateFacts.
Context `{Const}.

(** The part of [_update_state] that follows the request. *)
Lemma _update_state_log (r : response) (now : Z) (w : World) :
  api_log (_update_state r now w).2
  = (api_log w ++ [pyIndego.update_state true 300])%list.
Proof.
  unfold _update_state, bind at 1. unfold request at 1.
  destruct r as [c | e]; simpl; [| done].
  match goal with |- api_log (?m ?w1).2 = _ =>
    change (api_log w ++ [pyIndego.update_state true 300])%list with (api_log w1);
    enough (keeps same_log m) as Hk by apply Hk end.
  coroutine.
Qed.

(** The updates leave the host and the control fields of the hub alone. *)
Lemma _update_state_control r now : keeps same_control (_update_state r now).
Proof. unfold _update_state. coroutine. Qed.
Lemma _update_operating_data_control r now :
  keeps same_control (_update_operating_data r now).
Proof. unfold _update_operating_data. coroutine. Qed.
Lemma _update_generic_data_control r : keeps same_control (_update_generic_data r).
Proof. unfold _update_generic_data. coroutine. Qed.
Lemma _update_alerts_control r : keeps same_control (_update_alerts r).
Proof. unfold _update_alerts. coroutine. Qed.
Lemma _update_updates_available_control r :
  keeps same_control (_update_updates_available r).
Proof. unfold _update_updates_available. coroutine. Qed.
Lemma _update_last_completed_mow_control r :
  keeps same_control (_update_last_completed_mow r).
Proof. unfold _update_last_completed_mow. coroutine. Qed.
Lemma _update_next_mow_control r : keeps same_control (_update_next_mow r).
Proof. unfold _update_next_mow. coroutine. Qed.

(** With answered requests they end with a value or an exception. *)
Lemma _update_state_not_cancelled r now : not_cancelled (_update_state r now).
Proof. unfold _update_state. coroutine. Qed.
Lemma _update_operating_data_not_cancelled r now :
  not_cancelled (_update_operating_data r now).
Proof. unfold _update_operating_data. coroutine. Qed.
Lemma _update_generic_data_not_cancelled (r : response) :
  not_cancelled (_update_generic_data r).
Proof. unfold _update_generic_data. coroutine. Qed.
Lemma _update_alerts_not_cancelled (r : response) : not_cancelled (_update_alerts r).
Proof. unfold _update_alerts. coroutine. Qed.
Lemma _update_updates_available_not_cancelled r :
  not_cancelled (_update_updates_available r).
Proof. unfold _update_updates_available. coroutine. Qed.
Lemma _update_last_completed_mow_not_cancelled (r : response) :
  not_cancelled (_update_last_completed_mow r).
Proof. unfold _update_last_completed_mow. coroutine. Qed.
Lemma _update_next_mow_not_cancelled (r : response) :
  not_cancelled (_update_next_mow r).
Proof. unfold _update_next_mow. coroutine. Qed.

End UpdateFacts.

(** ** The 5-minute batch *)

Lemma isinstance_Exception (e : exn) : isinstance e [Exception_] = true.
Proof. by destruct e. Qed.

#[global] Arguments isinstance : simpl never.

Lemma randint_range (a b raw : Z) : a ≤ b → a ≤ randint a b raw ≤ b.
Proof.
  intros Hab. unfold randint.
  pose proof (Z.mod_pos_bound raw (b - a + 1)). lia.
Qed.

Lemma gather_return_exceptions_Ok (coros : list (M unit)) (w : World) :
  ∃ results,
    (gather_return_exceptions coros w).1 = Ok results
    ∧ (Forall not_cancelled coros → Forall (fun r => r ≠ Cancelled) results).
Proof.
  revert w. induction coros as [| c cs IH]; intros w; simpl.
  - exists []. split; [done | by constructor].
  - destruct (c w) as [r w1] eqn:Hc. destruct (IH w1) as (rs & Hrs & Hnc).
    exists (r :: rs). unfold bind, ret.
    destruct (gather_return_exceptions cs w1) as [[rs' | |] w2]; simpl in *;
      try discriminate.
    split; [congruence |]. intros Hall. inversion Hall as [| ? ? Hc' Hcs]. subst.
    constructor; [| by apply Hnc].
    specialize (Hc' w). by rewrite Hc in Hc'.
Qed.

Section Batch.
Context `{Const}.

(** The loop over the results keeps the delay it starts with until it
    meets a timeout, and from then on a delay of 60 to 90 seconds. *)
Lemma refresh_5m_results_spec (results : list (result unit)) (rnd : nat → Z) :
  Forall (fun r => r ≠ Cancelled) results →
  ∀ (next_refresh : Z) (index : nat) (w : World),
  ∃ delay,
    refresh_5m_results results rnd next_refresh index w = (Ok delay, w)
    ∧ (existsb is_timeout results = false → delay = next_refresh)
    ∧ (existsb is_timeout results = true → 60 ≤ delay ≤ 90).
Proof.
  induction 1 as [| res results Hres _ IH]; intros d i w.
  - exists d. by repeat split.
  - simpl. destruct res as [[] | e |]; [| | done].
    + destruct (IH d (S i) w) as (d' & Hrun & Hsame & Hto).
      exists d'. unfold bind, ret. simpl. by rewrite Hrun.
    + unfold bind, try_except, raise. simpl.
      destruct (isinstance e [ServerTimeoutError; TooManyRedirects]) eqn:Ht; simpl.
      * destruct (IH (60 + randint 0 30 (rnd i)) (S i) w) as (d' & Hrun & Hsame & Hto).
        exists d'. rewrite Hrun. split; [done |]. split; [done |].
        intros _. destruct (existsb is_timeout results); [by apply Hto |].
        rewrite Hsame by done.
        pose proof (randint_range 0 30 (rnd i)). lia.
      * rewrite isinstance_Exception. simpl.
        destruct (IH d (S i) w) as (d' & Hrun & Hsame & Hto).
        exists d'. by rewrite Hrun.
Qed.

(** A run of [refresh_5m]: the gathered results, the delay chosen from
    them, the timer set for the next run, and what is left alone. *)
Lemma refresh_5m_spec (r_generic r_alerts r_last r_next : response)
    (rnd : nat → Z) (w : World) :
  ∃ results delay w',
    (gather_return_exceptions
       [ _update_generic_data r_generic; _update_alerts r_alerts;
         _update_last_completed_mow r_last; _update_next_mow r_next ] w).1
      = Ok results
    ∧ refresh_5m r_generic r_alerts r_last r_next rnd w = (Ok tt, w')
    ∧ timers (hass w')
        = <[next_handle (hass w) := (delay, cb_refresh_5m)]> (timers (hass w))
    ∧ refresh_5m_remover (hub w') = Some (next_handle (hass w))
    ∧ (existsb is_timeout results = true → 60 ≤ delay ≤ 90)
    ∧ (existsb is_timeout results = false → delay = 300)
    ∧ tasks (hass w') = tasks (hass w)
    ∧ refresh_state_task (hub w') = refresh_state_task (hub w)
    ∧ refresh_60m_remover (hub w') = refresh_60m_remover (hub w).
Proof.
  set (coros := [ _update_generic_data r_generic; _update_alerts r_alerts;
                  _update_last_completed_mow r_last; _update_next_mow r_next ]).
  destruct (gather_return_exceptions_Ok coros w) as (results & Hres & Hnc).
  assert (Forall not_cancelled coros) as Hcoros.
  { unfold coros. repeat (apply Forall_cons_2;
              [ solve [ auto using _update_generic_data_not_cancelled,
                          _update_alerts_not_cancelled,
                          _update_last_completed_mow_not_cancelled,
                          _update_next_mow_not_cancelled ] |]).
    apply Forall_nil_2. }
  assert (keeps same_control (gather_return_exceptions coros)) as Hk.
  { apply keeps_gather_return_exceptions; [apply _ |].
    unfold coros. repeat (apply Forall_cons_2;
              [ solve [ auto using _update_generic_data_control,
                          _update_alerts_control,
                          _update_last_completed_mow_control,
                          _update_next_mow_control ] |]).
    apply Forall_nil_2. }
  specialize (Hk w). specialize (Hnc Hcoros).
  unfold refresh_5m. fold coros. unfold bind at 1.
  destruct (gather_return_exceptions coros w) as [res w1]. simpl in Hres, Hk.
  subst res. destruct Hk as (Hh & Ht & _ & H60 & _).
  destruct (refresh_5m_results_spec results rnd Hnc 300 0%nat w1)
    as (delay & Hrun & Hsame & Hto).
  exists results, delay. unfold bind at 1. rewrite Hrun.
  eexists. split; [reflexivity |]. split; [reflexivity |]. simpl.
  rewrite Hh. by repeat (split; [done |]).
Qed.

(** An update whose request ends with the [CancelledError] ends with it
    too. *)
Lemma cancelled_update_in (r_generic r_alerts r_last r_next : wakeup) :
  existsb is_cancel [r_generic; r_alerts; r_last; r_next] = true →
  ∃ m, m ∈ [ _update_generic_data r_generic; _update_alerts r_alerts;
             _update_last_completed_mow r_last; _update_next_mow r_next ]
       ∧ ∀ w, (m w).1 = Cancelled.
Proof.
  intros Hc. simpl in Hc. rewrite !orb_true_iff in Hc.
  destruct Hc as [Hc | [Hc | [Hc | [Hc | Hc]]]]; [| | | | done].
  - destruct r_generic; [done |]. eexists. split; [left | done].
  - destruct r_alerts; [done |]. eexists.
    split; [right; left | done].
  - destruct r_last; [done |]. eexists.
    split; [do 2 right; left | done].
  - destruct r_next; [done |]. eexists.
    split; [do 3 right; left | done].
Qed.

(** The outcome of a coroutine that ends with the [CancelledError] is among
    the gathered results. *)
Lemma gather_return_exceptions_cancelled (coros : list (M unit)) (m : M unit)
    (w : World) (results : list (result unit)) :
  m ∈ coros → (∀ w, (m w).1 = Cancelled) →
  (gather_return_exceptions coros w).1 = Ok results →
  Cancelled ∈ results.
Proof.
  intros Hin Hm. revert w results.
  induction coros as [| c cs IH]; intros w results; [by apply elem_of_nil in Hin |].
  simpl. specialize (Hm w). destruct (c w) as [r w1] eqn:Hc. unfold bind, ret.
  destruct (gather_return_exceptions cs w1) as [[rs | |] w2] eqn:Hcs; simpl;
    intros Hres; try discriminate.
  injection Hres as <-.
  apply elem_of_cons in Hin as [-> | Hin].
  - rewrite Hc in Hm. simpl in Hm. subst r. left.
  - right. apply (IH Hin w1). by rewrite Hcs.
Qed.

(** The loop over the results raises a [CancelledError] again: neither of
    the two clauses handles it. *)
Lemma refresh_5m_results_cancelled (results : list (result unit)) (rnd : nat → Z) :
  Cancelled ∈ results →
  ∀ (next_refresh : Z) (index : nat) (w : World),
    refresh_5m_results results rnd next_refresh index w = (Cancelled, w).
Proof.
  induction results as [| res results IH]; intros Hin d i w;
    [by apply elem_of_nil in Hin |].
  simpl. destruct res as [[] | e |]; [| | done].
  - apply elem_of_cons in Hin as [Hin | Hin]; [done |].
    unfold bind, ret. simpl. by apply IH.
  - apply elem_of_cons in Hin as [Hin | Hin]; [done |].
    unfold bind, try_except, raise. simpl.
    destruct (isinstance e [ServerTimeoutError; TooManyRedirects]); simpl;
      [by apply IH |].
    rewrite isinstance_Exception. simpl. by apply IH.
Qed.

(** C4, as amended: a run of [refresh_5m] in which no update ends with a
    [CancelledError] ends without an exception whatever the four update
    calls raised, and has scheduled [refresh_5m] again: 60 to 90 seconds
    later if one of the gathered results is a [ServerTimeoutError] or a
    [TooManyRedirects], 300 seconds later otherwise. A [CancelledError]
    among the gathered results is raised again by the loop over the
    results, which no clause of it handles: the run ends with it and no
    next run is scheduled. *)
Theorem refresh_5m_reschedules (r_generic r_alerts r_last r_next : wakeup)
    (rnd : nat → Z) (w : World) :
  ∃ results,
    (gather_return_exceptions
       [ _update_generic_data r_generic; _update_alerts r_alerts;
         _update_last_completed_mow r_last; _update_next_mow r_next ] w).1
      = Ok results
    ∧ (existsb is_cancel [r_generic; r_alerts; r_last; r_next] = false →
         ∃ delay w',
           refresh_5m r_generic r_alerts r_last r_next rnd w = (Ok tt, w')
           ∧ timers (hass w')
               = <[next_handle (hass w) := (delay, cb_refresh_5m)]> (timers (hass w))
           ∧ refresh_5m_remover (hub w') = Some (next_handle (hass w))
           ∧ (existsb is_timeout results = true → 60 ≤ delay ≤ 90)
           ∧ (existsb is_timeout results = false → delay = 300))
    ∧ (existsb is_cancel [r_generic; r_alerts; r_last; r_next] = true →
         ∃ w',
           refresh_5m r_generic r_alerts r_last r_next rnd w = (Cancelled, w')
           ∧ timers (hass w') = timers (hass w)
           ∧ refresh_5m_remover (hub w') = refresh_5m_remover (hub w)).
Proof.
  set (coros := [ _update_generic_data r_generic; _update_alerts r_alerts;
                  _update_last_completed_mow r_last; _update_next_mow r_next ]).
  destruct (gather_return_exceptions_Ok coros w) as (results & Hres & _).
  exists results. split; [exact Hres |]. split.
  - intros Hc. simpl in Hc. rewrite !orb_false_iff in Hc.
    destruct Hc as (H1 & H2 & H3 & H4 & _).
    destruct r_generic as [r1 |]; [| done]. destruct r_alerts as [r2 |]; [| done].
    destruct r_last as [r3 |]; [| done]. destruct r_next as [r4 |]; [| done].
    destruct (refresh_5m_spec r1 r2 r3 r4 rnd w)
      as (results' & delay & w' & Hres' & ? & ? & ? & ? & ? & _).
    unfold coros in Hres. rewrite Hres in Hres'. injection Hres' as <-.
    by exists delay, w'.
  - intros Hc.
    destruct (cancelled_update_in _ _ _ _ Hc) as (m & Hin & Hm).
    pose proof (gather_return_exceptions_cancelled coros m w results Hin Hm Hres) as Hcr.
    assert (keeps same_control (gather_return_exceptions coros)) as Hk.
    { apply keeps_gather_return_exceptions; [apply _ |].
      unfold coros. repeat (apply Forall_cons_2;
                [ solve [ auto using _update_generic_data_control,
                            _update_alerts_control,
                            _update_last_completed_mow_control,
                            _update_next_mow_control ] |]).
      apply Forall_nil_2. }
    specialize (Hk w). unfold refresh_5m. fold coros. unfold bind at 1.
    destruct (gather_return_exceptions coros w) as [res w1]. simpl in Hres, Hk.
    subst res. destruct Hk as (Hh & _ & H5 & _).
    unfold bind at 1. rewrite (refresh_5m_results_cancelled results rnd Hcr).
    exists w1. by rewrite Hh.
Qed.

End Batch.

(** ** Long-poll state refresh *)

Lemma long_poll_update_state : long_poll (pyIndego.update_state true 300).
Proof. by split. Qed.

(** A statement that changes the hub or the host but sends nothing. *)
Ltac keeps_modify :=
  apply keeps_modify; intros ?;
  first [ reflexivity
        | exists []; split; [by rewrite app_nil_r | by constructor] ].

#[export] Hint Resolve long_poll_update_state : coroutine.
#[export] Hint Extern 1 (long_poll _) => exact I : coroutine.
#[export] Hint Extern 2 (keeps _ (modify _)) => keeps_modify : coroutine.

Section LongPoll.
Context `{Const}.

Lemma recall_itself_log P : keeps (log_grows P) recall_itself.
Proof. unfold recall_itself. coroutine. Qed.

Lemma async_refresh_state_head_log r now :
  keeps (log_grows long_poll) (async_refresh_state_head r now).
Proof.
  unfold async_refresh_state_head, _update_state.
  pose proof (recall_itself_log long_poll). coroutine.
Qed.

Lemma async_refresh_state_tail_log r now :
  keeps (log_grows long_poll) (async_refresh_state_tail r now).
Proof.
  unfold async_refresh_state_tail, _update_operating_data.
  pose proof (recall_itself_log long_poll). coroutine.
Qed.

Lemma set_task_status_log P tid st : keeps (log_grows P) (set_task_status tid st).
Proof. unfold set_task_status. coroutine. Qed.

Lemma resume_task_log tid wk now : keeps (log_grows long_poll) (resume_task tid wk now).
Proof.
  intros w. unfold resume_task.
  destruct (status_of tid w) as [[p | | | |] |]; try reflexivity.
  destruct wk as [r |]; [| apply set_task_status_log].
  destruct p.
  - pose proof (async_refresh_state_head_log r now w) as Hh.
    destruct (async_refresh_state_head r now w) as [[[] | e |] w1]; simpl in Hh;
      (etrans; [exact Hh | apply set_task_status_log]).
  - pose proof (async_refresh_state_tail_log r now w) as Hh.
    destruct (async_refresh_state_tail r now w) as [[[] | e |] w1]; simpl in Hh;
      (etrans; [exact Hh | apply set_task_status_log]).
Qed.

(** C7: [_update_state] sends exactly one request, [update_state] with
    [longpoll=True] and [longpoll_timeout=300], whatever the answer; and
    every state request sent by the hub, from the state loop, from a task
    the event loop resumes, from the shutdown handler or from a service,
    is such a long-poll request. *)
Theorem state_refresh_is_long_poll :
  (∀ r now w,
     api_log (_update_state r now w).2
     = (api_log w ++ [pyIndego.update_state true 300])%list)
  ∧ (∀ r_state r_operating now,
       keeps (log_grows long_poll) (async_refresh_state r_state r_operating now))
  ∧ (∀ tid wk now, keeps (log_grows long_poll) (resume_task tid wk now))
  ∧ (∀ wk r_next now r_close,
       keeps (log_grows long_poll) (async_shutdown wk r_next now r_close))
  ∧ (∀ h data r_put r_update now,
       keeps (log_grows long_poll) (handle h data r_put r_update now)).
Proof.
  split; [apply _update_state_log |].
  split.
  { intros. unfold async_refresh_state, _update_state, _update_operating_data.
    pose proof (recall_itself_log long_poll). coroutine. }
  split; [apply resume_task_log |].
  split.
  - intros. unfold async_shutdown, task_cancel, await_task, call_remover.
    pose proof resume_task_log. coroutine.
  - intros. unfold handle, _update_state, _update_generic_data. coroutine.
Qed.

End LongPoll.

(** ** The state loop *)

Section StateLoop.
Context `{Const}.

Lemma needs_operating_data_spec (c : IndegoAsyncClient) :
  needs_operating_data c = true ↔ active_or_online c.
Proof.
  unfold needs_operating_data, active_or_online.
  rewrite !orb_true_iff, andb_true_iff, !bool_decide_eq_true, !Z.leb_le. tauto.
Qed.

(** The keys of the table are different strings. *)
Lemma entity_keys_distinct (i j : nat) (ki kj : string) :
  const_wf → entity_keys !! i = Some ki → entity_keys !! j = Some kj →
  i ≠ j → ki ≠ kj.
Proof.
  intros (Hnd & _) Hi Hj Hij ->. apply Hij.
  by apply (NoDup_lookup entity_keys i j kj).
Qed.

(** [_update_state] touches four entities only. *)
Lemma _update_state_same_entity (k : string) (r : response) (now : Z) :
  ENTITY_MOWER_STATE ≠ k → ENTITY_MOWER_STATE_DETAIL ≠ k →
  ENTITY_LAWN_MOWED ≠ k → ENTITY_RUNTIME ≠ k →
  keeps (same_entity k) (_update_state r now).
Proof. intros. unfold _update_state. coroutine. Qed.

Lemma recall_itself_Ok (w : World) :
  ∃ w', recall_itself w = (Ok tt, w')
    ∧ refresh_state_task (hub w') = Some (next_handle (hass w))
    ∧ tasks (hass w') = <[next_handle (hass w) := refresh_state_pass]> (tasks (hass w))
    ∧ timers (hass w') = timers (hass w)
    ∧ refresh_5m_remover (hub w') = refresh_5m_remover (hub w)
    ∧ refresh_60m_remover (hub w') = refresh_60m_remover (hub w)
    ∧ entities (hub w') = entities (hub w)
    ∧ api_log w' = api_log w.
Proof. eexists. by repeat split. Qed.

(** What [_update_operating_data] has done when it ends well. *)
Lemma _update_operating_data_Ok (r : response) (now : Z) (w w' : World) :
  ENTITY_ONLINE ≠ ENTITY_BATTERY →
  _update_operating_data r now w = (Ok tt, w') →
  ∃ c eo eb,
    r = Returned c
    ∧ api_log w' = (api_log w ++ [pyIndego.update_operating_data])%list
    ∧ entities (hub w') !! ENTITY_ONLINE = Some eo
    ∧ ent_state eo = PBool (pyIndego._online c)
    ∧ entities (hub w') !! ENTITY_BATTERY = Some eb
    ∧ ent_state eb
      = pyIndego.percent_adjusted (pyIndego.battery (pyIndego.operating_data c)).
Proof.
  intros Hne Hrun. unfold _update_operating_data in Hrun.
  apply bind_Ok in Hrun as ([] & w1 & Hreq & Hrun).
  apply request_Ok in Hreq as (c & -> & ->).
  apply bind_Ok in Hrun as (c' & w1 & [= <- <-] & Hrun).
  apply bind_Ok in Hrun as ([] & w1 & Hset1 & Hrun).
  apply entity_set_state_Ok in Hset1 as (eo & Heo & ->).
  apply bind_Ok in Hrun as ([] & w2 & Hset2 & Hrun).
  apply entity_set_state_Ok in Hset2 as (eb & Heb & ->).
  apply entity_add_attribute_Ok in Hrun as (eb' & Heb' & ->).
  simpl in *. rewrite lookup_insert_eq in Heb'. injection Heb' as <-.
  eexists c, _, _. split; [done |]. split; [done |].
  rewrite lookup_insert_ne by done. rewrite lookup_insert_ne by done.
  rewrite lookup_insert_eq. split; [done |]. split; [done |].
  rewrite lookup_insert_eq. by split.
Qed.

(** C1: in a pass of the state loop that ends well and in which shutdown
    has not been signalled, the operating data is requested, and the
    entities [ENTITY_ONLINE] and [ENTITY_BATTERY] are set from the answer,
    if the state number of the mower lies in 500..799 or is 257 or 266 or
    the client reports the mower online; otherwise the request is not sent
    and the two entities are as before the pass. *)
Theorem operating_data_iff_active_or_online (r_state r_operating : response)
    (now : Z) (w w' : World) :
  const_wf →
  _shutdown (hub w) = false →
  async_refresh_state r_state r_operating now w = (Ok tt, w') →
  ∃ c, r_state = Returned c
    ∧ (active_or_online c ↔
         pyIndego.update_operating_data ∈ drop (length (api_log w)) (api_log w'))
    ∧ (active_or_online c →
         ∃ c2 eo eb,
           r_operating = Returned c2
           ∧ api_log w' = (api_log w ++ [pyIndego.update_state true 300;
                                         pyIndego.update_operating_data])%list
           ∧ entities (hub w') !! ENTITY_ONLINE = Some eo
           ∧ ent_state eo = PBool (pyIndego._online c2)
           ∧ entities (hub w') !! ENTITY_BATTERY = Some eb
           ∧ ent_state eb
             = pyIndego.percent_adjusted
                 (pyIndego.battery (pyIndego.operating_data c2)))
    ∧ (¬ active_or_online c →
         api_log w' = (api_log w ++ [pyIndego.update_state true 300])%list
         ∧ entities (hub w') !! ENTITY_ONLINE = entities (hub w) !! ENTITY_ONLINE
         ∧ entities (hub w') !! ENTITY_BATTERY = entities (hub w) !! ENTITY_BATTERY).
Proof.
  intros Hwf Hsd Hrun. unfold async_refresh_state in Hrun.
  apply bind_Ok in Hrun as ([] & w1 & Hupd & Hrun).
  pose proof (_update_state_log r_state now w) as Hlog1.
  pose proof (_update_state_control r_state now w) as (_ & _ & _ & _ & Hsd1).
  pose proof (_update_state_same_entity ENTITY_ONLINE r_state now
                (entity_keys_distinct 3 0 _ _ Hwf eq_refl eq_refl ltac:(done))
                (entity_keys_distinct 4 0 _ _ Hwf eq_refl eq_refl ltac:(done))
                (entity_keys_distinct 6 0 _ _ Hwf eq_refl eq_refl ltac:(done))
                (entity_keys_distinct 10 0 _ _ Hwf eq_refl eq_refl ltac:(done)) w) as Hon.
  pose proof (_update_state_same_entity ENTITY_BATTERY r_state now
                (entity_keys_distinct 3 5 _ _ Hwf eq_refl eq_refl ltac:(done))
                (entity_keys_distinct 4 5 _ _ Hwf eq_refl eq_refl ltac:(done))
                (entity_keys_distinct 6 5 _ _ Hwf eq_refl eq_refl ltac:(done))
                (entity_keys_distinct 10 5 _ _ Hwf eq_refl eq_refl ltac:(done)) w) as Hbat.
  unfold same_entity in Hon, Hbat.
  rewrite Hupd in Hlog1, Hsd1, Hon, Hbat. simpl in Hlog1, Hsd1, Hon, Hbat.
  assert (∃ c, r_state = Returned c ∧ indego w1 = c) as (c & -> & Hc).
  { unfold _update_state in Hupd. apply bind_Ok in Hupd as ([] & w0 & Hreq & Hrest).
    apply request_Ok in Hreq as (c & -> & ->). exists c. split; [done |].
    match type of Hrest with
    | ?m ?w0 = _ =>
        assert (keeps same_indego m) as Hk by coroutine;
        specialize (Hk w0); rewrite Hrest in Hk; exact Hk
    end. }
  exists c. split; [done |].
  apply bind_Ok in Hrun as (sd & w1' & [= <- <-] & Hrun).
  rewrite Hsd1, Hsd in Hrun.
  apply bind_Ok in Hrun as (c' & w1' & [= <- <-] & Hrun).
  rewrite Hc in Hrun.
  apply bind_Ok in Hrun as ([] & w2 & Hop & Hrun).
  destruct (recall_itself_Ok w2) as (w'' & Hrec & _ & _ & _ & _ & _ & Hents & Hlog).
  rewrite Hrec in Hrun. injection Hrun as <-.
  rewrite Hents, Hlog. clear Hrec Hents Hlog.
  destruct (needs_operating_data c) eqn:Hneeds.
  - apply needs_operating_data_spec in Hneeds.
    apply _update_operating_data_Ok in Hop
        as (c2 & eo & eb & -> & Hlog2 & Heo & Hso & Heb & Hsb);
      [| exact (entity_keys_distinct 0 5 _ _ Hwf eq_refl eq_refl ltac:(done))].
    rewrite Hlog2, Hlog1, <- app_assoc. simpl.
    split; [| split].
    + rewrite drop_app_length. split; [intros _ | done].
      apply elem_of_cons. right. apply elem_of_cons. by left.
    + intros _. by exists c2, eo, eb.
    + done.
  - injection Hop as <-.
    assert (¬ active_or_online c) as Hnot.
    { rewrite <- needs_operating_data_spec. by rewrite Hneeds. }
    rewrite Hlog1. split; [| split].
    + rewrite drop_app_length. split; [done |].
      intros [? | Hin]%elem_of_cons; [done |]. by apply elem_of_nil in Hin.
    + done.
    + done.
Qed.

End StateLoop.

(** ** The three loops *)

Section Loops.
Context `{Const}.

Lemma _update_operating_data_or_skip_control (b : bool) (r : response) (now : Z) :
  keeps same_control (if b then _update_operating_data r now else ret tt).
Proof. destruct b; [apply _update_operating_data_control | apply keeps_ret, _]. Qed.

(** A pass of the state loop that ends well with shutdown not signalled
    has made a new task for the next pass, and has set no timer. *)
Lemma async_refresh_state_recalls (r_state r_operating : response) (now : Z)
    (w w' : World) :
  _shutdown (hub w) = false →
  async_refresh_state r_state r_operating now w = (Ok tt, w') →
  refresh_state_task (hub w') = Some (next_handle (hass w))
  ∧ tasks (hass w') = <[next_handle (hass w) := refresh_state_pass]> (tasks (hass w))
  ∧ timers (hass w') = timers (hass w)
  ∧ refresh_5m_remover (hub w') = refresh_5m_remover (hub w)
  ∧ refresh_60m_remover (hub w') = refresh_60m_remover (hub w).
Proof.
  intros Hsd Hrun. unfold async_refresh_state in Hrun.
  apply bind_Ok in Hrun as ([] & w1 & Hupd & Hrun).
  pose proof (_update_state_control r_state now w) as Hc1.
  rewrite Hupd in Hc1. simpl in Hc1. destruct Hc1 as (Hh1 & _ & H51 & H601 & Hsd1).
  apply bind_Ok in Hrun as (sd & w1' & [= <- <-] & Hrun).
  rewrite Hsd1, Hsd in Hrun.
  apply bind_Ok in Hrun as (c & w1' & [= <- <-] & Hrun).
  apply bind_Ok in Hrun as ([] & w2 & Hop & Hrun).
  pose proof (_update_operating_data_or_skip_control
                (needs_operating_data (indego w1)) r_operating now w1) as Hc2.
  rewrite Hop in Hc2. simpl in Hc2. destruct Hc2 as (Hh2 & _ & H52 & H602 & _).
  destruct (recall_itself_Ok w2) as (w'' & Hrec & Ht & Hts & Htm & H5 & H60 & _).
  rewrite Hrec in Hrun. injection Hrun as <-.
  simpl in *. rewrite Ht, Hts, Htm, H5, H60, Hh2, Hh1. repeat split; congruence.
Qed.

(** A run of [refresh_60m] that ends well has set a timer of 3600 seconds
    for itself. *)
Lemma refresh_60m_Ok (r : response) (w w' : World) :
  refresh_60m r w = (Ok tt, w') →
  timers (hass w')
    = <[next_handle (hass w) := (3600, cb_refresh_60m)]> (timers (hass w))
  ∧ refresh_60m_remover (hub w') = Some (next_handle (hass w))
  ∧ tasks (hass w') = tasks (hass w)
  ∧ refresh_state_task (hub w') = refresh_state_task (hub w)
  ∧ refresh_5m_remover (hub w') = refresh_5m_remover (hub w).
Proof.
  intros Hrun. unfold refresh_60m in Hrun.
  apply bind_Ok in Hrun as ([] & w1 & Hupd & Hrun).
  pose proof (_update_updates_available_control r w) as Hc.
  rewrite Hupd in Hc. simpl in Hc. destruct Hc as (Hh & Ht & H5 & _ & _).
  injection Hrun as <-. simpl. rewrite Hh. by repeat split.
Qed.

End Loops.

(** ** Shutdown *)

Section Shutdown.
Context `{Const}.

(** Once the flag is set, a state update that completes changes the client
    and the log of requests only: no entity, no task, no timer. *)
Lemma _update_state_after_shutdown (r : response) (now : Z) (w : World) :
  _shutdown (hub w) = true →
  hub (_update_state r now w).2 = hub w ∧ hass (_update_state r now w).2 = hass w.
Proof.
  intros Hsd. unfold _update_state, bind, request, gets.
  destruct r; simpl; [| done]. by rewrite Hsd.
Qed.

(** And the pass of the state loop it belongs to ends there: no task is
    made for a next pass. *)
Lemma async_refresh_state_after_shutdown (r_state r_operating : response) (now : Z)
    (w : World) :
  _shutdown (hub w) = true →
  hub (async_refresh_state r_state r_operating now w).2 = hub w
  ∧ hass (async_refresh_state r_state r_operating now w).2 = hass w.
Proof.
  intros Hsd. unfold async_refresh_state, _update_state, bind, request, gets.
  destruct r_state; simpl; [| done]. rewrite Hsd. simpl. by rewrite Hsd.
Qed.

Lemma async_refresh_state_head_after_shutdown (r : response) (now : Z) (w : World) :
  _shutdown (hub w) = true →
  ∃ res w', async_refresh_state_head r now w = (res, w')
    ∧ res ≠ Ok true ∧ res ≠ Cancelled
    ∧ hub w' = hub w ∧ hass w' = hass w
    ∧ api_log w' = (api_log w ++ [pyIndego.update_state true 300])%list
    ∧ (∀ c, r = Returned c → res = Ok false).
Proof.
  intros Hsd. unfold async_refresh_state_head, _update_state, bind, request, gets.
  destruct r; simpl.
  - rewrite Hsd. simpl. rewrite Hsd. eexists _, _. by repeat split.
  - eexists _, _. by repeat split.
Qed.

(** The second half of the pass does not read the flag: it makes the task
    for the next pass also when shutdown was signalled while it waited for
    the operating data. *)
Lemma async_refresh_state_tail_recalls (r : response) (now : Z) (w w' : World) :
  async_refresh_state_tail r now w = (Ok tt, w') →
  refresh_state_task (hub w') = Some (next_handle (hass w))
  ∧ tasks (hass w') !! next_handle (hass w) = Some refresh_state_pass.
Proof.
  intros Hrun. unfold async_refresh_state_tail in Hrun.
  apply bind_Ok in Hrun as ([] & w1 & Hop & Hrun).
  pose proof (_update_operating_data_control r now w) as Hc.
  rewrite Hop in Hc. simpl in Hc. destruct Hc as (Hh & _).
  destruct (recall_itself_Ok w1) as (w'' & Hrec & Ht & Hts & _).
  rewrite Hrec in Hrun. injection Hrun as <-.
  rewrite Ht, Hts, Hh. split; [done |]. apply lookup_insert_eq.
Qed.

(** *** Running a sequence *)

Lemma bind_run {A B} (m : M A) (k : A → M B) (w w1 : World) (a : A) :
  m w = (Ok a, w1) → bind m k w = k a w1.
Proof. intros Hm. unfold bind. by rewrite Hm. Qed.

Lemma bind_raised {A B} (m : M A) (k : A → M B) (w w1 : World) (e : exn) :
  m w = (Raise e, w1) → bind m k w = (Raise e, w1).
Proof. intros Hm. unfold bind. by rewrite Hm. Qed.

Lemma bind_cancelled {A B} (m : M A) (k : A → M B) (w w1 : World) :
  m w = (Cancelled, w1) → bind m k w = (Cancelled, w1).
Proof. intros Hm. unfold bind. by rewrite Hm. Qed.

(** *** Cancelling and awaiting a task *)

(** [task.cancel()] changes no status. *)
Lemma status_of_task_cancel (tid tid' : nat) (w : World) :
  status_of tid' (task_cancel tid w).2 = status_of tid' w.
Proof.
  unfold status_of, task_cancel, modify. cbn [snd hass with_hass tasks set_tasks].
  destruct (decide (tid = tid')) as [<- | Hne].
  - rewrite lookup_alter_eq. destruct (tasks (hass w) !! tid) as [t |]; [| done].
    simpl. destruct (task_status_ t) eqn:E; simpl; congruence.
  - by rewrite lookup_alter_ne.
Qed.

Lemma task_cancel_run (tid : nat) (w : World) :
  task_cancel tid w = (Ok tt, (task_cancel tid w).2).
Proof. reflexivity. Qed.

Lemma task_cancel_frame (tid : nat) (w : World) :
  hub (task_cancel tid w).2 = hub w
  ∧ timers (hass (task_cancel tid w).2) = timers (hass w)
  ∧ next_handle (hass (task_cancel tid w).2) = next_handle (hass w)
  ∧ indego (task_cancel tid w).2 = indego w
  ∧ api_log (task_cancel tid w).2 = api_log w.
Proof. by repeat split. Qed.

(** A task that has ended is not resumed. *)
Lemma resume_task_ended (tid : nat) (wk : wakeup) (now : Z) (w : World) :
  is_pending (status_of tid w) = false → resume_task tid wk now w = (Ok tt, w).
Proof.
  intros Hp. unfold resume_task.
  by destruct (status_of tid w) as [[] |].
Qed.

(** Awaiting a task that has failed raises its exception in the caller. *)
Lemma await_task_failed (tid : nat) (wk : wakeup) (r_next : response) (now : Z)
    (w : World) (e : exn) :
  status_of tid w = Some (Failed e) → await_task tid wk r_next now w = (Raise e, w).
Proof.
  intros Hst. unfold await_task, bind, gets, ret, raise.
  rewrite resume_task_ended by (by rewrite Hst).
  rewrite Hst. simpl. by rewrite Hst.
Qed.

(** C5: the shutdown handler stops at its [await] when the task of the
    state loop has ended with an exception: the exception is raised again in
    the handler, after the flag has been set and before the timers of the
    two batches are removed and the client is closed. So the timers stay
    and no [close] request is sent. *)
Theorem shutdown_stops_at_failed_task (wk : wakeup) (r_next : response) (now : Z)
    (r_close : response) (w : World) (tid : nat) (e : exn) :
  refresh_state_task (hub w) = Some tid →
  status_of tid w = Some (Failed e) →
  ∃ w', async_shutdown wk r_next now r_close w = (Raise e, w')
    ∧ _shutdown (hub w') = true
    ∧ timers (hass w') = timers (hass w)
    ∧ refresh_5m_remover (hub w') = refresh_5m_remover (hub w)
    ∧ refresh_60m_remover (hub w') = refresh_60m_remover (hub w)
    ∧ api_log w' = api_log w.
Proof.
  intros Htask Hst. unfold async_shutdown.
  set (w1 := with_hub (set_shutdown true) w).
  rewrite (bind_run _ _ w w1 tt) by reflexivity.
  rewrite (bind_run _ _ w1 w1 (Some tid)) by (unfold gets; simpl; by rewrite Htask).
  set (w2 := (task_cancel tid w1).2).
  assert (status_of tid w2 = Some (Failed e)) as Hst2.
  { unfold w2. by rewrite status_of_task_cancel. }
  rewrite (bind_raised _ _ w1 w2 e).
  - exists w2. by repeat split.
  - rewrite (bind_run _ _ w1 w2 tt) by apply task_cancel_run.
    by apply await_task_failed.
Qed.

End Shutdown.

(** *** The shutdown that the handler is written for

    The task of the state loop waits for the answer to its long-poll
    request, and the client ends that request with an answer when the task
    is cancelled. *)

Section CleanShutdown.
Context `{Const}.

Lemma await_task_long_poll_after_shutdown (tid : nat) (c : IndegoAsyncClient)
    (r_next : response) (now : Z) (w : World) (t : task) :
  _shutdown (hub w) = true →
  tasks (hass w) !! tid = Some t →
  task_status_ t = Pending at_update_state →
  ∃ w', await_task tid (Answer (Returned c)) r_next now w = (Ok tt, w')
    ∧ hub w' = hub w
    ∧ timers (hass w') = timers (hass w)
    ∧ tasks (hass w')
        = <[tid := {| task_target := task_target t; task_status_ := Done;
                      cancel_requested := cancel_requested t |}]> (tasks (hass w))
    ∧ api_log w' = (api_log w ++ [pyIndego.update_state true 300])%list.
Proof.
  intros Hsd Ht Hst.
  assert (status_of tid w = Some (Pending at_update_state)) as Hs.
  { unfold status_of. by rewrite Ht, <- Hst. }
  destruct (async_refresh_state_head_after_shutdown (Returned c) now w Hsd)
    as (res & w3 & Hrun & _ & _ & Hhub & Hhass & Hlog & Hres).
  rewrite (Hres c eq_refl) in Hrun. clear Hres.
  set (w4 := (set_task_status tid Done w3).2).
  assert (tasks (hass w4)
          = <[tid := {| task_target := task_target t; task_status_ := Done;
                        cancel_requested := cancel_requested t |}]> (tasks (hass w)))
    as Htasks.
  { unfold w4, set_task_status, modify. cbn [snd hass with_hass tasks set_tasks].
    rewrite Hhass. apply map_eq. intros i.
    destruct (decide (tid = i)) as [<- | Hne].
    - by rewrite lookup_alter_eq, lookup_insert_eq, Ht.
    - by rewrite lookup_alter_ne, lookup_insert_ne. }
  assert (status_of tid w4 = Some Done) as Hs4.
  { unfold status_of. by rewrite Htasks, lookup_insert_eq. }
  assert (set_task_status tid Done w3 = (Ok tt, w4)) as Hset by reflexivity.
  assert (hub w4 = hub w ∧ timers (hass w4) = timers (hass w)
          ∧ api_log w4 = (api_log w ++ [pyIndego.update_state true 300])%list)
    as (Hhub4 & Htm4 & Hlog4).
  { unfold w4, set_task_status, modify. simpl. by rewrite Hhub, Hhass, Hlog. }
  clearbody w4. exists w4. split.
  - unfold await_task, bind, gets, ret, resume_task. rewrite Hs, Hrun, Hset.
    rewrite Hs4. cbn. rewrite ?Hs4. reflexivity.
  - done.
Qed.

(** X11: the shutdown as intended. With the task of the state loop waiting
    in its long poll and a client that answers the request and the [close]:
    the flag is set, the task has received the cancellation and has ended
    without a task for a next pass, the timers of the two batches are gone,
    the client is closed, and no entity has changed. *)
Lemma async_shutdown_clean (tid : nat) (c c' : IndegoAsyncClient)
    (r_next : response) (now : Z) (w : World) (t : task) :
  refresh_state_task (hub w) = Some tid →
  tasks (hass w) !! tid = Some t →
  task_status_ t = Pending at_update_state →
  ∃ w', async_shutdown (Answer (Returned c)) r_next now (Returned c') w = (Ok tt, w')
    ∧ _shutdown (hub w') = true
    ∧ tasks (hass w')
        = <[tid := {| task_target := task_target t; task_status_ := Done;
                      cancel_requested := true |}]> (tasks (hass w))
    ∧ refresh_state_task (hub w') = Some tid
    ∧ (∀ n, refresh_5m_remover (hub w) = Some n → timers (hass w') !! n = None)
    ∧ (∀ n, refresh_60m_remover (hub w) = Some n → timers (hass w') !! n = None)
    ∧ api_log w'
        = (api_log w ++ [pyIndego.update_state true 300; pyIndego.close])%list
    ∧ entities (hub w') = entities (hub w).
Proof.
  intros Htask Ht Hst. unfold async_shutdown.
  set (w1 := with_hub (set_shutdown true) w).
  rewrite (bind_run _ _ w w1 tt) by reflexivity.
  rewrite (bind_run _ _ w1 w1 (Some tid)) by (unfold gets; simpl; by rewrite Htask).
  set (w2 := (task_cancel tid w1).2).
  set (t2 := {| task_target := task_target t; task_status_ := task_status_ t;
                cancel_requested := true |}).
  assert (tasks (hass w2) !! tid = Some t2) as Ht2.
  { unfold w2, task_cancel, modify. cbn [snd hass with_hass tasks set_tasks].
    rewrite lookup_alter_eq. change (tasks (hass w1)) with (tasks (hass w)).
    rewrite Ht. unfold t2. simpl. by rewrite Hst. }
  destruct (await_task_long_poll_after_shutdown tid c r_next now w2 t2
              eq_refl Ht2 Hst) as (w3 & Hawait & Hhub & Htm & Htasks & Hlog).
  erewrite (bind_run _ _ w1 w3 tt); cycle 1.
  { rewrite (bind_run _ _ w1 w2 tt) by apply task_cancel_run. exact Hawait. }
  assert (tasks (hass w3)
          = <[tid := {| task_target := task_target t; task_status_ := Done;
                        cancel_requested := true |}]> (tasks (hass w))) as Htasks'.
  { rewrite Htasks. unfold w2, task_cancel, modify.
    cbn [snd hass with_hass tasks set_tasks]. apply map_eq. intros i.
    destruct (decide (tid = i)) as [<- | Hne].
    - by rewrite !lookup_insert_eq.
    - by rewrite !lookup_insert_ne, lookup_alter_ne. }
  assert (refresh_5m_remover (hub w3) = refresh_5m_remover (hub w)
          ∧ refresh_60m_remover (hub w3) = refresh_60m_remover (hub w)
          ∧ refresh_state_task (hub w3) = Some tid
          ∧ _shutdown (hub w3) = true
          ∧ entities (hub w3) = entities (hub w)
          ∧ timers (hass w3) = timers (hass w)
          ∧ api_log w3 = (api_log w ++ [pyIndego.update_state true 300])%list)
    as (H5 & H60 & Hrt & Hsd & Hents & Htm' & Hlog').
  { rewrite Hhub, Htm, Hlog. by repeat split. }
  clear Hawait Hhub Htm Htasks Hlog Ht2. clear w2 w1 t2.
  unfold bind, gets, call_remover, modify, request. cbn.
  rewrite H5. destruct (refresh_5m_remover (hub w)) as [n5 |]; cbn;
    rewrite H60; destruct (refresh_60m_remover (hub w)) as [n60 |]; cbn;
    (eexists; split; [reflexivity |]; cbn;
     rewrite ?Hsd, ?Htasks', ?Hrt, ?Htm', ?Hlog', ?Hents, <- ?app_assoc;
     repeat split; try done;
     intros n Hn; injection Hn as Hn; subst;
     rewrite !lookup_delete; repeat case_decide; done).
Qed.

End CleanShutdown.

(** ** Login *)

Section Login.
Context `{Const}.

Lemma load_platforms_Ok (comps : list string) (w : World) :
  ∃ w', load_platforms comps w = (Ok tt, w')
    ∧ hub w' = hub w ∧ indego w' = indego w ∧ api_log w' = api_log w
    ∧ listeners (hass w') = listeners (hass w)
    ∧ services (hass w') = services (hass w)
    ∧ timers (hass w') = timers (hass w).
Proof.
  revert w. induction comps as [| comp comps IH]; intros w.
  - exists w. by repeat split.
  - simpl. unfold bind. simpl.
    match goal with |- ∃ w', load_platforms comps ?w1 = _ ∧ _ =>
      destruct (IH w1) as (w' & -> & ? & ? & ? & ? & ? & ?) end.
    exists w'. by repeat split.
Qed.

Lemma async_setup_body_continue (r_login : response) (retry_login : bool) (w w1 : World) :
  setup_try r_login w = (Ok (Continue retry_login), w1) →
  ∃ w', async_setup_body r_login w = (Ok true, w')
    ∧ listeners (hass w')
        = (listeners (hass w1)
           ++ [ (EVENT_HOMEASSISTANT_STARTED,
                 if retry_login then cb_login else cb_initial_update);
                (EVENT_HOMEASSISTANT_STOP, cb_async_shutdown) ])%list
    ∧ services (hass w')
        = (services (hass w1)
           ++ [ {| svc_domain := DOMAIN; svc_name := SERVICE_NAME_COMMAND;
                   svc_handler := async_send_command;
                   svc_schema := SERVICE_SCHEMA_COMMAND |};
                {| svc_domain := DOMAIN; svc_name := SERVICE_NAME_SMARTMOW;
                   svc_handler := async_send_smartmowing;
                   svc_schema := SERVICE_SCHEMA_SMARTMOWING |} ])%list
    ∧ hub w' = hub w1 ∧ api_log w' = api_log w1.
Proof.
  intros Htry. unfold async_setup_body. fold (setup_try r_login).
  rewrite (bind_run _ _ w w1 (Continue retry_login)) by done.
  set (w2 := (async_schedule_updates retry_login w1).2).
  rewrite (bind_run _ _ w1 w2 tt) by (unfold w2; by destruct retry_login).
  destruct (load_platforms_Ok INDEGO_COMPONENTS w2)
    as (w3 & Hload & Hhub & _ & Hlog & Hls & Hsv & _).
  rewrite (bind_run _ _ w2 w3 tt) by done.
  eexists. split; [reflexivity |]. simpl. rewrite Hls, Hsv, Hhub, Hlog.
  unfold w2. destruct retry_login; simpl; rewrite <- ?app_assoc; by repeat split.
Qed.

Lemma async_setup_body_return (r_login : response) (b : bool) (w w1 : World) :
  setup_try r_login w = (Ok (Return b), w1) →
  async_setup_body r_login w = (Ok b, w1).
Proof.
  intros Htry. unfold async_setup_body. fold (setup_try r_login).
  by rewrite (bind_run _ _ w w1 (Return b)).
Qed.

(** A [ServerTimeoutError] leads to a retry: setup goes on and registers
    [_login] for the start of the host, and [_login] sets a timer of 60
    seconds for itself. *)
Lemma login_timeout_retried (w : World) :
  (∃ w', async_setup_body (Raised ServerTimeoutError) w = (Ok true, w')
     ∧ listeners (hass w')
         = (listeners (hass w)
            ++ [ (EVENT_HOMEASSISTANT_STARTED, cb_login);
                 (EVENT_HOMEASSISTANT_STOP, cb_async_shutdown) ])%list)
  ∧ (∃ w', _login (Raised ServerTimeoutError) w = (Ok tt, w')
       ∧ timers (hass w')
           = <[next_handle (hass w) := (60, cb_login)]> (timers (hass w))).
Proof.
  split.
  - destruct (async_setup_body_continue (Raised ServerTimeoutError) true w (after_login w))
      as (w' & Hrun & Hls & _); [reflexivity |].
    by exists w'.
  - eexists. split; reflexivity.
Qed.

(** A [ClientResponseError] is fatal: setup returns [False] having
    registered nothing, and [_login] sets no timer for another attempt. *)
Lemma login_auth_error_fatal (w : World) :
  async_setup_body (Raised ClientResponseError) w = (Ok false, after_login w)
  ∧ timers (hass (_login (Raised ClientResponseError) w).2) = timers (hass w).
Proof. split; reflexivity. Qed.

(** C2: a [TooManyRedirects] raised by the login is handled by the clause
    for [ClientResponseError], the class it derives from, which stands
    before the clause that names it: setup returns [False] having registered
    nothing, and [_login] sets no timer for another attempt. The clause for
    the timeouts is reached by a [ServerTimeoutError] only. *)
Theorem login_too_many_redirects_not_retried (w : World) :
  isinstance TooManyRedirects [ClientResponseError] = true
  ∧ async_setup_body (Raised TooManyRedirects) w = (Ok false, after_login w)
  ∧ listeners (hass (after_login w)) = listeners (hass w)
  ∧ timers (hass (_login (Raised TooManyRedirects) w).2) = timers (hass w)
  ∧ async_setup_body (Raised ClientResponseError) w = (Ok false, after_login w)
  ∧ timers (hass (_login (Raised ClientResponseError) w).2) = timers (hass w)
  ∧ (∃ w', async_setup_body (Raised ServerTimeoutError) w = (Ok true, w')
       ∧ listeners (hass w')
           = (listeners (hass w)
              ++ [ (EVENT_HOMEASSISTANT_STARTED, cb_login);
                   (EVENT_HOMEASSISTANT_STOP, cb_async_shutdown) ])%list)
  ∧ (∃ w', _login (Raised ServerTimeoutError) w = (Ok tt, w')
       ∧ timers (hass w')
           = <[next_handle (hass w) := (60, cb_login)]> (timers (hass w))).
Proof.
  split; [reflexivity |]. split; [reflexivity |]. split; [reflexivity |].
  split; [reflexivity |].
  destruct (login_auth_error_fatal w) as [? ?].
  destruct (login_timeout_retried w) as [? ?].
  by repeat split.
Qed.

End Login.

(** ** Services *)

Section Services.
Context `{Const}.

Lemma find_service_command (l : list service) :
  SERVICE_NAME_COMMAND ≠ SERVICE_NAME_SMARTMOW →
  find_service DOMAIN SERVICE_NAME_COMMAND (l ++ [command_service; smartmowing_service])
  = Some command_service.
Proof.
  intros Hne. unfold find_service.
  rewrite filter_app, filter_cons_True by done.
  rewrite filter_cons_False by (simpl; intros [_ ?]; congruence).
  rewrite filter_nil. apply last_snoc.
Qed.

Lemma find_service_smartmowing (l : list service) :
  find_service DOMAIN SERVICE_NAME_SMARTMOW (l ++ [command_service; smartmowing_service])
  = Some smartmowing_service.
Proof.
  unfold find_service. rewrite filter_app.
  change [command_service; smartmowing_service]
    with ([command_service] ++ [smartmowing_service])%list.
  rewrite (filter_app _ [command_service]), app_assoc.
  rewrite (filter_cons_True _ smartmowing_service) by done.
  rewrite filter_nil. apply last_snoc.
Qed.

(** Validation of the data of a call by a schema with one required key. *)
Lemma validate_single (schema : Schema) (s : string) :
  validate schema {[ Required schema := AStr s ]} = Ok {[ Required schema := s ]}.
Proof.
  unfold validate. rewrite lookup_singleton_eq, map_size_singleton.
  by rewrite bool_decide_eq_true_2.
Qed.

Lemma validate_missing (schema : Schema) (data : gmap string arg) :
  data !! Required schema = None → validate schema data = Raise vol_Invalid.
Proof. intros Hd. unfold validate. by rewrite Hd. Qed.

Lemma validate_Ok (schema : Schema) (data : gmap string arg) (data' : gmap string string) :
  validate schema data = Ok data' →
  ∃ v s, data = {[ Required schema := v ]} ∧ cv_string v = Ok s
    ∧ data' = {[ Required schema := s ]}.
Proof.
  unfold validate. destruct (data !! Required schema) as [v |] eqn:Hv; [| done].
  case_bool_decide as Hsz; [| done].
  destruct (cv_string v) as [s | |] eqn:Hs; try done. intros [= <-].
  exists v, s. split; [| done].
  rewrite <- (insert_delete_id data _ _ Hv), <- insert_empty. f_equal.
  apply map_size_empty_inv. rewrite map_size_delete_Some by eauto. by rewrite Hsz.
Qed.

(** C6: a setup that returns [True] has added two services to those of the
    host, in the domain of the integration. A call of the first with a
    string under [CONF_SEND_COMMAND] sends that string with [put_command]
    and then runs [_update_state]; a call of the second with a string under
    [CONF_SMARTMOWING] sends it with [put_mow_mode] and then runs
    [_update_generic_data]. The schema of each service accepts exactly the
    data that has its one key, with a value that [cv.string] accepts, and a
    call without the key is refused before anything is sent. *)
Theorem setup_registers_two_services (hass0 : HomeAssistant) (client0 : IndegoAsyncClient)
    (conf : Config) (r_login : response) (w : World) :
  const_wf →
  async_setup hass0 client0 conf r_login = Ok (true, w) →
  services (hass w) = (services hass0 ++ [command_service; smartmowing_service])%list
  ∧ (∀ w1 s r_put r_update now,
       services (hass w1) = services (hass w) →
       async_call DOMAIN SERVICE_NAME_COMMAND {[ CONF_SEND_COMMAND := AStr s ]}
         r_put r_update now w1
       = (request (pyIndego.put_command s) r_put >> _update_state r_update now) w1
       ∧ async_call DOMAIN SERVICE_NAME_SMARTMOW {[ CONF_SMARTMOWING := AStr s ]}
           r_put r_update now w1
         = (request (pyIndego.put_mow_mode s) r_put >> _update_generic_data r_update) w1)
  ∧ (∀ w1 data r_put r_update now,
       services (hass w1) = services (hass w) →
       (data !! CONF_SEND_COMMAND = None →
          async_call DOMAIN SERVICE_NAME_COMMAND data r_put r_update now w1
          = (Raise vol_Invalid, w1))
       ∧ (data !! CONF_SMARTMOWING = None →
            async_call DOMAIN SERVICE_NAME_SMARTMOW data r_put r_update now w1
            = (Raise vol_Invalid, w1)))
  ∧ (∀ schema data data',
       schema = SERVICE_SCHEMA_COMMAND ∨ schema = SERVICE_SCHEMA_SMARTMOWING →
       validate schema data = Ok data' →
       ∃ v s, data = {[ Required schema := v ]} ∧ cv_string v = Ok s
         ∧ data' = {[ Required schema := s ]}).
Proof.
  intros (_ & _ & Hne) Hsetup.
  assert (services (hass w)
          = (services hass0 ++ [command_service; smartmowing_service])%list) as Hsv.
  { unfold async_setup in Hsetup.
    destruct (IndegoHub__init__ _ _ _ _ _) as [component | |]; try done.
    match type of Hsetup with
    | match async_setup_body _ ?w0 with _ => _ end = _ => set (w0' := w0) in *
    end.
    destruct (setup_try r_login w0') as [[[b | retry] | e |] w1] eqn:Htry.
    - rewrite (async_setup_body_return _ _ _ _ Htry) in Hsetup.
      injection Hsetup as -> <-.
      unfold setup_try, try_except, bind, request, ret in Htry.
      destruct r_login as [c | e]; [done |]. simpl in Htry.
      destruct (isinstance e [ClientResponseError]); [done |].
      by destruct (isinstance e [ServerTimeoutError; TooManyRedirects]).
    - destruct (async_setup_body_continue _ _ _ _ Htry) as (w' & Hrun & _ & Hs & _).
      rewrite Hrun in Hsetup. injection Hsetup as <-. rewrite Hs.
      f_equal.
      unfold setup_try, try_except, bind, request, ret in Htry.
      destruct r_login as [c | e]; simpl in Htry.
      + by injection Htry as _ <-.
      + destruct (isinstance e [ClientResponseError]); [done |].
        destruct (isinstance e [ServerTimeoutError; TooManyRedirects]); [| done].
        by injection Htry as _ <-.
    - unfold async_setup_body in Hsetup. fold (setup_try r_login) in Hsetup.
      by rewrite (bind_raised _ _ _ _ _ Htry) in Hsetup.
    - unfold async_setup_body in Hsetup. fold (setup_try r_login) in Hsetup.
      by rewrite (bind_cancelled _ _ _ _ Htry) in Hsetup. }
  split; [exact Hsv |]. split; [| split].
  - intros w1 s r_put r_update now Hw1. rewrite Hsv in Hw1.
    unfold async_call, bind at 1 3, gets. rewrite Hw1.
    rewrite find_service_command by done. rewrite find_service_smartmowing.
    simpl svc_schema. rewrite !validate_single. simpl.
    by rewrite !lookup_singleton_eq.
  - intros w1 data r_put r_update now Hw1. rewrite Hsv in Hw1.
    unfold async_call, bind, gets. rewrite Hw1.
    rewrite find_service_command by done. rewrite find_service_smartmowing.
    split; intros Hd; by rewrite validate_missing.
  - intros schema data data' _. apply validate_Ok.
Qed.

End Services.

(** * Runs of the sample installation *)

(** Settles a conjunction of closed facts by running the definitions. *)
Ltac by_running :=
  repeat match goal with |- _ ∧ _ => split end; vm_compute; reflexivity.

Lemma pair_eta {A B} (p : A * B) (a : A) : p.1 = a → p = (a, p.2).
Proof. destruct p. simpl. by intros ->. Qed.

Lemma setup_eta (r : result (bool * World)) (d : World) :
  match r with Ok (b, _) => b = true | _ => False end →
  r = Ok (true, Sample.world_of r d).
Proof. destruct r as [[[] w] | |]; simpl; by intros. Qed.

Example sample_setup_succeeds :
  match Sample.setup with Ok (b, _) => b = true | _ => False end.
Proof. by vm_compute. Qed.

Example run_started :
  refresh_state_task (hub Run.started) = Some 2%nat
  ∧ status_of 2 Run.started = Some (Pending at_update_state)
  ∧ timers (hass Run.started)
    = {[ 3%nat := (300, cb_refresh_5m); 4%nat := (3600, cb_refresh_60m) ]}
  ∧ refresh_5m_remover (hub Run.started) = Some 3%nat
  ∧ refresh_60m_remover (hub Run.started) = Some 4%nat.
Proof. by_running. Qed.

(** The battery and online entities after a pass with the mower mowing. *)
Example run_pass :
  Run.pass.1 = Ok tt
  ∧ ent_state <$> entities (hub Run.pass.2) !! "battery_percentage" = Some (PInt 60)
  ∧ ent_state <$> entities (hub Run.pass.2) !! "online" = Some (PBool false)
  ∧ refresh_state_task (hub Run.pass.2) = Some 5%nat.
Proof. by_running. Qed.

Lemma operating_data_iff_active_or_online_witness :
  @const_wf Sample.const
  ∧ _shutdown (hub Run.started) = false
  ∧ pyIndego.update_operating_data
      ∈ drop (length (api_log Run.started)) (api_log Run.pass.2).
Proof.
  assert (_shutdown (hub Run.started) = false) as Hsd by (vm_compute; reflexivity).
  assert (Run.pass.1 = Ok tt) as Hok by (vm_compute; reflexivity).
  split; [exact sample_const_wf |]. split; [exact Hsd |].
  destruct (@operating_data_iff_active_or_online Sample.const
              (Returned Sample.mowing) (Returned Sample.mowing) 1590000100
              Run.started Run.pass.2 sample_const_wf Hsd (pair_eta Run.pass _ Hok))
    as (c & Hc & Hiff & _).
  injection Hc as <-. apply Hiff. left. vm_compute. split; discriminate.
Defined.

Lemma setup_registers_two_services_witness :
  services (hass Run.installed)
  = [@command_service Sample.const; @smartmowing_service Sample.const].
Proof.
  apply (@setup_registers_two_services Sample.const hass_empty Sample.docked
           Sample.config (Returned Sample.docked) Run.installed sample_const_wf).
  apply (setup_eta Sample.setup Run.blank). vm_compute. reflexivity.
Defined.

(** The sample at the failing input of the shutdown: the state loop has
    stopped on a timeout, both timers are set. The handler raises the
    timeout again, the timers stay and the client is not closed. *)
Lemma shutdown_stops_at_failed_task_witness :
  status_of Run.state_task Run.stalled = Some (Failed ServerTimeoutError)
  ∧ size (timers (hass Run.stalled)) = 2%nat
  ∧ ∃ w', @async_shutdown Sample.const CancelledError (Returned Sample.docked)
            1590000200 (Returned Sample.docked) Run.stalled
          = (Raise ServerTimeoutError, w')
      ∧ _shutdown (hub w') = true
      ∧ timers (hass w') = timers (hass Run.stalled)
      ∧ refresh_5m_remover (hub w') = refresh_5m_remover (hub Run.stalled)
      ∧ refresh_60m_remover (hub w') = refresh_60m_remover (hub Run.stalled)
      ∧ api_log w' = api_log Run.stalled.
Proof.
  split; [vm_compute; reflexivity |]. split; [vm_compute; reflexivity |].
  apply (@shutdown_stops_at_failed_task Sample.const CancelledError
           (Returned Sample.docked) 1590000200 (Returned Sample.docked)
           Run.stalled Run.state_task ServerTimeoutError); vm_compute; reflexivity.
Defined.

(** The shutdown the handler is written for, on the sample: with the task
    in its long poll and a client that answers when it is cancelled,
    everything is torn down. *)
Example run_clean_shutdown :
  (Run.clean_shutdown).1 = Ok tt
  ∧ _shutdown (hub (Run.clean_shutdown).2) = true
  ∧ timers (hass (Run.clean_shutdown).2) = ∅
  ∧ status_of Run.state_task (Run.clean_shutdown).2 = Some Done
  ∧ ent_state <$> entities (hub (Run.clean_shutdown).2)
    = ent_state <$> entities (hub Run.started)
  ∧ api_log (Run.clean_shutdown).2 !! 7%nat = Some pyIndego.close.
Proof. by_running. Qed.

(** Shutdown while the task of the state loop waits for the operating
    data: the second half of the pass does not look at the flag, so a task
    for one more pass is made after the flag was set. *)
Example run_shutdown_while_fetching :
  status_of Run.state_task Run.fetching = Some (Pending at_update_operating_data)
  ∧ tasks (hass Run.fetching) !! 5%nat = None
  ∧ (Run.shutdown_while_fetching).1 = Ok tt
  ∧ _shutdown (hub (Run.shutdown_while_fetching).2) = true
  ∧ refresh_state_task (hub (Run.shutdown_while_fetching).2) = Some 5%nat
  ∧ status_of 5 (Run.shutdown_while_fetching).2 = Some (Pending at_update_state).
Proof. by_running. Qed.

(** The same shutdown with a client that lets the cancellation through:
    the handler is cancelled at its [await], the timers stay. *)
Example run_shutdown_cancelled :
  (Run.shutdown_cancelled).1 = Cancelled
  ∧ timers (hass (Run.shutdown_cancelled).2) = timers (hass Run.started).
Proof. by_running. Qed.

(** Setup on the sample when the login is redirected too often: it
    returns [False], and neither a listener nor a service is registered. *)
Example run_setup_too_many_redirects :
  match @async_setup Sample.const hass_empty Sample.docked Sample.config
          (Raised TooManyRedirects) with
  | Ok (b, w) => b = false ∧ listeners (hass w) = [] ∧ services (hass w) = []
  | _ => False
  end.
Proof. by vm_compute. Qed.

(** And when it times out: it returns [True] and [_login] will run when the
    host has started. *)
Example run_setup_timeout :
  match @async_setup Sample.const hass_empty Sample.docked Sample.config
          (Raised ServerTimeoutError) with
  | Ok (b, w) =>
      b = true
      ∧ listeners (hass w) = [ (EVENT_HOMEASSISTANT_STARTED, cb_login);
                               (EVENT_HOMEASSISTANT_STOP, cb_async_shutdown) ]
  | _ => False
  end.
Proof. by vm_compute. Qed.

(** * Further properties of the hub *)

(** ** The entity table stays as it was created *)

#[export] Instance same_keys_preorder : PreOrder same_keys.
Proof. split; unfold same_keys; [by intros w | intros w1 w2 w3; congruence]. Qed.

Lemma same_keys_ignores_api : ignores_api same_keys.
Proof. by split; intros. Qed.
Lemma same_keys_ignores_host : ignores_host same_keys.
Proof. by intros w f. Qed.

Lemma keeps_entity_set_state_keys (k : string) (v : value) :
  keeps same_keys (entity_set_state k v).
Proof.
  intros w. unfold entity_set_state, same_keys.
  destruct (entities (hub w) !! k) eqn:E; simpl; [| done].
  by apply dom_insert_lookup_L.
Qed.

Lemma keeps_entity_add_attribute_keys (k : string) (attr : list (string * value)) :
  keeps same_keys (entity_add_attribute k attr).
Proof.
  intros w. unfold entity_add_attribute, same_keys.
  destruct (entities (hub w) !! k) eqn:E; simpl; [| done].
  by apply dom_insert_lookup_L.
Qed.

#[export] Hint Resolve same_keys_ignores_api same_keys_ignores_host
  keeps_entity_set_state_keys keeps_entity_add_attribute_keys : coroutine.

Section FixedTable.
Context `{Const}.

Lemma recall_itself_keys : keeps same_keys recall_itself.
Proof. unfold recall_itself. coroutine. Qed.

Lemma _update_state_keys r now : keeps same_keys (_update_state r now).
Proof. unfold _update_state. coroutine. Qed.
Lemma _update_operating_data_keys r now : keeps same_keys (_update_operating_data r now).
Proof. unfold _update_operating_data. coroutine. Qed.
Lemma _update_generic_data_keys r : keeps same_keys (_update_generic_data r).
Proof. unfold _update_generic_data. coroutine. Qed.
Lemma _update_alerts_keys r : keeps same_keys (_update_alerts r).
Proof. unfold _update_alerts. coroutine. Qed.
Lemma _update_updates_available_keys r : keeps same_keys (_update_updates_available r).
Proof. unfold _update_updates_available. coroutine. Qed.
Lemma _update_last_completed_mow_keys r : keeps same_keys (_update_last_completed_mow r).
Proof. unfold _update_last_completed_mow. coroutine. Qed.
Lemma _update_next_mow_keys r : keeps same_keys (_update_next_mow r).
Proof. unfold _update_next_mow. coroutine. Qed.

Lemma async_refresh_state_keys r_state r_operating now :
  keeps same_keys (async_refresh_state r_state r_operating now).
Proof.
  unfold async_refresh_state.
  pose proof recall_itself_keys. pose proof _update_state_keys.
  pose proof _update_operating_data_keys. coroutine.
Qed.

Lemma refresh_5m_results_keys results rnd next_refresh index :
  keeps same_keys (refresh_5m_results results rnd next_refresh index).
Proof.
  revert next_refresh index.
  induction results as [| res results IH]; intros d i; simpl; [apply keeps_ret, _ |].
  apply keeps_bind; [apply _ | | intros; apply IH].
  destruct res; [apply keeps_ret, _ | | apply keeps_cancelled, _].
  apply keeps_try_except; [apply _ | apply keeps_raise, _ |].
  repeat (apply Forall_cons_2; [intros ?; apply keeps_ret, _ |]). apply Forall_nil_2.
Qed.

Lemma refresh_5m_keys r_generic r_alerts r_last r_next rnd :
  keeps same_keys (refresh_5m r_generic r_alerts r_last r_next rnd).
Proof.
  unfold refresh_5m.
  apply keeps_bind; [apply _ | | intros results].
  - apply keeps_gather_return_exceptions; [apply _ |].
    repeat (apply Forall_cons_2;
              [ solve [ auto using _update_generic_data_keys, _update_alerts_keys,
                          _update_last_completed_mow_keys, _update_next_mow_keys ] |]).
    apply Forall_nil_2.
  - pose proof refresh_5m_results_keys. coroutine.
Qed.

Lemma refresh_60m_keys r : keeps same_keys (refresh_60m r).
Proof. unfold refresh_60m. pose proof _update_updates_available_keys. coroutine. Qed.

Lemma resume_task_keys tid wk now : keeps same_keys (resume_task tid wk now).
Proof.
  assert (∀ st, keeps same_keys (set_task_status tid st)) as Hset.
  { intros st. unfold set_task_status. coroutine. }
  assert (∀ r, keeps same_keys (async_refresh_state_head r now)) as Hhead.
  { intros r. unfold async_refresh_state_head.
    pose proof recall_itself_keys. pose proof _update_state_keys. coroutine. }
  assert (∀ r, keeps same_keys (async_refresh_state_tail r now)) as Htail.
  { intros r. unfold async_refresh_state_tail.
    pose proof recall_itself_keys. pose proof _update_operating_data_keys. coroutine. }
  intros w. unfold resume_task.
  destruct (status_of tid w) as [[p | | | |] |]; try reflexivity.
  destruct wk as [r |]; [| apply Hset].
  destruct p.
  - pose proof (Hhead r w) as Hh.
    destruct (async_refresh_state_head r now w) as [[[] | e |] w1]; simpl in Hh;
      (etrans; [exact Hh | apply Hset]).
  - pose proof (Htail r w) as Hh.
    destruct (async_refresh_state_tail r now w) as [[[] | e |] w1]; simpl in Hh;
      (etrans; [exact Hh | apply Hset]).
Qed.

(** X1: the hub never adds or removes an entity after its creation: every
    update, every pass of the three loops, the start, the login retry, a
    resumed task, the shutdown and both service handlers leave the set of
    entity keys as it was, on every path, also one that raises. *)
Theorem entity_keys_never_change :
  (∀ r now, keeps same_keys (_update_state r now))
  ∧ (∀ r now, keeps same_keys (_update_operating_data r now))
  ∧ (∀ r, keeps same_keys (_update_generic_data r))
  ∧ (∀ r, keeps same_keys (_update_alerts r))
  ∧ (∀ r, keeps same_keys (_update_updates_available r))
  ∧ (∀ r, keeps same_keys (_update_last_completed_mow r))
  ∧ (∀ r, keeps same_keys (_update_next_mow r))
  ∧ (∀ r_state r_operating now,
       keeps same_keys (async_refresh_state r_state r_operating now))
  ∧ (∀ r_generic r_alerts r_last r_next rnd,
       keeps same_keys (refresh_5m r_generic r_alerts r_last r_next rnd))
  ∧ (∀ r, keeps same_keys (refresh_60m r))
  ∧ (∀ r_generic r_alerts r_last r_next r_updates rnd,
       keeps same_keys (_initial_update r_generic r_alerts r_last r_next r_updates rnd))
  ∧ (∀ r_login, keeps same_keys (_login r_login))
  ∧ (∀ tid wk now, keeps same_keys (resume_task tid wk now))
  ∧ (∀ wk r_next now r_close, keeps same_keys (async_shutdown wk r_next now r_close))
  ∧ (∀ h data r_put r_update now, keeps same_keys (handle h data r_put r_update now)).
Proof.
  split; [apply _update_state_keys |]. split; [apply _update_operating_data_keys |].
  split; [apply _update_generic_data_keys |]. split; [apply _update_alerts_keys |].
  split; [apply _update_updates_available_keys |].
  split; [apply _update_last_completed_mow_keys |]. split; [apply _update_next_mow_keys |].
  split; [apply async_refresh_state_keys |]. split; [apply refresh_5m_keys |].
  split; [apply refresh_60m_keys |].
  split.
  { intros. unfold _initial_update.
    apply keeps_bind; [apply _ | coroutine | intros t].
    apply keeps_bind; [apply _ | coroutine | intros _].
    apply keeps_gather; [apply _ |].
    apply Forall_cons_2; [apply refresh_5m_keys |].
    apply Forall_cons_2; [apply refresh_60m_keys | apply Forall_nil_2]. }
  split.
  { intros r_login w. unfold _login.
    match goal with |- context [try_except ?b ?c w] =>
      assert (keeps same_keys (try_except b c)) as Htry end.
    { apply keeps_try_except; [apply _ | coroutine |].
      repeat (apply Forall_cons_2; [intros ?; apply keeps_ret, _ |]). apply Forall_nil_2. }
    specialize (Htry w).
    destruct (try_except _ _ w) as [[[] | e |] w1]; simpl in Htry |- *; done. }
  split; [apply resume_task_keys |].
  split.
  - intros. unfold async_shutdown, task_cancel, await_task, call_remover.
    pose proof resume_task_keys. coroutine.
  - intros. unfold handle. pose proof _update_state_keys.
    pose proof _update_generic_data_keys. coroutine.
Qed.

End FixedTable.

(** ** Answered requests never fail on a complete entity table *)

Lemma always_ok_ret {A} (P : World → Prop) (a : A) : always_ok P (ret a).
Proof. intros w Hw. by exists a, w. Qed.

Lemma always_ok_gets {A} (P : World → Prop) (f : World → A) : always_ok P (gets f).
Proof. intros w Hw. by exists (f w), w. Qed.

Lemma always_ok_bind {A B} (P : World → Prop) (m : M A) (k : A → M B) :
  always_ok P m → (∀ a, always_ok P (k a)) → always_ok P (bind m k).
Proof.
  intros Hm Hk w Hw. destruct (Hm w Hw) as (a & w1 & Hrun & Hw1).
  destruct (Hk a w1 Hw1) as (b & w2 & Hrun2 & Hw2).
  exists b, w2. split; [| done]. unfold bind. by rewrite Hrun.
Qed.

Section Complete.
Context `{Const}.

Lemma entities_complete_same_keys (w w' : World) :
  same_keys w w' → entities_complete w → entities_complete w'.
Proof.
  unfold same_keys, entities_complete. intros Hd Hc k Hk.
  apply elem_of_dom. rewrite Hd. apply elem_of_dom. by apply Hc.
Qed.

Lemma always_ok_keeps {A} (m : M A) :
  keeps same_keys m → (∀ w, ∃ a w', m w = (Ok a, w')) →
  always_ok entities_complete m.
Proof.
  intros Hk Hok w Hw. destruct (Hok w) as (a & w' & Hrun).
  exists a, w'. split; [done |].
  apply (entities_complete_same_keys w); [| done].
  specialize (Hk w). by rewrite Hrun in Hk.
Qed.

Lemma always_ok_request (c : pyIndego.call) (client : IndegoAsyncClient) :
  always_ok entities_complete (request c (Returned client)).
Proof. apply always_ok_keeps; [coroutine |]. intros w. by eexists _, _. Qed.

Lemma always_ok_entity_set_state (k : string) (v : value) :
  k ∈ entity_keys → always_ok entities_complete (entity_set_state k v).
Proof.
  intros Hk w Hw. destruct (Hw k Hk) as [e He].
  eexists tt, _. split.
  - unfold entity_set_state. by rewrite He.
  - apply (entities_complete_same_keys w); [| done].
    pose proof (keeps_entity_set_state_keys k v w) as Hd.
    unfold entity_set_state in Hd. by rewrite He in Hd.
Qed.

Lemma always_ok_entity_add_attribute (k : string) (attr : list (string * value)) :
  k ∈ entity_keys → always_ok entities_complete (entity_add_attribute k attr).
Proof.
  intros Hk w Hw. destruct (Hw k Hk) as [e He].
  eexists tt, _. split.
  - unfold entity_add_attribute. by rewrite He.
  - apply (entities_complete_same_keys w); [| done].
    pose proof (keeps_entity_add_attribute_keys k attr w) as Hd.
    unfold entity_add_attribute in Hd. by rewrite He in Hd.
Qed.

Lemma always_ok_recall_itself : always_ok entities_complete recall_itself.
Proof.
  apply always_ok_keeps; [apply recall_itself_keys |].
  intros w. destruct (recall_itself_Ok w) as (w' & Hrun & _). by exists tt, w'.
Qed.

(** Goes through a sequence of statements that all end well. *)
Ltac always_ok :=
  repeat first
    [ progress intros
    | apply always_ok_ret
    | apply always_ok_gets
    | apply always_ok_request
    | apply always_ok_recall_itself
    | apply always_ok_entity_set_state; unfold entity_keys; set_solver
    | apply always_ok_entity_add_attribute; unfold entity_keys; set_solver
    | match goal with
      | |- always_ok _ (if ?b then _ else _) => destruct b
      end
    | apply always_ok_bind ].

Lemma _update_state_always_ok c now :
  always_ok entities_complete (_update_state (Returned c) now).
Proof. unfold _update_state. always_ok. Qed.
Lemma _update_operating_data_always_ok c now :
  always_ok entities_complete (_update_operating_data (Returned c) now).
Proof. unfold _update_operating_data. always_ok. Qed.
Lemma _update_generic_data_always_ok c :
  always_ok entities_complete (_update_generic_data (Returned c)).
Proof. unfold _update_generic_data. always_ok. Qed.
Lemma _update_alerts_always_ok c :
  always_ok entities_complete (_update_alerts (Returned c)).
Proof. unfold _update_alerts. always_ok. Qed.
Lemma _update_updates_available_always_ok c :
  always_ok entities_complete (_update_updates_available (Returned c)).
Proof. unfold _update_updates_available. always_ok. Qed.
Lemma _update_last_completed_mow_always_ok c :
  always_ok entities_complete (_update_last_completed_mow (Returned c)).
Proof. unfold _update_last_completed_mow. always_ok. Qed.
Lemma _update_next_mow_always_ok c :
  always_ok entities_complete (_update_next_mow (Returned c)).
Proof. unfold _update_next_mow. always_ok. Qed.

Lemma load_platforms_keys comps : keeps same_keys (load_platforms comps).
Proof.
  induction comps as [| comp comps IH]; simpl; [apply keeps_ret, _ |].
  apply keeps_bind; [apply _ | coroutine | intros; apply IH].
Qed.

(** The hub that a setup leaves has an entity under every key. *)
Lemma async_setup_complete (hass0 : HomeAssistant) (client0 : IndegoAsyncClient)
    (conf : Config) (r_login : response) (b : bool) (w : World) :
  const_wf →
  async_setup hass0 client0 conf r_login = Ok (b, w) →
  entities_complete w.
Proof.
  intros (Hnd & Hne & _) Hsetup. unfold async_setup, IndegoHub__init__ in Hsetup.
  rewrite <- entity_definitions_keys in Hnd.
  destruct (create_entities_loop_lookup (conf_name conf) (conf_id conf)
              (entity_for (conf_name conf) (conf_id conf)) entity_definitions Hnd
              (fun k d => create_entity_table (conf_name conf) (conf_id conf) k d Hne) ∅)
    as (ents & Hrun & Hl).
  unfold create_entities in Hsetup. rewrite Hrun in Hsetup.
  match type of Hsetup with
  | match async_setup_body _ ?w0 with _ => _ end = _ => set (w0' := w0) in *
  end.
  assert (entities_complete w0') as Hc0.
  { intros k Hk. unfold w0'. simpl. rewrite Hl.
    rewrite <- entity_definitions_keys in Hk.
    apply list_elem_of_fmap in Hk as ([k' d] & -> & Hin).
    by rewrite (elem_of_list_to_map_1 (M := gmap string) _ _ _ Hnd Hin). }
  assert (keeps same_keys (async_setup_body r_login)) as Hk.
  { unfold async_setup_body, async_schedule_updates, async_listen_once, async_register.
    apply keeps_bind; [apply _ | |].
    - apply keeps_try_except; [apply _ | coroutine |].
      repeat (apply Forall_cons_2; [intros ?; apply keeps_ret, _ |]). apply Forall_nil_2.
    - intros [b' | retry]; [apply keeps_ret, _ |].
      pose proof load_platforms_keys. coroutine. }
  specialize (Hk w0'). apply (entities_complete_same_keys w0'); [| done].
  destruct (async_setup_body r_login w0') as [[b' | e |] w1]; try done.
  by injection Hsetup as <- <-.
Qed.

(** X2: a hub made by [async_setup] has an entity under every key of the
    table, a world with the same keys has that too, and on such a hub each of
    the seven updates ends without an exception once its request is
    answered: no [KeyError] arises from the entity table. *)
Theorem answered_updates_end_well :
  (∀ hass0 client0 conf r_login b w,
     const_wf → async_setup hass0 client0 conf r_login = Ok (b, w) →
     entities_complete w)
  ∧ (∀ w w', same_keys w w' → entities_complete w → entities_complete w')
  ∧ (∀ c now, always_ok entities_complete (_update_state (Returned c) now))
  ∧ (∀ c now, always_ok entities_complete (_update_operating_data (Returned c) now))
  ∧ (∀ c, always_ok entities_complete (_update_generic_data (Returned c)))
  ∧ (∀ c, always_ok entities_complete (_update_alerts (Returned c)))
  ∧ (∀ c, always_ok entities_complete (_update_updates_available (Returned c)))
  ∧ (∀ c, always_ok entities_complete (_update_last_completed_mow (Returned c)))
  ∧ (∀ c, always_ok entities_complete (_update_next_mow (Returned c))).
Proof.
  split; [apply async_setup_complete |].
  split; [apply entities_complete_same_keys |].
  split; [apply _update_state_always_ok |].
  split; [apply _update_operating_data_always_ok |].
  split; [apply _update_generic_data_always_ok |].
  split; [apply _update_alerts_always_ok |].
  split; [apply _update_updates_available_always_ok |].
  split; [apply _update_last_completed_mow_always_ok | apply _update_next_mow_always_ok].
Qed.

(** X3: on a hub with a complete entity table, a pass of the state loop
    whose requests are answered ends without an exception, and so do a run
    of the 60-minute batch and the initial update; the 5-minute batch, whose
    four requests are answered, gathers four results without an exception
    and sets its timer to 300 seconds. *)
Theorem answered_loops_end_well :
  (∀ c1 c2 now,
     always_ok entities_complete (async_refresh_state (Returned c1) (Returned c2) now))
  ∧ (∀ c, always_ok entities_complete (refresh_60m (Returned c)))
  ∧ (∀ c1 c2 c3 c4 rnd w,
       entities_complete w →
       ∃ w', refresh_5m (Returned c1) (Returned c2) (Returned c3) (Returned c4) rnd w
             = (Ok tt, w')
         ∧ entities_complete w'
         ∧ timers (hass w')
           = <[next_handle (hass w) := (300, cb_refresh_5m)]> (timers (hass w))
         ∧ refresh_5m_remover (hub w') = Some (next_handle (hass w)))
  ∧ (∀ c1 c2 c3 c4 c5 rnd,
       always_ok entities_complete
         (_initial_update (Returned c1) (Returned c2) (Returned c3) (Returned c4)
            (Returned c5) rnd)).
Proof.
  assert (∀ c, always_ok entities_complete (refresh_60m (Returned c))) as H60.
  { intros c. unfold refresh_60m.
    apply always_ok_bind; [apply _update_updates_available_always_ok | intros _].
    apply always_ok_keeps; [coroutine |]. intros w. by eexists _, _. }
  assert (∀ c1 c2 c3 c4 rnd w,
       entities_complete w →
       ∃ w', refresh_5m (Returned c1) (Returned c2) (Returned c3) (Returned c4) rnd w
             = (Ok tt, w')
         ∧ entities_complete w'
         ∧ timers (hass w')
           = <[next_handle (hass w) := (300, cb_refresh_5m)]> (timers (hass w))
         ∧ refresh_5m_remover (hub w') = Some (next_handle (hass w))) as H5.
  { intros c1 c2 c3 c4 rnd w Hw.
    destruct (refresh_5m_spec (Returned c1) (Returned c2) (Returned c3) (Returned c4) rnd w)
      as (results & delay & w' & Hres & Hrun & Htm & Hrm & _ & Hd & _).
    assert (results = [Ok tt; Ok tt; Ok tt; Ok tt]) as ->.
    { simpl in Hres. unfold bind, ret in Hres.
      destruct (_update_generic_data_always_ok c1 w Hw) as ([] & w1 & E1 & Hw1).
      destruct (_update_alerts_always_ok c2 w1 Hw1) as ([] & w2 & E2 & Hw2).
      destruct (_update_last_completed_mow_always_ok c3 w2 Hw2) as ([] & w3 & E3 & Hw3).
      destruct (_update_next_mow_always_ok c4 w3 Hw3) as ([] & w4 & E4 & Hw4).
      rewrite E1, E2, E3, E4 in Hres. simpl in Hres. by injection Hres as <-. }
    exists w'. split; [done |]. split.
    - apply (entities_complete_same_keys w); [| done].
      pose proof (refresh_5m_keys (Returned c1) (Returned c2) (Returned c3)
                    (Returned c4) rnd w) as Hk. by rewrite Hrun in Hk.
    - rewrite (Hd eq_refl) in Htm. by split. }
  split.
  { intros c1 c2 now. unfold async_refresh_state.
    apply always_ok_bind; [apply _update_state_always_ok | intros _].
    apply always_ok_bind; [apply always_ok_gets | intros sd].
    destruct sd; [apply always_ok_ret |].
    apply always_ok_bind; [apply always_ok_gets | intros c].
    apply always_ok_bind; [| intros _; apply always_ok_recall_itself].
    destruct (needs_operating_data c);
      [apply _update_operating_data_always_ok | apply always_ok_ret]. }
  split; [exact H60 |]. split; [exact H5 |].
  intros c1 c2 c3 c4 c5 rnd. unfold _initial_update.
  apply always_ok_bind.
  { apply always_ok_keeps; [coroutine |]. intros w.
    unfold async_create_task, bind, fresh_handle, modify, ret. by eexists _, _. }
  intros t. apply always_ok_bind.
  { apply always_ok_keeps; [coroutine |]. intros w. eexists _, _. reflexivity. }
  intros _ w Hw. simpl.
  destruct (H5 c1 c2 c3 c4 rnd w Hw) as (w1 & E1 & Hw1 & _).
  destruct (H60 c5 w1 Hw1) as ([] & w2 & E2 & Hw2).
  rewrite E1, E2. by exists tt, w2.
Qed.

End Complete.

(** ** The entity states after an update *)

Lemma state_of_set_state (k : string) (v : value) (w w' : World) :
  entity_set_state k v w = (Ok tt, w') →
  indego w' = indego w
  ∧ ∀ k', state_of k' w' = if decide (k = k') then Some v else state_of k' w.
Proof.
  intros (e & He & ->)%entity_set_state_Ok. split; [done |].
  intros k'. unfold state_of. simpl.
  case_decide as Hk; [subst; by rewrite lookup_insert_eq | by rewrite lookup_insert_ne].
Qed.

Lemma state_of_add_attribute (k : string) (attr : list (string * value)) (w w' : World) :
  entity_add_attribute k attr w = (Ok tt, w') →
  indego w' = indego w ∧ ∀ k', state_of k' w' = state_of k' w.
Proof.
  intros (e & He & ->)%entity_add_attribute_Ok. split; [done |].
  intros k'. unfold state_of. simpl.
  destruct (decide (k = k')) as [<- | Hne];
    [by rewrite lookup_insert_eq, He | by rewrite lookup_insert_ne].
Qed.

Lemma state_of_request (c : pyIndego.call) (r : response) (w w' : World) :
  request c r w = (Ok tt, w') →
  (∃ client, r = Returned client ∧ indego w' = client)
  ∧ hub w' = hub w
  ∧ ∀ k', state_of k' w' = state_of k' w.
Proof. intros (client & -> & ->)%request_Ok. split; [by exists client | done]. Qed.

(** The same for a request that may have been cancelled. *)
Lemma state_of_request_ended (c : pyIndego.call) (r : wakeup) (w w' : World) :
  request c r w = (Ok tt, w') →
  (∃ client, r = Returned client ∧ indego w' = client)
  ∧ hub w' = hub w
  ∧ ∀ k', state_of k' w' = state_of k' w.
Proof.
  unfold request. destruct r as [[client | e] |]; intros [= <-].
  split; [by exists client | done].
Qed.

(** Takes a run that ended well apart, statement by statement. *)
Ltac run_apart H :=
  repeat
    (let a := fresh "a" in let w := fresh "w" in
     let Hs := fresh "Hs" in
     apply bind_Ok in H as (a & w & Hs & H);
     lazymatch type of a with unit => destruct a | _ => idtac end);
  repeat match goal with
    | Hg : gets _ _ = (Ok _, _) |- _ => unfold gets in Hg; injection Hg as <- <-
    | Hr : request _ _ _ = (Ok _, _) |- _ =>
        first [ apply state_of_request in Hr as ((? & -> & ?) & ? & ?)
              | apply state_of_request_ended in Hr as ((? & -> & ?) & ? & ?) ]
    | Hr : entity_set_state _ _ _ = (Ok _, _) |- _ =>
        apply state_of_set_state in Hr as [? ?]
    | Hr : entity_add_attribute _ _ _ = (Ok _, _) |- _ =>
        apply state_of_add_attribute in Hr as [? ?]
    end.

(** Reads the state of an entity back through the statements of the run. *)
Ltac read_back :=
  repeat match goal with
    | Hs : ∀ k', state_of k' ?w = _ |- context [state_of _ ?w] => rewrite Hs
    end;
  repeat case_decide; try done; try congruence.

Section States.
Context `{Const}.

(** X4: a state update that ends well, shutdown not being signalled, has
    set the states of the four state entities from the answer of the
    client: the description, the detailed description, the mowed share and
    the total operating time; the state of every other entity is as
    before. *)
Theorem _update_state_sets_states (r : response) (now : Z) (w w' : World) :
  const_wf →
  _shutdown (hub w) = false →
  _update_state r now w = (Ok tt, w') →
  ∃ c, r = Returned c
    ∧ indego w' = c
    ∧ state_of ENTITY_MOWER_STATE w' = Some (pyIndego.state_description c)
    ∧ state_of ENTITY_MOWER_STATE_DETAIL w' = Some (pyIndego.state_description_detail c)
    ∧ state_of ENTITY_LAWN_MOWED w' = Some (pyIndego.mowed (pyIndego.state_ c))
    ∧ state_of ENTITY_RUNTIME w'
      = Some (pyIndego.operate (pyIndego.total (pyIndego.runtime (pyIndego.state_ c))))
    ∧ ∀ k, k ≠ ENTITY_MOWER_STATE → k ≠ ENTITY_MOWER_STATE_DETAIL →
           k ≠ ENTITY_LAWN_MOWED → k ≠ ENTITY_RUNTIME →
           state_of k w' = state_of k w.
Proof.
  intros Hwf Hsd Hrun.
  pose proof (entity_keys_distinct 3 4 _ _ Hwf eq_refl eq_refl ltac:(done)).
  pose proof (entity_keys_distinct 3 6 _ _ Hwf eq_refl eq_refl ltac:(done)).
  pose proof (entity_keys_distinct 3 10 _ _ Hwf eq_refl eq_refl ltac:(done)).
  pose proof (entity_keys_distinct 4 6 _ _ Hwf eq_refl eq_refl ltac:(done)).
  pose proof (entity_keys_distinct 4 10 _ _ Hwf eq_refl eq_refl ltac:(done)).
  pose proof (entity_keys_distinct 6 10 _ _ Hwf eq_refl eq_refl ltac:(done)).
  unfold _update_state in Hrun.
  apply bind_Ok in Hrun as ([] & w0 & Hreq & Hrun).
  apply state_of_request in Hreq as ((c & -> & Hc) & Hh0 & Hs0).
  apply bind_Ok in Hrun as (sd & w0' & [= <- <-] & Hrun).
  rewrite Hh0, Hsd in Hrun.
  run_apart Hrun.
  exists c. split; [done |]. split; [congruence |].
  repeat split; intros; read_back.
Qed.

Lemma _update_alerts_states (r : wakeup) (w w' : World) :
  ENTITY_MOWER_ALERT ≠ ENTITY_ALERT →
  _update_alerts r w = (Ok tt, w') →
  ∃ c, r = Returned c
    ∧ state_of ENTITY_MOWER_ALERT w' = Some (PInt (pyIndego.alerts_count c))
    ∧ state_of ENTITY_ALERT w' = Some (PBool (0 <? pyIndego.alerts_count c))
    ∧ ∀ k, k ≠ ENTITY_MOWER_ALERT → k ≠ ENTITY_ALERT → state_of k w' = state_of k w.
Proof.
  intros Hne Hrun. unfold _update_alerts in Hrun. run_apart Hrun.
  eexists. split; [done |]. repeat split; intros; read_back.
Qed.

(** X5: each update of the two batches that ends well has set the state of
    its entities from the answer of the client, and the state of every
    other entity is as before: the mowing mode; the number of alerts and
    whether there is one; whether an update is available; the last
    completed mow; the next mow. *)
Theorem batch_updates_set_states :
  const_wf →
  (∀ r w w', _update_generic_data r w = (Ok tt, w') →
     ∃ c, r = Returned c
       ∧ state_of ENTITY_MOWING_MODE w'
         = Some (pyIndego.mowing_mode_description (pyIndego.generic_data c))
       ∧ ∀ k, k ≠ ENTITY_MOWING_MODE → state_of k w' = state_of k w)
  ∧ (∀ r w w', _update_alerts r w = (Ok tt, w') →
       ∃ c, r = Returned c
         ∧ state_of ENTITY_MOWER_ALERT w' = Some (PInt (pyIndego.alerts_count c))
         ∧ state_of ENTITY_ALERT w' = Some (PBool (0 <? pyIndego.alerts_count c))
         ∧ ∀ k, k ≠ ENTITY_MOWER_ALERT → k ≠ ENTITY_ALERT →
                state_of k w' = state_of k w)
  ∧ (∀ r w w', _update_updates_available r w = (Ok tt, w') →
       ∃ c, r = Returned c
         ∧ state_of ENTITY_UPDATE_AVAILABLE w' = Some (pyIndego.update_available c)
         ∧ ∀ k, k ≠ ENTITY_UPDATE_AVAILABLE → state_of k w' = state_of k w)
  ∧ (∀ r w w', _update_last_completed_mow r w = (Ok tt, w') →
       ∃ c, r = Returned c
         ∧ state_of ENTITY_LAST_COMPLETED w' = Some (pyIndego.last_completed_mow c)
         ∧ ∀ k, k ≠ ENTITY_LAST_COMPLETED → state_of k w' = state_of k w)
  ∧ (∀ r w w', _update_next_mow r w = (Ok tt, w') →
       ∃ c, r = Returned c
         ∧ state_of ENTITY_NEXT_MOW w' = Some (pyIndego.next_mow c)
         ∧ ∀ k, k ≠ ENTITY_NEXT_MOW → state_of k w' = state_of k w).
Proof.
  intros Hwf.
  pose proof (entity_keys_distinct 11 2 _ _ Hwf eq_refl eq_refl ltac:(done)) as Hne.
  split; [| split; [| split; [| split]]].
  - intros r w w' Hrun. unfold _update_generic_data in Hrun. run_apart Hrun.
    eexists. split; [done |]. repeat split; intros; read_back.
  - intros r w w' Hrun. by apply _update_alerts_states.
  - intros r w w' Hrun. unfold _update_updates_available in Hrun. run_apart Hrun.
    eexists. split; [done |]. repeat split; intros; read_back.
  - intros r w w' Hrun. unfold _update_last_completed_mow in Hrun. run_apart Hrun.
    eexists. split; [done |]. repeat split; intros; read_back.
  - intros r w w' Hrun. unfold _update_next_mow in Hrun. run_apart Hrun.
    eexists. split; [done |]. repeat split; intros; read_back.
Qed.

(** X6: after an update of the alerts that ends well, the icon function of
    the two alert entities, applied to the state the update has stored,
    returns an icon and does not raise: "mdi:alert-outline" when the number
    of alerts is positive and "mdi:check-circle-outline" otherwise, for the
    sensor (an integer) and for the binary sensor (a boolean) alike. *)
Theorem alert_icons_after_update (r : response) (w w' : World) :
  const_wf →
  _update_alerts r w = (Ok tt, w') →
  ∃ c sensor_state binary_state,
    r = Returned c
    ∧ state_of ENTITY_MOWER_ALERT w' = Some sensor_state
    ∧ state_of ENTITY_ALERT w' = Some binary_state
    ∧ FUNC_ICON_MOWER_ALERT sensor_state
      = Ok (if 0 <? pyIndego.alerts_count c
            then "mdi:alert-outline" else "mdi:check-circle-outline")
    ∧ FUNC_ICON_MOWER_ALERT binary_state
      = Ok (if 0 <? pyIndego.alerts_count c
            then "mdi:alert-outline" else "mdi:check-circle-outline").
Proof.
  intros Hwf Hrun.
  pose proof (entity_keys_distinct 11 2 _ _ Hwf eq_refl eq_refl ltac:(done)) as Hne.
  destruct (_update_alerts_states r w w' Hne Hrun) as (c & [= ->] & Hs & Hb & _).
  eexists c, _, _. split; [done |]. split; [exact Hs |]. split; [exact Hb |].
  split.
  - unfold FUNC_ICON_MOWER_ALERT. simpl.
    destruct (Z.eqb_spec (pyIndego.alerts_count c) 0) as [-> | Hn]; simpl; [done |].
    rewrite orb_false_r. by destruct (0 <? _).
  - by destruct (0 <? _).
Qed.

End States.

(** ** What a batch sends, and what an exception ends *)

Lemma refresh_5m_results_keeps (R : relation World) `{!PreOrder R}
    results rnd next_refresh index :
  keeps R (refresh_5m_results results rnd next_refresh index).
Proof.
  revert next_refresh index.
  induction results as [| res results IH]; intros d i; simpl; [apply keeps_ret, _ |].
  apply keeps_bind; [apply _ | | intros; apply IH].
  destruct res; [apply keeps_ret, _ | | apply keeps_cancelled, _].
  apply keeps_try_except; [apply _ | apply keeps_raise, _ |].
  repeat (apply Forall_cons_2; [intros ?; apply keeps_ret, _ |]). apply Forall_nil_2.
Qed.

(** A coroutine that sends the request [c] first and nothing after it. *)
Lemma request_then_log {A} (c : pyIndego.call) (r : wakeup) (k : unit → M A) (w : World) :
  (∀ a, keeps same_log (k a)) →
  api_log (bind (request c r) k w).2 = (api_log w ++ [c])%list.
Proof.
  intros Hk. unfold bind, request.
  destruct r as [[client | e] |]; simpl; [| done | done].
  apply (Hk tt).
Qed.

Section Batches.
Context `{Const}.

Lemma _update_generic_data_log r w :
  api_log (_update_generic_data r w).2 = (api_log w ++ [pyIndego.update_generic_data])%list.
Proof. unfold _update_generic_data. apply request_then_log. coroutine. Qed.
Lemma _update_alerts_log r w :
  api_log (_update_alerts r w).2 = (api_log w ++ [pyIndego.update_alerts])%list.
Proof. unfold _update_alerts. apply request_then_log. coroutine. Qed.
Lemma _update_last_completed_mow_log r w :
  api_log (_update_last_completed_mow r w).2
  = (api_log w ++ [pyIndego.update_last_completed_mow])%list.
Proof. unfold _update_last_completed_mow. apply request_then_log. coroutine. Qed.
Lemma _update_next_mow_log r w :
  api_log (_update_next_mow r w).2 = (api_log w ++ [pyIndego.update_next_mow])%list.
Proof. unfold _update_next_mow. apply request_then_log. coroutine. Qed.

(** X7: a run of the 5-minute batch sends its four requests, in the order
    generic data, alerts, last completed mow, next mow, and nothing else,
    whatever the answers are: an update that raises does not keep the
    others from being requested. *)
Theorem refresh_5m_sends_four_requests (r_generic r_alerts r_last r_next : response)
    (rnd : nat → Z) (w : World) :
  api_log (refresh_5m r_generic r_alerts r_last r_next rnd w).2
  = (api_log w ++ [ pyIndego.update_generic_data; pyIndego.update_alerts;
                    pyIndego.update_last_completed_mow;
                    pyIndego.update_next_mow ])%list.
Proof.
  unfold refresh_5m, bind at 1. simpl. unfold bind at 1 2 3 4, ret.
  pose proof (_update_generic_data_log r_generic w) as H1.
  destruct (_update_generic_data r_generic w) as [x1 w1]. simpl in H1.
  pose proof (_update_alerts_log r_alerts w1) as H2.
  destruct (_update_alerts r_alerts w1) as [x2 w2]. simpl in H2.
  pose proof (_update_last_completed_mow_log r_last w2) as H3.
  destruct (_update_last_completed_mow r_last w2) as [x3 w3]. simpl in H3.
  pose proof (_update_next_mow_log r_next w3) as H4.
  destruct (_update_next_mow r_next w3) as [x4 w4]. simpl in H4.
  match goal with |- api_log (?m w4).2 = _ =>
    assert (keeps same_log m) as Hk end.
  { pose proof (refresh_5m_results_keeps same_log). coroutine. }
  rewrite (Hk w4), H4, H3, H2, H1, <- !app_assoc. reflexivity.
Qed.

End Batches.

(** ** The sample installation: the states after an update *)

Lemma _update_state_sets_states_witness :
  @const_wf Sample.const
  ∧ _shutdown (hub Run.started) = false
  ∧ state_of (@ENTITY_MOWER_STATE Sample.const)
      (@_update_state Sample.const (Returned Sample.mowing) 1590000100 Run.started).2
    = Some (pyIndego.state_description Sample.mowing).
Proof.
  assert (_shutdown (hub Run.started) = false) as Hsd by (vm_compute; reflexivity).
  assert ((@_update_state Sample.const (Returned Sample.mowing) 1590000100 Run.started).1
          = Ok tt) as Hok by (vm_compute; reflexivity).
  split; [exact sample_const_wf |]. split; [exact Hsd |].
  destruct (@_update_state_sets_states Sample.const _ _ _ _
              sample_const_wf Hsd (pair_eta _ _ Hok)) as (c & Hc & _ & Hs & _).
  injection Hc as <-. exact Hs.
Defined.

Lemma batch_updates_set_states_witness :
  @const_wf Sample.const
  ∧ state_of (@ENTITY_NEXT_MOW Sample.const)
      (@_update_next_mow Sample.const (Returned Sample.mowing) Run.started).2
    = Some (pyIndego.next_mow Sample.mowing).
Proof.
  assert ((@_update_next_mow Sample.const (Returned Sample.mowing) Run.started).1
          = Ok tt) as Hok by (vm_compute; reflexivity).
  split; [exact sample_const_wf |].
  destruct (@batch_updates_set_states Sample.const sample_const_wf)
    as (_ & _ & _ & _ & Hnext).
  destruct (Hnext _ _ _ (pair_eta _ _ Hok)) as (c & Hc & Hs & _).
  injection Hc as <-. exact Hs.
Defined.

Lemma alert_icons_after_update_witness :
  @const_wf Sample.const
  ∧ ∃ sensor_state,
      state_of (@ENTITY_MOWER_ALERT Sample.const)
        (@_update_alerts Sample.const (Returned Sample.docked) Run.started).2
      = Some sensor_state
      ∧ FUNC_ICON_MOWER_ALERT sensor_state
        = Ok (if 0 <? pyIndego.alerts_count Sample.docked
              then "mdi:alert-outline" else "mdi:check-circle-outline").
Proof.
  assert ((@_update_alerts Sample.const (Returned Sample.docked) Run.started).1
          = Ok tt) as Hok by (vm_compute; reflexivity).
  split; [exact sample_const_wf |].
  destruct (@alert_icons_after_update Sample.const _ _ _
              sample_const_wf (pair_eta _ _ Hok))
    as (c & s & b & Hc & Hs & _ & Hicon & _).
  injection Hc as <-. exists s. split; [exact Hs | exact Hicon].
Defined.

(** ** Requests that raise *)

Section Failures.
Context `{Const}.

Lemma _update_state_indego (r : response) (now : Z) (w w' : World) :
  _update_state r now w = (Ok tt, w') → ∃ c, r = Returned c ∧ indego w' = c.
Proof.
  intros Hrun. unfold _update_state in Hrun.
  apply bind_Ok in Hrun as ([] & w0 & Hreq & Hrun).
  apply request_Ok in Hreq as (c & -> & ->).
  exists c. split; [done |].
  match type of Hrun with ?m ?w0 = _ =>
    assert (keeps same_indego m) as Hk by coroutine;
    specialize (Hk w0); rewrite Hrun in Hk; exact Hk end.
Qed.

(** X8: a request of the state loop or of the 60-minute batch that raises
    ends the loop it belongs to. The exception leaves the coroutine; no
    task is made for a next pass of the state loop, whether it is the
    long-poll request or the request for the operating data that raises;
    and the 60-minute batch sets no timer for its next run. (The 5-minute
    batch keeps the exceptions of its updates and always sets its timer.) *)
Theorem failed_request_ends_loop :
  (∀ e r_operating now w,
     ∃ w', async_refresh_state (Raised e) r_operating now w = (Raise e, w')
       ∧ hub w' = hub w ∧ hass w' = hass w)
  ∧ (∀ c e now w,
       entities_complete w → _shutdown (hub w) = false →
       needs_operating_data c = true →
       ∃ w', async_refresh_state (Returned c) (Raised e) now w = (Raise e, w')
         ∧ refresh_state_task (hub w') = refresh_state_task (hub w)
         ∧ hass w' = hass w)
  ∧ (∀ e w,
       ∃ w', refresh_60m (Raised e) w = (Raise e, w')
         ∧ hub w' = hub w ∧ hass w' = hass w).
Proof.
  split; [| split].
  - intros e r_operating now w. eexists. by split; [reflexivity |].
  - intros c e now w Hw Hsd Hneeds.
    destruct (_update_state_always_ok c now w Hw) as ([] & w1 & Hrun & Hw1).
    pose proof (_update_state_control (Returned c) now w) as Hc.
    rewrite Hrun in Hc. simpl in Hc. destruct Hc as (Hh & Ht & _ & _ & Hsd1).
    destruct (_update_state_indego _ _ _ _ Hrun) as (c' & [= <-] & Hi).
    unfold async_refresh_state.
    rewrite (bind_run _ _ w w1 tt) by done.
    unfold bind at 1, gets at 1. rewrite Hsd1, Hsd.
    unfold bind at 1, gets at 1. rewrite Hi, Hneeds.
    eexists. split.
    + apply bind_raised. reflexivity.
    + by simpl.
  - intros e w. eexists. by split; [reflexivity |].
Qed.

(** X9: [_login], the handler that logs in again when the host has
    started, starts no refresh loop. After a login that succeeds, or that
    fails with a [ClientResponseError], the [finally] block hands the
    method [_initial_update], not a coroutine, to [async_create_task], which
    refuses it with a [TypeError]; an exception that no clause handles
    leaves [retry_login] unbound, and the block raises
    [UnboundLocalError]. The handler ends well only on a timeout, having
    set a timer of 60 seconds for itself. In every case the hub, the tasks
    and the listeners are as before. *)
Theorem _login_starts_no_loop (r : response) (w : World) :
  hub (_login r w).2 = hub w
  ∧ tasks (hass (_login r w).2) = tasks (hass w)
  ∧ listeners (hass (_login r w).2) = listeners (hass w)
  ∧ api_log (_login r w).2 = (api_log w ++ [pyIndego.login])%list
  ∧ ((_login r w).1 = Ok tt
     ↔ ∃ e, r = Raised e ∧ isinstance e [ClientResponseError] = false
         ∧ isinstance e [ServerTimeoutError; TooManyRedirects] = true)
  ∧ ((_login r w).1 = Ok tt →
       timers (hass (_login r w).2)
       = <[next_handle (hass w) := (60, cb_login)]> (timers (hass w)))
  ∧ ((_login r w).1 ≠ Ok tt → timers (hass (_login r w).2) = timers (hass w))
  ∧ ((∃ c, r = Returned c)
     ∨ (∃ e, r = Raised e ∧ isinstance e [ClientResponseError] = true) →
     (_login r w).1 = Raise TypeError)
  ∧ (∀ e, r = Raised e → isinstance e [ClientResponseError] = false →
       isinstance e [ServerTimeoutError; TooManyRedirects] = false →
       (_login r w).1 = Raise UnboundLocalError).
Proof.
  unfold _login, try_except, bind, request, ret. destruct r as [c | e]; simpl.
  2: destruct (isinstance e [ClientResponseError]) eqn:Hc; simpl.
  3: destruct (isinstance e [ServerTimeoutError; TooManyRedirects]) eqn:Ht; simpl.
  all: repeat split; try done.
  all: first
    [ intros (? & Hr & ? & ?); (discriminate Hr || (injection Hr as <-; congruence))
    | intros [(? & Hr) | (? & Hr & ?)];
      (discriminate Hr || (injection Hr as <-; congruence))
    | intros ? Hr ? ?; injection Hr as <-; congruence
    | intros _; by exists e ].
Qed.

End Failures.

(** ** What the setup leaves on the host *)

Section SetupHost.
Context `{Const}.

Lemma load_platforms_tasks (comps : list string) (w : World) (n : nat) (t : task) :
  tasks (hass (load_platforms comps w).2) !! n = Some t →
  tasks (hass w) !! n = Some t ∨ ∃ comp, comp ∈ comps ∧ t = platform_task comp.
Proof.
  revert w. induction comps as [| comp comps IH]; intros w; [by left |].
  simpl. unfold bind. simpl. intros Ht. apply IH in Ht as [Ht | (c & Hc & ->)].
  - simpl in Ht. destruct (decide (next_handle (hass w) = n)) as [<- | Hne].
    + rewrite lookup_insert_eq in Ht. injection Ht as <-.
      right. exists comp. split; [by left | done].
    + rewrite lookup_insert_ne in Ht by done. by left.
  - right. exists c. split; [by right | done].
Qed.

Lemma setup_try_outcome (r_login : response) (w w1 : World) (o : login_outcome) :
  setup_try r_login w = (Ok o, w1) →
  hub w1 = hub w ∧ hass w1 = hass w
  ∧ api_log w1 = (api_log w ++ [pyIndego.login])%list
  ∧ match o with
    | Continue retry =>
        retry = match r_login with Returned _ => false | Raised _ => true end
    | Return b =>
        b = false ∧ ∃ e, r_login = Raised e ∧ isinstance e [ClientResponseError] = true
    end.
Proof.
  unfold setup_try, try_except, bind, request, ret.
  destruct r_login as [c | e]; simpl.
  - by intros [= <- <-].
  - destruct (isinstance e [ClientResponseError]) eqn:Hc; simpl.
    + intros [= <- <-]. repeat split; try done. by exists e.
    + destruct (isinstance e [ServerTimeoutError; TooManyRedirects]); simpl;
        [by intros [= <- <-] | done].
Qed.

Lemma async_setup_body_host (r_login : response) (b : bool) (w w' : World) :
  async_setup_body r_login w = (Ok b, w') →
  hub w' = hub w
  ∧ api_log w' = (api_log w ++ [pyIndego.login])%list
  ∧ timers (hass w') = timers (hass w)
  ∧ (∀ n t, tasks (hass w') !! n = Some t →
       tasks (hass w) !! n = Some t
       ∨ ∃ comp, comp ∈ INDEGO_COMPONENTS ∧ t = platform_task comp)
  ∧ (b = true →
       listeners (hass w')
       = (listeners (hass w)
          ++ [ (EVENT_HOMEASSISTANT_STARTED,
                match r_login with
                | Returned _ => cb_initial_update
                | Raised _ => cb_login
                end);
               (EVENT_HOMEASSISTANT_STOP, cb_async_shutdown) ])%list)
  ∧ (b = false →
       hass w' = hass w
       ∧ ∃ e, r_login = Raised e ∧ isinstance e [ClientResponseError] = true).
Proof.
  intros Hrun.
  destruct (setup_try r_login w) as [[[b' | retry] | e |] w1] eqn:Htry.
  - rewrite (async_setup_body_return _ _ _ _ Htry) in Hrun. injection Hrun as <- <-.
    destruct (setup_try_outcome _ _ _ _ Htry) as (Hh & Hhass & Hlog & -> & He).
    rewrite Hh, Hhass, Hlog. repeat split; try done. by left.
  - destruct (setup_try_outcome _ _ _ _ Htry) as (Hh & Hhass & Hlog & Hretry).
    unfold async_setup_body in Hrun. fold (setup_try r_login) in Hrun.
    rewrite (bind_run _ _ w w1 (Continue retry)) in Hrun by done.
    set (w2 := (async_schedule_updates retry w1).2) in *.
    rewrite (bind_run _ _ w1 w2 tt) in Hrun by (unfold w2; by destruct retry).
    destruct (load_platforms_Ok INDEGO_COMPONENTS w2)
      as (w3 & Hload & Hhub & _ & Hlog3 & Hls & _ & Htm).
    pose proof (load_platforms_tasks INDEGO_COMPONENTS w2) as Htasks.
    rewrite Hload in Htasks. simpl in Htasks.
    rewrite (bind_run _ _ w2 w3 tt) in Hrun by done.
    injection Hrun as <- <-. simpl.
    rewrite Hhub, Hlog3, Hls, Htm.
    assert (hub w2 = hub w1 ∧ api_log w2 = api_log w1
            ∧ timers (hass w2) = timers (hass w1)
            ∧ tasks (hass w2) = tasks (hass w1)
            ∧ listeners (hass w2)
              = (listeners (hass w1)
                 ++ [ (EVENT_HOMEASSISTANT_STARTED,
                       if retry then cb_login else cb_initial_update);
                      (EVENT_HOMEASSISTANT_STOP, cb_async_shutdown) ])%list)
      as (Hh2 & Hl2 & Ht2 & Hk2 & Hls2).
    { unfold w2. destruct retry; simpl; rewrite <- ?app_assoc; by repeat split. }
    rewrite Hh2, Hl2, Ht2, Hls2, Hh, Hlog, Hhass.
    split; [done |]. split; [done |]. split; [done |]. split; [| split].
    + intros n t Ht. apply Htasks in Ht. by rewrite Hk2, Hhass in Ht.
    + intros _. rewrite Hretry. by destruct r_login.
    + done.
  - unfold async_setup_body in Hrun. fold (setup_try r_login) in Hrun.
    by rewrite (bind_raised _ _ _ _ _ Htry) in Hrun.
  - unfold async_setup_body in Hrun. fold (setup_try r_login) in Hrun.
    by rewrite (bind_cancelled _ _ _ _ Htry) in Hrun.
Qed.

(** X10: [async_setup] starts none of the refresh loops itself. When it
    returns, one request has been sent, the login; no timer is set; the hub
    has no task for the state loop, no remover of a batch timer, and
    shutdown is not signalled; every task made is the loading of a
    platform. When it returns [True] it has registered two listeners: for
    the start of the host, [_initial_update] after a login that succeeded
    and [_login] after one that timed out, and for the stop of the host
    [async_shutdown]. It returns [False] only on a login refused with a
    [ClientResponseError], and then the host is as before. *)
Theorem setup_starts_no_loop (hass0 : HomeAssistant) (client0 : IndegoAsyncClient)
    (conf : Config) (r_login : response) (b : bool) (w : World) :
  async_setup hass0 client0 conf r_login = Ok (b, w) →
  api_log w = [pyIndego.login]
  ∧ timers (hass w) = timers hass0
  ∧ refresh_state_task (hub w) = None
  ∧ refresh_5m_remover (hub w) = None
  ∧ refresh_60m_remover (hub w) = None
  ∧ _shutdown (hub w) = false
  ∧ (∀ n t, tasks (hass w) !! n = Some t →
       tasks hass0 !! n = Some t
       ∨ ∃ comp, comp ∈ INDEGO_COMPONENTS ∧ t = platform_task comp)
  ∧ (b = true →
       listeners (hass w)
       = (listeners hass0
          ++ [ (EVENT_HOMEASSISTANT_STARTED,
                match r_login with
                | Returned _ => cb_initial_update
                | Raised _ => cb_login
                end);
               (EVENT_HOMEASSISTANT_STOP, cb_async_shutdown) ])%list)
  ∧ (b = false →
       hass w = hass0
       ∧ ∃ e, r_login = Raised e ∧ isinstance e [ClientResponseError] = true).
Proof.
  intros Hsetup. unfold async_setup in Hsetup.
  destruct (IndegoHub__init__ _ _ _ _ _) as [component | |] eqn:Hinit; try done.
  unfold IndegoHub__init__ in Hinit.
  destruct (create_entities _ _) as [ents | |]; try done. injection Hinit as <-.
  match type of Hsetup with
  | match async_setup_body _ ?w0 with _ => _ end = _ => set (w0' := w0) in *
  end.
  destruct (async_setup_body r_login w0') as [[b' | |] w'] eqn:Hbody; try done.
  injection Hsetup as <- <-.
  destruct (async_setup_body_host _ _ _ _ Hbody) as (Hh & Hlog & Htm & Htasks & Hls & Hf).
  subst w0'. simpl in *. rewrite Hh. simpl. by split_and!.
Qed.

End SetupHost.

Lemma setup_starts_no_loop_witness :
  refresh_state_task (hub Run.installed) = None
  ∧ timers (hass Run.installed) = ∅.
Proof.
  destruct (@setup_starts_no_loop Sample.const hass_empty Sample.docked
              Sample.config (Returned Sample.docked) true Run.installed
              (setup_eta Sample.setup Run.blank sample_setup_succeeds))
    as (_ & Htm & Ht & _).
  by split.
Defined.

(** ** Shutdown at other moments *)

Section ShutdownMoments.
Context `{Const}.

(** The shutdown of a hub that runs none of its loops comes down to
    setting the flag and closing the client. *)
Lemma async_shutdown_idle (wk : wakeup) (r_next : response) (now : Z)
    (r_close : response) (w : World) :
  refresh_state_task (hub w) = None →
  refresh_5m_remover (hub w) = None →
  refresh_60m_remover (hub w) = None →
  async_shutdown wk r_next now r_close w
  = request pyIndego.close r_close (with_hub (set_shutdown true) w).
Proof.
  intros Ht H5 H60. unfold async_shutdown, bind, modify, gets, ret. simpl.
  rewrite Ht. simpl. rewrite H5. simpl. by rewrite H60.
Qed.

(** X12: the timer that [_login] sets for its next attempt is kept by
    nobody, so the shutdown does not remove it. On a hub that waits for
    its login, a login that times out followed by the shutdown leaves the
    timer of 60 seconds for [_login] on the host, the flag set and the
    client closed. *)
Theorem login_retry_survives_shutdown (e : exn) (wk : wakeup) (r_next : response)
    (now : Z) (c : IndegoAsyncClient) (w : World) :
  isinstance e [ClientResponseError] = false →
  isinstance e [ServerTimeoutError; TooManyRedirects] = true →
  refresh_state_task (hub w) = None →
  refresh_5m_remover (hub w) = None →
  refresh_60m_remover (hub w) = None →
  ∃ w1 w2,
    _login (Raised e) w = (Ok tt, w1)
    ∧ async_shutdown wk r_next now (Returned c) w1 = (Ok tt, w2)
    ∧ _shutdown (hub w2) = true
    ∧ timers (hass w2) = <[next_handle (hass w) := (60, cb_login)]> (timers (hass w))
    ∧ api_log w2 = (api_log w ++ [pyIndego.login; pyIndego.close])%list.
Proof.
  intros Hc Ht Htask H5 H60.
  assert (∃ w1, _login (Raised e) w = (Ok tt, w1) ∧ hub w1 = hub w
            ∧ timers (hass w1)
              = <[next_handle (hass w) := (60, cb_login)]> (timers (hass w))
            ∧ api_log w1 = (api_log w ++ [pyIndego.login])%list)
    as (w1 & Hlogin & Hh & Htm & Hlog).
  { unfold _login, try_except, bind, request, ret. simpl. rewrite Hc, Ht. simpl.
    eexists. by split; [reflexivity |]. }
  exists w1. eexists. split; [done |].
  rewrite async_shutdown_idle by (by rewrite Hh).
  split; [reflexivity |]. simpl. rewrite Htm, Hlog, <- app_assoc. done.
Qed.

(** X13: once shutdown is signalled, a state update stores nothing. The
    long-poll request is still sent, but the hub (its entities and its
    handles) and the host are as before: after [_update_state], after a
    pass of the state loop, which ends there without a task for a next
    pass and without the request for the operating data, and after the
    command service. *)
Theorem after_shutdown_nothing_stored (w : World) :
  _shutdown (hub w) = true →
  (∀ r now, hub (_update_state r now w).2 = hub w
            ∧ hass (_update_state r now w).2 = hass w)
  ∧ (∀ r_state r_operating now,
       hub (async_refresh_state r_state r_operating now w).2 = hub w
       ∧ hass (async_refresh_state r_state r_operating now w).2 = hass w
       ∧ api_log (async_refresh_state r_state r_operating now w).2
         = (api_log w ++ [pyIndego.update_state true 300])%list)
  ∧ (∀ data r_put r_update now,
       hub (handle async_send_command data r_put r_update now w).2 = hub w
       ∧ hass (handle async_send_command data r_put r_update now w).2 = hass w).
Proof.
  intros Hsd. split; [| split].
  - intros r now. by apply _update_state_after_shutdown.
  - intros r_state r_operating now.
    destruct (async_refresh_state_after_shutdown r_state r_operating now w Hsd)
      as [Hh Hhass].
    split; [done |]. split; [done |].
    unfold async_refresh_state, _update_state, bind, request, gets.
    destruct r_state; simpl; [| done]. rewrite Hsd. simpl. by rewrite Hsd.
  - intros data r_put r_update now. unfold handle, bind at 1, request at 1.
    destruct r_put as [c | e]; simpl; [| done].
    match goal with |- hub (_ ?w1).2 = _ ∧ _ =>
      apply (_update_state_after_shutdown r_update now w1 Hsd) end.
Qed.

End ShutdownMoments.

Lemma async_shutdown_clean_witness :
  refresh_state_task (hub Run.started) = Some 2%nat
  ∧ tasks (hass Run.started) !! 2%nat = Some refresh_state_pass
  ∧ Run.clean_shutdown.1 = Ok tt.
Proof.
  assert (refresh_state_task (hub Run.started) = Some 2%nat) as Ht
    by (vm_compute; reflexivity).
  assert (tasks (hass Run.started) !! 2%nat = Some refresh_state_pass) as Hl
    by (vm_compute; reflexivity).
  split; [exact Ht |]. split; [exact Hl |].
  destruct (@async_shutdown_clean Sample.const 2 Sample.docked Sample.docked
              (Returned Sample.docked) 1590000200 Run.started refresh_state_pass
              Ht Hl eq_refl) as (w' & Hrun & _).
  unfold Run.clean_shutdown. rewrite Hrun. reflexivity.
Defined.

Lemma login_retry_survives_shutdown_witness :
  ∃ w1 w2,
    _login (Raised ServerTimeoutError) Run.installed = (Ok tt, w1)
    ∧ @async_shutdown Sample.const CancelledError (Returned Sample.docked) 1590000200
        (Returned Sample.docked) w1 = (Ok tt, w2)
    ∧ timers (hass w2) !! next_handle (hass Run.installed) = Some (60, cb_login).
Proof.
  assert (refresh_state_task (hub Run.installed) = None) as Ht
    by (vm_compute; reflexivity).
  assert (refresh_5m_remover (hub Run.installed) = None) as H5
    by (vm_compute; reflexivity).
  assert (refresh_60m_remover (hub Run.installed) = None) as H60
    by (vm_compute; reflexivity).
  destruct (@login_retry_survives_shutdown Sample.const ServerTimeoutError
              CancelledError (Returned Sample.docked) 1590000200 Sample.docked
              Run.installed eq_refl eq_refl Ht H5 H60)
    as (w1 & w2 & Hl & Hs & _ & Htm & _).
  exists w1, w2. split; [exact Hl |]. split; [exact Hs |].
  rewrite Htm. apply lookup_insert_eq.
Defined.

Lemma after_shutdown_nothing_stored_witness :
  _shutdown (hub Run.clean_shutdown.2) = true
  ∧ hub (@_update_state Sample.const (Returned Sample.mowing) 1590000300
           Run.clean_shutdown.2).2
    = hub Run.clean_shutdown.2.
Proof.
  assert (_shutdown (hub Run.clean_shutdown.2) = true) as Hsd
    by (vm_compute; reflexivity).
  split; [exact Hsd |].
  apply (proj1 (@after_shutdown_nothing_stored Sample.const _ Hsd)).
Defined.

(** ** The start of the loops *)

Section Start.
Context `{Const}.

(** A run of [refresh_5m] takes one handle from the host, for its timer. *)
Lemma refresh_5m_next_handle (r_generic r_alerts r_last r_next : response)
    (rnd : nat → Z) (w : World) :
  next_handle (hass (refresh_5m r_generic r_alerts r_last r_next rnd w).2)
  = S (next_handle (hass w)).
Proof.
  set (coros := [ _update_generic_data r_generic; _update_alerts r_alerts;
                  _update_last_completed_mow r_last; _update_next_mow r_next ]).
  destruct (gather_return_exceptions_Ok coros w) as (results & Hres & Hnc).
  assert (Forall not_cancelled coros) as Hcoros.
  { unfold coros. repeat (apply Forall_cons_2;
              [ solve [ auto using _update_generic_data_not_cancelled,
                          _update_alerts_not_cancelled,
                          _update_last_completed_mow_not_cancelled,
                          _update_next_mow_not_cancelled ] |]).
    apply Forall_nil_2. }
  assert (keeps same_control (gather_return_exceptions coros)) as Hk.
  { apply keeps_gather_return_exceptions; [apply _ |].
    unfold coros. repeat (apply Forall_cons_2;
              [ solve [ auto using _update_generic_data_control,
                          _update_alerts_control,
                          _update_last_completed_mow_control,
                          _update_next_mow_control ] |]).
    apply Forall_nil_2. }
  specialize (Hk w). specialize (Hnc Hcoros).
  unfold refresh_5m. fold coros. unfold bind at 1.
  destruct (gather_return_exceptions coros w) as [res w1]. simpl in Hres, Hk.
  subst res. destruct Hk as (Hh & _).
  destruct (refresh_5m_results_spec results rnd Hnc 300 0%nat w1)
    as (delay & Hrun & _).
  unfold bind at 1. rewrite Hrun. simpl. by rewrite Hh.
Qed.

(** A run of [refresh_60m] has set its timer, or has ended with an
    exception and has left the host and the handles of the hub alone. *)
Lemma refresh_60m_run (r : response) (w : World) :
  (∃ w', refresh_60m r w = (Ok tt, w'))
  ∨ (∃ e w', refresh_60m r w = (Raise e, w') ∧ same_control w w').
Proof.
  pose proof (_update_updates_available_control r w) as Hc.
  pose proof (_update_updates_available_not_cancelled r w) as Hnc.
  unfold refresh_60m.
  destruct (_update_updates_available r w) as [[[] | e |] w1] eqn:Hrun; simpl in *.
  - left. rewrite (bind_run _ _ w w1 tt) by done. eexists. reflexivity.
  - right. exists e, w1. by rewrite (bind_raised _ _ w w1 e).
  - done.
Qed.

(** X14: [_initial_update] starts the state loop and the 5-minute batch
    whatever the answers of the client are: it makes the task of the state
    loop, which waits in its long poll, and after the first run of the
    5-minute batch the timer for its next run is set, 300 or 60 to 90
    seconds later. The 60-minute batch is started only if its first run ends
    well: then its timer of 3600 seconds is set too and the handler ends
    well; otherwise the handler ends with the exception of that run, with
    no timer and no remover for the 60-minute batch. *)
Theorem _initial_update_starts_loops (r_generic r_alerts r_last r_next r_updates : response)
    (rnd : nat → Z) (w : World) :
  ∃ delay res w',
    _initial_update r_generic r_alerts r_last r_next r_updates rnd w = (res, w')
    ∧ refresh_state_task (hub w') = Some (next_handle (hass w))
    ∧ tasks (hass w') = <[next_handle (hass w) := refresh_state_pass]> (tasks (hass w))
    ∧ refresh_5m_remover (hub w') = Some (S (next_handle (hass w)))
    ∧ (delay = 300 ∨ 60 ≤ delay ≤ 90)
    ∧ (res = Ok tt →
         refresh_60m_remover (hub w') = Some (S (S (next_handle (hass w))))
         ∧ timers (hass w')
           = <[S (S (next_handle (hass w))) := (3600, cb_refresh_60m)]>
               (<[S (next_handle (hass w)) := (delay, cb_refresh_5m)]>
                  (timers (hass w))))
    ∧ (res ≠ Ok tt →
         (∃ e, res = Raise e)
         ∧ refresh_60m_remover (hub w') = refresh_60m_remover (hub w)
         ∧ timers (hass w')
           = <[S (next_handle (hass w)) := (delay, cb_refresh_5m)]> (timers (hass w))).
Proof.
  destruct (recall_itself_Ok w)
    as (w1 & Hrecall & Ht1 & Htasks1 & Htm1 & H5_1 & H60_1 & _).
  assert (next_handle (hass w1) = S (next_handle (hass w))
          ∧ _initial_update r_generic r_alerts r_last r_next r_updates rnd w
            = gather [ refresh_5m r_generic r_alerts r_last r_next rnd;
                       refresh_60m r_updates ] w1) as [Hn1 ->].
  { unfold _initial_update.
    cbv beta iota delta [recall_itself bind async_create_task fresh_handle modify ret]
      in Hrecall |- *.
    by injection Hrecall as <-. }
  destruct (refresh_5m_spec r_generic r_alerts r_last r_next rnd w1)
    as (results & delay & w2 & _ & Hrun5 & Htm2 & H5_2 & Hto & Hno & Htasks2 & Ht2 & H60_2).
  pose proof (refresh_5m_next_handle r_generic r_alerts r_last r_next rnd w1) as Hn2.
  rewrite Hrun5 in Hn2. simpl in Hn2.
  rewrite Hn1 in Htm2, H5_2, Hn2. rewrite Htm1 in Htm2.
  rewrite Htasks1 in Htasks2. rewrite Ht1 in Ht2. rewrite H60_1 in H60_2.
  assert (delay = 300 ∨ 60 ≤ delay ≤ 90) as Hdelay.
  { destruct (existsb is_timeout results); [right; by apply Hto | left; by apply Hno]. }
  exists delay. simpl. rewrite Hrun5. unfold ret.
  destruct (refresh_60m_run r_updates w2) as [(w3 & Hrun60) | (e & w3 & Hrun60 & Hc)];
    rewrite Hrun60.
  - destruct (refresh_60m_Ok _ _ _ Hrun60) as (Htm3 & H60_3 & Htasks3 & Ht3 & H5_3).
    eexists _, _. split; [reflexivity |].
    rewrite Ht3, Htasks3, H5_3, H60_3, Htm3, Hn2, Htm2.
    by split_and!.
  - destruct Hc as (Hh & Ht3 & H5_3 & H60_3 & _).
    eexists _, _. split; [reflexivity |].
    rewrite Ht3, H5_3, H60_3, Hh.
    split_and!; try done. intros _. split_and!; try done. by exists e.
Qed.

End Start.

(** ** A pass that is past its check *)

Section PastTheCheck.
Context `{Const}.

Lemma _update_operating_data_log r now w :
  api_log (_update_operating_data r now w).2
  = (api_log w ++ [pyIndego.update_operating_data])%list.
Proof. unfold _update_operating_data. apply request_then_log. coroutine. Qed.

(** X15: the state loop reads the shutdown flag once in a pass, before the
    request for the operating data. A pass that waits for the operating
    data when shutdown is signalled goes on as if it were not: with the
    request answered it stores the operating data, the states of
    [ENTITY_ONLINE] and [ENTITY_BATTERY] being those of the answer, and
    makes the task for the next pass, which waits in its long poll. *)
Theorem second_half_ignores_shutdown (c : IndegoAsyncClient) (now : Z) (w : World) :
  const_wf →
  entities_complete w →
  _shutdown (hub w) = true →
  ∃ w', async_refresh_state_tail (Returned c) now w = (Ok tt, w')
    ∧ _shutdown (hub w') = true
    ∧ state_of ENTITY_ONLINE w' = Some (PBool (pyIndego._online c))
    ∧ state_of ENTITY_BATTERY w'
      = Some (pyIndego.percent_adjusted (pyIndego.battery (pyIndego.operating_data c)))
    ∧ refresh_state_task (hub w') = Some (next_handle (hass w))
    ∧ tasks (hass w') = <[next_handle (hass w) := refresh_state_pass]> (tasks (hass w))
    ∧ api_log w' = (api_log w ++ [pyIndego.update_operating_data])%list.
Proof.
  intros Hwf Hw Hsd.
  pose proof (entity_keys_distinct 0 5 _ _ Hwf eq_refl eq_refl ltac:(done)) as Hne.
  destruct (_update_operating_data_always_ok c now w Hw) as ([] & w1 & Hrun & Hw1).
  pose proof (_update_operating_data_control (Returned c) now w) as Hc.
  rewrite Hrun in Hc. simpl in Hc. destruct Hc as (Hh & _ & _ & _ & Hsd1).
  pose proof (_update_operating_data_log (Returned c) now w) as Hlog.
  rewrite Hrun in Hlog. simpl in Hlog.
  destruct (_update_operating_data_Ok _ _ _ _ Hne Hrun)
    as (c' & eo & eb & [= <-] & _ & Heo & Hso & Heb & Hsb).
  destruct (recall_itself_Ok w1)
    as (w2 & Hrec & Ht & Hts & _ & _ & _ & Hents & Hlog2).
  exists w2. split.
  - unfold async_refresh_state_tail. by rewrite (bind_run _ _ w w1 tt).
  - unfold state_of. rewrite Ht, Hts, Hlog2, Hlog, Hh, Hents, Heo, Heb. simpl.
    rewrite Hso, Hsb. split; [| done].
    unfold recall_itself, async_create_task, bind, fresh_handle, modify, ret in Hrec.
    injection Hrec as <-. simpl. by rewrite Hsd1.
Qed.

End PastTheCheck.

(** The sample hub keeps an entity under every key. *)
Lemma run_fetching_complete :
  @entities_complete Sample.const (with_hub (set_shutdown true) Run.fetching).
Proof.
  intros k Hk. apply is_Some_alt.
  unfold entity_keys in Hk.
  repeat (apply elem_of_cons in Hk as [-> | Hk]; [vm_compute; exact I |]).
  exact (False_ind _ (proj1 (elem_of_nil k) Hk)).
Qed.

Lemma run_started_complete : @entities_complete Sample.const Run.started.
Proof.
  intros k Hk. apply is_Some_alt.
  unfold entity_keys in Hk.
  repeat (apply elem_of_cons in Hk as [-> | Hk]; [vm_compute; exact I |]).
  exact (False_ind _ (proj1 (elem_of_nil k) Hk)).
Qed.

Lemma second_half_ignores_shutdown_witness :
  ∃ w', @async_refresh_state_tail Sample.const (Returned Sample.mowing) 1590000200
          (with_hub (set_shutdown true) Run.fetching) = (Ok tt, w')
    ∧ _shutdown (hub w') = true
    ∧ state_of (@ENTITY_BATTERY Sample.const) w'
      = Some (pyIndego.percent_adjusted
                (pyIndego.battery (pyIndego.operating_data Sample.mowing)))
    ∧ refresh_state_task (hub w')
      = Some (next_handle (hass (with_hub (set_shutdown true) Run.fetching))).
Proof.
  destruct (@second_half_ignores_shutdown Sample.const Sample.mowing 1590000200
              (with_hub (set_shutdown true) Run.fetching)
              sample_const_wf run_fetching_complete eq_refl)
    as (w' & Hrun & Hsd & _ & Hb & Ht & _).
  exists w'. split; [exact Hrun |]. split; [exact Hsd |]. split; [exact Hb | exact Ht].
Defined.

(** ** The battery icon on a state without a number *)



(** ** The three loops *)

Section ThreeLoops.
Context `{Const}.

Lemma async_refresh_state_answered (c1 c2 : IndegoAsyncClient) (now : Z) :
  always_ok entities_complete (async_refresh_state (Returned c1) (Returned c2) now).
Proof.
  unfold async_refresh_state.
  apply always_ok_bind; [apply _update_state_always_ok | intros _].
  apply always_ok_bind; [apply always_ok_gets | intros sd].
  destruct sd; [apply always_ok_ret |].
  apply always_ok_bind; [apply always_ok_gets | intros c].
  apply always_ok_bind; [| intros _; apply always_ok_recall_itself].
  destruct (needs_operating_data c);
    [apply _update_operating_data_always_ok | apply always_ok_ret].
Qed.

Lemma refresh_60m_answered (c : IndegoAsyncClient) :
  always_ok entities_complete (refresh_60m (Returned c)).
Proof.
  unfold refresh_60m.
  apply always_ok_bind; [apply _update_updates_available_always_ok | intros _].
  apply always_ok_keeps; [coroutine |]. intros w. by eexists _, _.
Qed.

(** With its four requests answered, the 5-minute batch gathers four
    results that are no exceptions. *)
Lemma refresh_5m_answered (c1 c2 c3 c4 : IndegoAsyncClient) (w : World) :
  entities_complete w →
  (gather_return_exceptions
     [ _update_generic_data (Returned c1); _update_alerts (Returned c2);
       _update_last_completed_mow (Returned c3); _update_next_mow (Returned c4) ] w).1
  = Ok [Ok tt; Ok tt; Ok tt; Ok tt].
Proof.
  intros Hw. simpl. unfold bind, ret.
  destruct (_update_generic_data_always_ok c1 w Hw) as ([] & w1 & E1 & Hw1).
  destruct (_update_alerts_always_ok c2 w1 Hw1) as ([] & w2 & E2 & Hw2).
  destruct (_update_last_completed_mow_always_ok c3 w2 Hw2) as ([] & w3 & E3 & Hw3).
  destruct (_update_next_mow_always_ok c4 w3 Hw3) as ([] & w4 & E4 & Hw4).
  by rewrite E1, E2, E3, E4.
Qed.

(** C3: the three loops and what keeps each of them going. On a hub whose
    entity table is complete, with a client that answers: a pass of the
    state loop, shutdown not being signalled, ends well and has made at
    once a new task for the same coroutine, without a timer; a run of the
    5-minute batch ends well and has set a timer of 300 seconds for
    [refresh_5m]; a run of the 60-minute batch ends well and has set a
    timer of 3600 seconds for [refresh_60m]. Each of them leaves the task
    and the timers of the other two as they are. And whatever the answers
    are, every pass and every run that ends well has done the same. *)
Theorem three_refresh_loops :
  (∀ c1 c2 now w,
     entities_complete w →
     _shutdown (hub w) = false →
     ∃ w', async_refresh_state (Returned c1) (Returned c2) now w = (Ok tt, w')
       ∧ refresh_state_task (hub w') = Some (next_handle (hass w))
       ∧ tasks (hass w') = <[next_handle (hass w) := refresh_state_pass]> (tasks (hass w))
       ∧ timers (hass w') = timers (hass w)
       ∧ refresh_5m_remover (hub w') = refresh_5m_remover (hub w)
       ∧ refresh_60m_remover (hub w') = refresh_60m_remover (hub w))
  ∧ (∀ c1 c2 c3 c4 rnd w,
       entities_complete w →
       ∃ w', refresh_5m (Returned c1) (Returned c2) (Returned c3) (Returned c4) rnd w
             = (Ok tt, w')
         ∧ timers (hass w')
             = <[next_handle (hass w) := (300, cb_refresh_5m)]> (timers (hass w))
         ∧ refresh_5m_remover (hub w') = Some (next_handle (hass w))
         ∧ tasks (hass w') = tasks (hass w)
         ∧ refresh_state_task (hub w') = refresh_state_task (hub w)
         ∧ refresh_60m_remover (hub w') = refresh_60m_remover (hub w))
  ∧ (∀ c w,
       entities_complete w →
       ∃ w', refresh_60m (Returned c) w = (Ok tt, w')
         ∧ timers (hass w')
             = <[next_handle (hass w) := (3600, cb_refresh_60m)]> (timers (hass w))
         ∧ refresh_60m_remover (hub w') = Some (next_handle (hass w))
         ∧ tasks (hass w') = tasks (hass w)
         ∧ refresh_state_task (hub w') = refresh_state_task (hub w)
         ∧ refresh_5m_remover (hub w') = refresh_5m_remover (hub w))
  ∧ (∀ (r_state r_operating : response) now w w',
       _shutdown (hub w) = false →
       async_refresh_state r_state r_operating now w = (Ok tt, w') →
       refresh_state_task (hub w') = Some (next_handle (hass w))
       ∧ tasks (hass w') = <[next_handle (hass w) := refresh_state_pass]> (tasks (hass w))
       ∧ timers (hass w') = timers (hass w)
       ∧ refresh_5m_remover (hub w') = refresh_5m_remover (hub w)
       ∧ refresh_60m_remover (hub w') = refresh_60m_remover (hub w))
  ∧ (∀ (r_generic r_alerts r_last r_next : response) rnd w,
       (gather_return_exceptions
          [ _update_generic_data r_generic; _update_alerts r_alerts;
            _update_last_completed_mow r_last; _update_next_mow r_next ] w).1
         = Ok [Ok tt; Ok tt; Ok tt; Ok tt] →
       ∃ w', refresh_5m r_generic r_alerts r_last r_next rnd w = (Ok tt, w')
         ∧ timers (hass w')
             = <[next_handle (hass w) := (300, cb_refresh_5m)]> (timers (hass w))
         ∧ refresh_5m_remover (hub w') = Some (next_handle (hass w))
         ∧ tasks (hass w') = tasks (hass w)
         ∧ refresh_state_task (hub w') = refresh_state_task (hub w)
         ∧ refresh_60m_remover (hub w') = refresh_60m_remover (hub w))
  ∧ (∀ (r : response) w w',
       refresh_60m r w = (Ok tt, w') →
       timers (hass w')
         = <[next_handle (hass w) := (3600, cb_refresh_60m)]> (timers (hass w))
       ∧ refresh_60m_remover (hub w') = Some (next_handle (hass w))
       ∧ tasks (hass w') = tasks (hass w)
       ∧ refresh_state_task (hub w') = refresh_state_task (hub w)
       ∧ refresh_5m_remover (hub w') = refresh_5m_remover (hub w)).
Proof.
  assert (∀ (r_generic r_alerts r_last r_next : response) rnd w,
       (gather_return_exceptions
          [ _update_generic_data r_generic; _update_alerts r_alerts;
            _update_last_completed_mow r_last; _update_next_mow r_next ] w).1
         = Ok [Ok tt; Ok tt; Ok tt; Ok tt] →
       ∃ w', refresh_5m r_generic r_alerts r_last r_next rnd w = (Ok tt, w')
         ∧ timers (hass w')
             = <[next_handle (hass w) := (300, cb_refresh_5m)]> (timers (hass w))
         ∧ refresh_5m_remover (hub w') = Some (next_handle (hass w))
         ∧ tasks (hass w') = tasks (hass w)
         ∧ refresh_state_task (hub w') = refresh_state_task (hub w)
         ∧ refresh_60m_remover (hub w') = refresh_60m_remover (hub w)) as H5.
  { intros r_generic r_alerts r_last r_next rnd w Hres.
    destruct (refresh_5m_spec r_generic r_alerts r_last r_next rnd w)
      as (results & delay & w' & Hres' & Hrun & Htm & H5 & _ & Hd & Ht & Hst & H60).
    rewrite Hres in Hres'. injection Hres' as <-.
    rewrite (Hd eq_refl) in Htm. by exists w'. }
  split_and!.
  - intros c1 c2 now w Hw Hsd.
    destruct (async_refresh_state_answered c1 c2 now w Hw) as ([] & w' & Hrun & _).
    exists w'. split; [exact Hrun |].
    exact (async_refresh_state_recalls _ _ _ _ _ Hsd Hrun).
  - intros c1 c2 c3 c4 rnd w Hw.
    exact (H5 _ _ _ _ rnd w (refresh_5m_answered c1 c2 c3 c4 w Hw)).
  - intros c w Hw.
    destruct (refresh_60m_answered c w Hw) as ([] & w' & Hrun & _).
    exists w'. split; [exact Hrun |]. exact (refresh_60m_Ok _ _ _ Hrun).
  - apply async_refresh_state_recalls.
  - exact H5.
  - apply refresh_60m_Ok.
Qed.

End ThreeLoops.

(** On the sample hub after its start, each of the three loops goes on. *)
Lemma three_refresh_loops_witness :
  (∃ w', @async_refresh_state Sample.const (Returned Sample.mowing)
           (Returned Sample.mowing) 1590000100 Run.started = (Ok tt, w')
     ∧ refresh_state_task (hub w') = Some (next_handle (hass Run.started)))
  ∧ (∃ w', @refresh_5m Sample.const (Returned Sample.docked) (Returned Sample.docked)
             (Returned Sample.docked) (Returned Sample.docked) (fun _ => 0) Run.started
           = (Ok tt, w')
       ∧ timers (hass w')
         = <[next_handle (hass Run.started) := (300, cb_refresh_5m)]>
             (timers (hass Run.started)))
  ∧ (∃ w', @refresh_60m Sample.const (Returned Sample.docked) Run.started = (Ok tt, w')
       ∧ timers (hass w')
         = <[next_handle (hass Run.started) := (3600, cb_refresh_60m)]>
             (timers (hass Run.started))).
Proof.
  assert (_shutdown (hub Run.started) = false) as Hsd by (vm_compute; reflexivity).
  destruct (@three_refresh_loops Sample.const) as (Hstate & H5 & H60 & _).
  split; [| split].
  - destruct (Hstate Sample.mowing Sample.mowing 1590000100 Run.started
                run_started_complete Hsd) as (w' & Hrun & Ht & _).
    exists w'. split; [exact Hrun | exact Ht].
  - destruct (H5 Sample.docked Sample.docked Sample.docked Sample.docked (fun _ => 0)
                Run.started run_started_complete) as (w' & Hrun & Htm & _).
    exists w'. split; [exact Hrun | exact Htm].
  - destruct (H60 Sample.docked Run.started run_started_complete)
      as (w' & Hrun & Htm & _).
    exists w'. split; [exact Hrun | exact Htm].
Defined.

(** ** The 5-minute batch on the sample hub *)

(** One update times out: the batch ends well and comes back after 60 to 90
    seconds. *)
Lemma refresh_5m_reschedules_witness :
  ∃ delay w',
    @refresh_5m Sample.const (Returned Sample.docked) (Raised ServerTimeoutError)
      (Returned Sample.docked) (Returned Sample.docked) (fun _ => 17) Run.started
    = (Ok tt, w')
    ∧ timers (hass w')
      = <[next_handle (hass Run.started) := (delay, cb_refresh_5m)]>
          (timers (hass Run.started))
    ∧ 60 ≤ delay ≤ 90.
Proof.
  assert ((gather_return_exceptions
             [ @_update_generic_data Sample.const (Returned Sample.docked);
               @_update_alerts Sample.const (Raised ServerTimeoutError);
               @_update_last_completed_mow Sample.const (Returned Sample.docked);
               @_update_next_mow Sample.const (Returned Sample.docked) ] Run.started).1
          = Ok [Ok tt; Raise ServerTimeoutError; Ok tt; Ok tt]) as Hres
    by (vm_compute; reflexivity).
  destruct (@refresh_5m_reschedules Sample.const (Returned Sample.docked)
              (Raised ServerTimeoutError) (Returned Sample.docked)
              (Returned Sample.docked) (fun _ => 17) Run.started)
    as (results & Hres' & Hok & _).
  pose proof (eq_trans (eq_sym Hres) Hres') as E. injection E as <-.
  destruct (Hok eq_refl) as (delay & w' & Hrun & Htm & _ & Hto & _).
  exists delay, w'. split; [exact Hrun |]. split; [exact Htm |].
  apply Hto. reflexivity.
Defined.

(** One update ends with the [CancelledError]: the batch ends with it, and
    no timer is set for a next run. *)
Lemma refresh_5m_reschedules_counterexample :
  (@refresh_5m Sample.const (Returned Sample.docked) CancelledError
     (Returned Sample.docked) (Returned Sample.docked) (fun _ => 0) Run.started).1
  = Cancelled
  ∧ timers (hass (@refresh_5m Sample.const (Returned Sample.docked) CancelledError
                    (Returned Sample.docked) (Returned Sample.docked) (fun _ => 0)
                    Run.started).2)
    = timers (hass Run.started)
  ∧ ¬ ∃ w', @refresh_5m Sample.const (Returned Sample.docked) CancelledError
              (Returned Sample.docked) (Returned Sample.docked) (fun _ => 0)
              Run.started = (Ok tt, w').
Proof.
  assert ((@refresh_5m Sample.const (Returned Sample.docked) CancelledError
             (Returned Sample.docked) (Returned Sample.docked) (fun _ => 0)
             Run.started).1 = Cancelled) as Hc by (vm_compute; reflexivity).
  split; [exact Hc |]. split; [vm_compute; reflexivity |].
  intros (w' & Hrun). rewrite Hrun in Hc. discriminate Hc.
Qed.
